(** * frankenphp-cli: site provisioning, state store and validators

    A shallow embedding of the Python package [frankenphp_cli]
    (utils/validators.py, utils/state.py, utils/system.py, core/database.py,
    core/user.py, core/caddy.py, core/wordpress.py, core/site.py) and the
    properties of its natural-language specification.

    Conventions of the embedding.
    - A Python [str] is a Rocq [string]; every [ascii] stands for the code
      point of the same number (0..255), so the model covers the Latin-1
      fragment of Python strings exactly ([lower], [strip] and the regular
      expression classes are written out for those code points).
    - A [dict] with string keys is a [gmap string _], a [set] a [gset].
    - Effects are explicit: every operation is a function from the state
      of the host (file system, OS accounts, SQL server, process memory) to
      a new state and either a result or a raised exception. *)

From Stdlib Require Import Ascii String ZArith Lia.
From stdpp Require Import gmap strings list fin_maps sorting.

Local Open Scope Z_scope.

(* ===================================================================== *)
(** * Python string operations *)
(* ===================================================================== *)

Module PyStr.

(** The line feed, [chr(10)]. *)
Definition LF : ascii := ascii_of_nat 10.
Definition NL : string := String LF "".

Definition code (c : ascii) : nat := nat_of_ascii c.

Definition in_range (lo hi : nat) (c : ascii) : bool :=
  (lo <=? code c)%nat && (code c <=? hi)%nat.

(** [str.isspace] on one code point below 256: the ASCII white space
    9..13, the separators 28..31, the blank, NEL (0x85) and NBSP (0xA0). *)
Definition isspace (c : ascii) : bool :=
  in_range 9 13 c || in_range 28 31 c
  || (code c =? 32)%nat || (code c =? 133)%nat || (code c =? 160)%nat.

(** [str.lower] on one code point below 256: A..Z and the Latin-1 capitals
    0xC0..0xDE (the multiplication sign 0xD7 apart) move up by 32. *)
Definition lower_char (c : ascii) : ascii :=
  if in_range 65 90 c || (in_range 192 222 c && negb (code c =? 215)%nat)
  then ascii_of_nat (code c + 32) else c.

Fixpoint lower (s : string) : string :=
  match s with
  | EmptyString => EmptyString
  | String c s' => String (lower_char c) (lower s')
  end.

Fixpoint lstrip (s : string) : string :=
  match s with
  | EmptyString => EmptyString
  | String c s' => if isspace c then lstrip s' else s
  end.

Fixpoint rstrip (s : string) : string :=
  match s with
  | EmptyString => EmptyString
  | String c s' =>
      match rstrip s' with
      | EmptyString => if isspace c then EmptyString else String c EmptyString
      | r => String c r
      end
  end.

(** [s.strip()] *)
Definition strip (s : string) : string := lstrip (rstrip s).

(** [len(s)] *)
Definition len (s : string) : nat := String.length s.

(** [s[:n]] *)
Fixpoint take (n : nat) (s : string) : string :=
  match n, s with
  | S k, String c s' => String c (take k s')
  | _, _ => EmptyString
  end.

(** [s.split(sep)[0]] for a one-character separator. *)
Fixpoint split_head (sep : ascii) (s : string) : string :=
  match s with
  | EmptyString => EmptyString
  | String c s' =>
      if Ascii.eqb c sep then EmptyString else String c (split_head sep s')
  end.

(** [s.replace(a, b)] for one-character [a] and [b]. *)
Fixpoint replace_char (a b : ascii) (s : string) : string :=
  match s with
  | EmptyString => EmptyString
  | String c s' =>
      String (if Ascii.eqb c a then b else c) (replace_char a b s')
  end.

(** [s.startswith(p)] *)
Fixpoint startswith (p s : string) : bool :=
  match p, s with
  | EmptyString, _ => true
  | String a p', String c s' => Ascii.eqb a c && startswith p' s'
  | String _ _, EmptyString => false
  end.

(** [needle in s] *)
Fixpoint contains (needle s : string) : bool :=
  startswith needle s
  || match s with
     | EmptyString => false
     | String _ s' => contains needle s'
     end.

(** [s.replace(old, new)] for a non-empty [old]: occurrences are replaced
    from left to right and do not overlap.  [skip] counts the characters
    of an occurrence that are still to be dropped. *)
Fixpoint replace_go (old new : string) (skip : nat) (s : string) : string :=
  match s with
  | EmptyString => EmptyString
  | String c s' =>
      match skip with
      | S k => replace_go old new k s'
      | O =>
          if startswith old s
          then new +:+ replace_go old new (len old - 1) s'
          else String c (replace_go old new 0 s')
      end
  end.

Definition replace (old new s : string) : string := replace_go old new 0 s.

(** [sep.join(l)] *)
Fixpoint join (sep : string) (l : list string) : string :=
  match l with
  | [] => EmptyString
  | [x] => x
  | x :: rest => x +:+ sep +:+ join sep rest
  end.

(** Truth value of a string: [bool(s)]. *)
Definition nonempty (s : string) : bool :=
  match s with EmptyString => false | _ => true end.

End PyStr.

(* ===================================================================== *)
(** * Regular expressions (the fragment of [re] the package uses) *)
(* ===================================================================== *)

Module Re.

Inductive regex : Type :=
| Void                          (* matches nothing *)
| Eps                           (* the empty string *)
| Class (p : ascii → bool)      (* one character of a class *)
| Cat (r1 r2 : regex)
| Alt (r1 r2 : regex)
| Star (r : regex).

(** Derived forms. *)
Definition Opt (r : regex) : regex := Alt Eps r.            (* r? *)
Definition Plus (r : regex) : regex := Cat r (Star r).      (* r+ *)
(** [r{0,n}] *)
Fixpoint UpTo (n : nat) (r : regex) : regex :=
  match n with
  | O => Eps
  | S k => Opt (Cat r (UpTo k r))
  end.
(** [r{2,}] *)
Definition AtLeast2 (r : regex) : regex := Cat r (Cat r (Star r)).

Fixpoint nullable (r : regex) : bool :=
  match r with
  | Void => false
  | Eps => true
  | Class _ => false
  | Cat r1 r2 => nullable r1 && nullable r2
  | Alt r1 r2 => nullable r1 || nullable r2
  | Star _ => true
  end.

Definition cat (r1 r2 : regex) : regex :=
  match r1, r2 with
  | Void, _ => Void
  | _, Void => Void
  | Eps, _ => r2
  | _, _ => Cat r1 r2
  end.

Definition alt (r1 r2 : regex) : regex :=
  match r1, r2 with
  | Void, _ => r2
  | _, Void => r1
  | _, _ => Alt r1 r2
  end.

(** Brzozowski derivative. *)
Fixpoint deriv (c : ascii) (r : regex) : regex :=
  match r with
  | Void => Void
  | Eps => Void
  | Class p => if p c then Eps else Void
  | Cat r1 r2 =>
      alt (cat (deriv c r1) r2) (if nullable r1 then deriv c r2 else Void)
  | Alt r1 r2 => alt (deriv c r1) (deriv c r2)
  | Star r1 => cat (deriv c r1) (Star r1)
  end.

(** The whole of [s] is a word of [r]. *)
Fixpoint matches (r : regex) (s : string) : bool :=
  match s with
  | EmptyString => nullable r
  | String c s' => matches (deriv c r) s'
  end.

(** A compiled pattern [^body$] (no flags). *)
Record pattern := Anchored { body : regex }.

(** [p.fullmatch(s)]: the match must span the whole string, so the
    end anchor can only hold at the very end. *)
Definition fullmatch (p : pattern) (s : string) : bool :=
  matches (body p) s.

(** [s] without its last character, when that character is a line feed. *)
Fixpoint chop_newline (s : string) : option string :=
  match s with
  | EmptyString => None
  | String c EmptyString =>
      if Ascii.eqb c PyStr.LF then Some EmptyString else None
  | String c s' => option_map (String c) (chop_newline s')
  end.

(** [p.match(s)]: the match starts at 0 and need not span the string, but
    the end anchor [$] holds at the end of the string and also just
    before a line feed that ends the string. *)
Definition match_ (p : pattern) (s : string) : bool :=
  matches (body p) s
  || match chop_newline s with
     | Some s' => matches (body p) s'
     | None => false
     end.

(** Character classes. *)
Definition alpha (c : ascii) : bool :=
  PyStr.in_range 97 122 c || PyStr.in_range 65 90 c.     (* [a-zA-Z] *)
Definition digit (c : ascii) : bool := PyStr.in_range 48 57 c.
Definition alnum (c : ascii) : bool := alpha c || digit c. (* [a-zA-Z0-9] *)
Definition word (c : ascii) : bool :=
  alnum c || Ascii.eqb c "_".                              (* [a-zA-Z0-9_] *)
Definition alnum_hyphen (c : ascii) : bool :=
  alnum c || Ascii.eqb c "-".                              (* [a-zA-Z0-9-] *)
Definition chr (a : ascii) (c : ascii) : bool := Ascii.eqb c a.

End Re.

(* ===================================================================== *)
(** * config.py *)
(* ===================================================================== *)

Module Config.

(** [PASSWORD_LENGTH = 32] *)
Definition PASSWORD_LENGTH : nat := 32.

(** [DOMAIN_REGEX =
     ^(?:[a-zA-Z0-9](?:[a-zA-Z0-9-]{0,61}[a-zA-Z0-9])?\.)+[a-zA-Z]{2,}$] *)
Definition DOMAIN_REGEX : Re.pattern :=
  Re.Anchored
    (Re.Cat
       (Re.Plus
          (Re.Cat (Re.Class Re.alnum)
             (Re.Cat
                (Re.Opt (Re.Cat (Re.UpTo 61 (Re.Class Re.alnum_hyphen))
                                (Re.Class Re.alnum)))
                (Re.Class (Re.chr ".")))))
       (Re.AtLeast2 (Re.Class Re.alpha))).

End Config.

(* ===================================================================== *)
(** * utils/validators.py *)
(* ===================================================================== *)

Module Validators.

(** [IDENTIFIER_REGEX = re.compile(r"^[a-zA-Z][a-zA-Z0-9_]{0,63}$")] *)
Definition IDENTIFIER_REGEX : Re.pattern :=
  Re.Anchored (Re.Cat (Re.Class Re.alpha) (Re.UpTo 63 (Re.Class Re.word))).

Definition DOMAIN_PATTERN : Re.pattern := Config.DOMAIN_REGEX.

Definition validate_domain (domain : string) : bool :=
  let domain := PyStr.lower (PyStr.strip domain) in
  if negb (PyStr.nonempty domain) || (253 <? PyStr.len domain)%nat
  then false
  else Re.fullmatch DOMAIN_PATTERN domain.

(** The loop of [validate_domains] over the aliases, with the set [seen]. *)
Fixpoint validate_aliases (seen : gset string) (aliases : list string)
  : bool * string :=
  match aliases with
  | [] => (true, "")
  | alias :: rest =>
      if negb (validate_domain alias)
      then (false, "Invalid alias: " +:+ alias)
      else if bool_decide (PyStr.lower alias ∈ seen)
      then (false, "Duplicate domain: " +:+ alias)
      else validate_aliases (seen ∪ {[PyStr.lower alias]}) rest
  end.

Definition validate_domains (primary : string) (aliases : list string)
  : bool * string :=
  if negb (validate_domain primary)
  then (false, "Invalid primary domain: " +:+ primary)
  else validate_aliases {[PyStr.lower primary]} aliases.

Definition validate_identifier (name : string) : bool :=
  if negb (PyStr.nonempty name) || (64 <? PyStr.len name)%nat
  then false
  else Re.match_ IDENTIFIER_REGEX name.

End Validators.

Example validate_domain_tests :
  Validators.validate_domain "example.com" = true
  ∧ Validators.validate_domain "sub.domain.example.com" = true
  ∧ Validators.validate_domain "" = false
  ∧ Validators.validate_domain "invalid" = false
  ∧ Validators.validate_domain ".example.com" = false
  ∧ Validators.validate_domain "example..com" = false.
Proof. vm_compute. repeat split. Qed.

Example validate_domains_tests :
  Validators.validate_domains "example.com" ["www.example.com"] = (true, "")
  ∧ Validators.validate_domains "example.com" ["example.com"]
    = (false, "Duplicate domain: example.com").
Proof. vm_compute. repeat split. Qed.

Example validate_identifier_tests :
  Validators.validate_identifier "example_db" = true
  ∧ Validators.validate_identifier "user123" = true
  ∧ Validators.validate_identifier "" = false
  ∧ Validators.validate_identifier "123leading" = false
  ∧ Validators.validate_identifier "has-dash" = false.
Proof. vm_compute. repeat split. Qed.

(* ===================================================================== *)
(** * Python values, exceptions and results *)
(* ===================================================================== *)

Module Py.

(** The exception classes the package raises or lets through. *)
Inductive exn : Type :=
| ValueError (msg : string)
| TypeError
| AttributeError
| RuntimeError (msg : string)
| JSONDecodeError              (* a ValueError: text that is not JSON *)
| UnicodeDecodeError           (* a ValueError: bytes that are not UTF-8 *)
| FileExistsError (path : string)      (* OSError *)
| IsADirectoryError (path : string)    (* OSError *)
| NotADirectoryError (path : string)   (* OSError *)
| FileNotFoundError (path : string)    (* OSError *)
| DirectoryNotEmpty (path : string)    (* OSError *)
| URLError                             (* OSError *)
| TarError
| CalledProcessError (cmd : list string)
| MySQLError.

Definition is_OSError (e : exn) : bool :=
  match e with
  | FileExistsError _ | IsADirectoryError _ | NotADirectoryError _
  | FileNotFoundError _ | DirectoryNotEmpty _ | URLError => true
  | _ => false
  end.

Definition is_JSONDecodeError (e : exn) : bool :=
  match e with JSONDecodeError => true | _ => false end.

Definition is_CalledProcessError (e : exn) : bool :=
  match e with CalledProcessError _ => true | _ => false end.

Definition is_MySQLError (e : exn) : bool :=
  match e with MySQLError => true | _ => false end.

Inductive result (A : Type) : Type :=
| Ok (a : A)
| Raise (e : exn).
Arguments Ok {A} a.
Arguments Raise {A} e.

Definition raised {A} (r : result A) : bool :=
  match r with Raise _ => true | Ok _ => false end.

(** JSON documents, as [json.load] builds them and [json.dump] accepts
    them.  Equality of [JDict] is equality of finite maps, the [==] of
    Python dicts. *)
#[warnings="-register-all"] Inductive json : Type :=
| JNull
| JBool (b : bool)
| JInt (n : Z)
| JStr (s : string)
| JList (l : list json)
| JDict (m : gmap string json).

(** [bool(v)] *)
Definition truthy (v : json) : bool :=
  match v with
  | JNull => false
  | JBool b => b
  | JInt n => negb (n =? 0)
  | JStr s => PyStr.nonempty s
  | JList l => match l with [] => false | _ => true end
  | JDict m => negb (size m =? 0)%nat
  end.

(** [bool(o)] for a value that may be [None]. *)
Definition truthy_opt (o : option json) : bool :=
  match o with Some v => truthy v | None => false end.

(** [v.get(key)]: only a dict has the method. *)
Definition dict_get (v : json) (key : string) : result (option json) :=
  match v with
  | JDict m => Ok (m !! key)
  | _ => Raise AttributeError
  end.

End Py.
Export Py.

(* ===================================================================== *)
(** * The host: file system, accounts, SQL server, process memory *)
(* ===================================================================== *)

(** A file-system entry. *)
Inductive node : Type :=
| Dir
| File (text : string).

(** What a path of the state directory holds. *)
Inductive entry : Type :=
| Absent
| Directory
| Regular.

(** The state file, by what reading it yields. *)
Inductive state_file_content : Type :=
| Missing                      (* no such file *)
| IsDir                        (* a directory sits at the path *)
| NotUtf8                      (* bytes that do not decode *)
| NotJson                      (* text that does not parse *)
| Json (v : json).             (* text that parses to [v] *)

Inductive sql : Type :=
| CreateDatabase (db : string)               (* CREATE DATABASE IF NOT EXISTS *)
| CreateUser (user password : string)        (* CREATE USER IF NOT EXISTS *)
| GrantAll (db user : string)
| FlushPrivileges
| DropDatabase (db : string)                 (* DROP DATABASE IF EXISTS *)
| DropUser (user : string).                  (* DROP USER IF EXISTS *)

(** What the program did to its surroundings, in order: to the web root
    tree, to the proxy configuration directory, to the state directory,
    through external commands, on the SQL server and on the network. *)
Inductive event : Type :=
| EvMkdir (path : string)
| EvRmtree (path : string)
| EvRmdir (path : string)
| EvWrite (path : string)
| EvProxyMkdir
| EvProxyWrite (path : string)
| EvProxyUnlink (path : string)
| EvStateMkdir
| EvSaveState
| EvRun (cmd : list string) (ok : bool)
| EvConnect (ok : bool)
| EvSql (q : sql) (ok : bool)
| EvFetch (url : string) (ok : bool)
| EvExtract (dir : string) (ok : bool).

(** The host.  The configured locations are kept apart: [fs] holds the
    web root tree (and the home directories), [proxy] the entries of
    CADDY_CONFIG_DIR, [state_dir] and [state_file] the state directory;
    a configuration that nests one location inside another is outside
    the model (see [locations_apart] below).  Permissions and media errors are not modelled: a file
    operation fails only for the shape of the file system. *)
Record World : Type := mkWorld {
  fs : gmap string node;
  caddy_dir : entry;
  proxy : gmap string node;
  state_dir : entry;
  state_file : state_file_content;
  users : gmap string string;            (* account ↦ home directory *)
  databases : gset string;
  db_users : gmap string string;         (* SQL account ↦ password *)
  grants : gset (string * string);       (* (database, SQL account) *)
  default_sites : gmap string json;      (* the dict DEFAULT_STATE["sites"] *)
  rng : nat;                             (* random choices made so far *)
  trace : list event
}.

(** What lies outside the program and is not determined by the host state:
    whether an external command, the SQL server or the network fails at a
    given moment (the moment is the number of events so far), and the
    random choices of [secrets].  *)
Record Oracle : Type := mkOracle {
  proc_fails : list string → nat → bool;
  connect_fails : nat → bool;
  sql_fails : sql → nat → bool;
  fetch_fails : nat → bool;
  extract_fails : nat → bool;
  rand : nat → nat
}.

(** The configuration of config.py (environment and package files). *)
Record Env : Type := mkEnv {
  STATE_DIR : string;
  STATE_FILE : string;
  WEB_ROOT : string;
  CADDY_CONFIG_DIR : string;
  CADDY_RELOAD_CMD : list string;
  WP_DOWNLOAD_URL : string;
  (** templates/caddy.tpl and templates/wp-config.tpl are not among the
      sources: their text, when the file exists, is a parameter. *)
  CADDY_TEMPLATE : option string;
  WP_CONFIG_TEMPLATE : option string;
  (** the top-level entries of the release archive, below [wordpress/] *)
  WP_ARCHIVE : list (string * node);
  oracle : Oracle
}.

(* ===================================================================== *)
(** * State and exception monad *)
(* ===================================================================== *)

Module Eff.

(** A computation over a state [S] that returns or raises; the state
    survives a raise, as the effects of a Python function do. *)
Definition M (S A : Type) : Type := S → S * result A.

Definition ret {S A} (a : A) : M S A := λ s, (s, Ok a).
Definition raise {S A} (e : exn) : M S A := λ s, (s, Raise e).

Definition bind {S A B} (m : M S A) (k : A → M S B) : M S B :=
  λ s, match m s with
       | (s', Ok a) => k a s'
       | (s', Raise e) => (s', Raise e)
       end.

Definition get {S} : M S S := λ s, (s, Ok s).
Definition modify {S} (f : S → S) : M S unit := λ s, (f s, Ok tt).

(** [try: m except <classes>: h] *)
Definition try_except {S A} (m : M S A) (catches : exn → bool)
    (h : exn → M S A) : M S A :=
  λ s, match m s with
       | (s', Raise e) => if catches e then h e s' else (s', Raise e)
       | r => r
       end.

(** A pure result that may raise. *)
Definition lift_result {S A} (r : result A) : M S A := λ s, (s, r).

(** [if c: m] *)
Definition when {S} (c : bool) (m : M S unit) : M S unit :=
  if c then m else ret tt.

(** [for x in l: f(x)] *)
Fixpoint for_each {S A} (l : list A) (f : A → M S unit) : M S unit :=
  match l with
  | [] => ret tt
  | x :: rest => bind (f x) (λ _, for_each rest f)
  end.

(** Run a computation on the first component of a pair state. *)
Definition on_fst {S L A} (m : M S A) : M (S * L) A :=
  λ '(s, l), match m s with (s', r) => ((s', l), r) end.

End Eff.
Export Eff.

Notation "'let!' x ':=' m 'in' k" := (bind m (λ x, k))
  (at level 10, x name, m at level 100, k at level 200,
   format "'[v' 'let!'  x  ':='  m  'in' '/' k ']'").
Notation "'let!' ' pat ':=' m 'in' k" :=
  (bind m (λ x, match x with pat => k end))
  (at level 10, pat pattern, m at level 100, k at level 200,
   format "'[v' 'let!'  ' pat  ':='  m  'in' '/' k ']'").
Notation "m >> k" := (bind m (λ _, k))
  (at level 100, k at level 200, right associativity,
   format "'[v' m  >> '/' k ']'").

(* ===================================================================== *)
(** * Paths and the primitive operations on the host *)
(* ===================================================================== *)

Module Path.

Definition has_slash (s : string) : bool := PyStr.contains "/" s.

(** [p / name], for a [p] as pathlib prints it and a [name] that is not
    empty, not absolute and without a separator at its end; the file names
    of the program and the validated domains are such names. *)
Definition join (p name : string) : string := p +:+ "/" +:+ name.

(** [p.parent]: the path up to its last separator. *)
Fixpoint parent (s : string) : string :=
  match s with
  | EmptyString => EmptyString
  | String c s' => if has_slash s' then String c (parent s') else EmptyString
  end.

(** [p.name]: what follows the last separator. *)
Fixpoint name (s : string) : string :=
  match s with
  | EmptyString => EmptyString
  | String c s' => if has_slash s then name s' else s
  end.

(** [p] is [dir] or lies below it. *)
Definition within (dir p : string) : bool :=
  String.eqb p dir || PyStr.startswith (dir +:+ "/") p.

(** [p] is an entry of the directory [dir] itself. *)
Definition child_of (dir p : string) : bool :=
  PyStr.startswith (dir +:+ "/") p && String.eqb (parent p) dir.

End Path.

Module Host.

Definition clock (w : World) : nat := length (trace w).

Definition log (ev : event) (w : World) : World :=
  mkWorld (fs w) (caddy_dir w) (proxy w) (state_dir w) (state_file w)
    (users w) (databases w) (db_users w) (grants w) (default_sites w)
    (rng w) (trace w ++ [ev]).

Definition set_fs (m : gmap string node) (w : World) : World :=
  mkWorld m (caddy_dir w) (proxy w) (state_dir w) (state_file w)
    (users w) (databases w) (db_users w) (grants w) (default_sites w)
    (rng w) (trace w).

Definition set_caddy_dir (e : entry) (w : World) : World :=
  mkWorld (fs w) e (proxy w) (state_dir w) (state_file w)
    (users w) (databases w) (db_users w) (grants w) (default_sites w)
    (rng w) (trace w).

Definition set_proxy (m : gmap string node) (w : World) : World :=
  mkWorld (fs w) (caddy_dir w) m (state_dir w) (state_file w)
    (users w) (databases w) (db_users w) (grants w) (default_sites w)
    (rng w) (trace w).

Definition set_state_dir (e : entry) (w : World) : World :=
  mkWorld (fs w) (caddy_dir w) (proxy w) e (state_file w)
    (users w) (databases w) (db_users w) (grants w) (default_sites w)
    (rng w) (trace w).

Definition set_state_file (c : state_file_content) (w : World) : World :=
  mkWorld (fs w) (caddy_dir w) (proxy w) (state_dir w) c
    (users w) (databases w) (db_users w) (grants w) (default_sites w)
    (rng w) (trace w).

Definition set_users (m : gmap string string) (w : World) : World :=
  mkWorld (fs w) (caddy_dir w) (proxy w) (state_dir w) (state_file w)
    m (databases w) (db_users w) (grants w) (default_sites w)
    (rng w) (trace w).

Definition set_databases (d : gset string) (w : World) : World :=
  mkWorld (fs w) (caddy_dir w) (proxy w) (state_dir w) (state_file w)
    (users w) d (db_users w) (grants w) (default_sites w)
    (rng w) (trace w).

Definition set_db_users (m : gmap string string) (w : World) : World :=
  mkWorld (fs w) (caddy_dir w) (proxy w) (state_dir w) (state_file w)
    (users w) (databases w) m (grants w) (default_sites w)
    (rng w) (trace w).

Definition set_grants (g : gset (string * string)) (w : World) : World :=
  mkWorld (fs w) (caddy_dir w) (proxy w) (state_dir w) (state_file w)
    (users w) (databases w) (db_users w) g (default_sites w)
    (rng w) (trace w).

Definition set_default_sites (m : gmap string json) (w : World) : World :=
  mkWorld (fs w) (caddy_dir w) (proxy w) (state_dir w) (state_file w)
    (users w) (databases w) (db_users w) (grants w) m
    (rng w) (trace w).

Definition set_rng (n : nat) (w : World) : World :=
  mkWorld (fs w) (caddy_dir w) (proxy w) (state_dir w) (state_file w)
    (users w) (databases w) (db_users w) (grants w) (default_sites w)
    n (trace w).

(** The tree below and including [p] removed. *)
Definition remove_tree (p : string) (m : gmap string node) : gmap string node :=
  filter (λ kv, Path.within p kv.1 = false) m.

(** The entries of the directory [dir]. *)
Definition entries (dir : string) (m : gmap string node) : list string :=
  (map_to_list (filter (λ kv, Path.child_of dir kv.1 = true) m)).*1.

(** Some path lies strictly below [dir]. *)
Definition occupied (dir : string) (m : gmap string node) : bool :=
  match entries dir m with [] => false | _ => true end.

(** [p.exists()] *)
Definition exists_ (p : string) : M World bool :=
  λ w, (w, Ok (match fs w !! p with Some _ => true | None => false end)).

(** [p.mkdir(parents=True, exist_ok=exist_ok)].  The ancestors of [p] are
    not tracked. *)
Definition mkdir (p : string) (exist_ok : bool) : M World unit :=
  λ w, match fs w !! p with
       | Some Dir =>
           if exist_ok then (w, Ok tt) else (w, Raise (FileExistsError p))
       | Some (File _) => (w, Raise (FileExistsError p))
       | None => (log (EvMkdir p) (set_fs (<[p := Dir]> (fs w)) w), Ok tt)
       end.

(** [shutil.rmtree(p)] *)
Definition rmtree (p : string) : M World unit :=
  λ w, match fs w !! p with
       | Some Dir =>
           (log (EvRmtree p) (set_fs (remove_tree p (fs w)) w), Ok tt)
       | Some (File _) => (w, Raise (NotADirectoryError p))
       | None => (w, Raise (FileNotFoundError p))
       end.

(** [p.rmdir()] *)
Definition rmdir (p : string) : M World unit :=
  λ w, match fs w !! p with
       | Some Dir =>
           if occupied p (fs w) then (w, Raise (DirectoryNotEmpty p))
           else (log (EvRmdir p) (set_fs (delete p (fs w)) w), Ok tt)
       | Some (File _) => (w, Raise (NotADirectoryError p))
       | None => (w, Raise (FileNotFoundError p))
       end.

(** [p.write_text(text)] *)
Definition write_text (p text : string) : M World unit :=
  λ w, match fs w !! p with
       | Some Dir => (w, Raise (IsADirectoryError p))
       | _ => (log (EvWrite p) (set_fs (<[p := File text]> (fs w)) w), Ok tt)
       end.

(** The commands the package runs, by what they do to the host. *)
Inductive command : Type :=
| Useradd (home name : string)        (* useradd -m -d home name *)
| Userdel (remove_home : bool) (name : string)
| Mv (src dst : string)               (* mv src dst, [dst] a directory *)
| Other.                              (* no effect on the modelled host *)

Definition parse (argv : list string) : command :=
  match argv with
  | [c; name] =>
      if String.eqb c "userdel" then Userdel false name else Other
  | [c; a; b] =>
      if String.eqb c "userdel" && String.eqb a "-r" then Userdel true b
      else if String.eqb c "mv" then Mv a b
      else Other
  | [c; a; b; home; name] =>
      if String.eqb c "useradd" && String.eqb a "-m" && String.eqb b "-d"
      then Useradd home name else Other
  | _ => Other
  end.

(** The effect of a command that runs to its end; [None] is a non-zero
    exit status for a reason the host state determines. *)
Definition effect (c : command) (w : World) : option World :=
  match c with
  | Useradd home name =>
      match users w !! name with
      | Some _ => None
      | None =>
          let w1 := set_users (<[name := home]> (users w)) w in
          Some (match fs w !! home with
                | None => set_fs (<[home := Dir]> (fs w)) w1
                | Some _ => w1
                end)
      end
  | Userdel remove_home name =>
      match users w !! name with
      | None => None
      | Some home =>
          let w1 := set_users (delete name (users w)) w in
          Some (if remove_home then set_fs (remove_tree home (fs w)) w1
                else w1)
      end
  | Mv src dst =>
      match fs w !! src, fs w !! dst with
      | Some n, Some Dir =>
          Some (set_fs (<[Path.join dst (Path.name src) := n]>
                          (delete src (fs w))) w)
      | _, _ => None
      end
  | Other => Some w
  end.

End Host.
Export Host.

Section Program.

Context (env : Env).

(* --------------------------------------------------------------------- *)
(** ** utils/system.py *)
(* --------------------------------------------------------------------- *)

(** [subprocess.run(cmd, check=True)] *)
Definition subprocess_run (cmd : list string) : M World unit :=
  λ w, if proc_fails (oracle env) cmd (clock w)
       then (log (EvRun cmd false) w, Raise (CalledProcessError cmd))
       else match effect (parse cmd) w with
            | Some w' => (log (EvRun cmd true) w', Ok tt)
            | None => (log (EvRun cmd false) w, Raise (CalledProcessError cmd))
            end.

(** [run_cmd(cmd, dry_run=dry_run)] with the default [check=True]; the
    [CompletedProcess] it returns is used by no caller. *)
Definition run_cmd (cmd : list string) (dry_run : bool) : M World unit :=
  if dry_run then ret tt else subprocess_run cmd.

(* --------------------------------------------------------------------- *)
(** ** utils/validators.py, the raising variant *)
(* --------------------------------------------------------------------- *)

Definition validate_identifier_or_raise (name kind : string) : M World unit :=
  if negb (Validators.validate_identifier name)
  then raise (ValueError ("Invalid " +:+ kind +:+ ": " +:+ name))
  else ret tt.

(* --------------------------------------------------------------------- *)
(** ** core/database.py *)
(* --------------------------------------------------------------------- *)

(** [mysql.connector.connect(...)] *)
Definition _root_connection : M World unit :=
  λ w, if connect_fails (oracle env) (clock w)
       then (log (EvConnect false) w, Raise MySQLError)
       else (log (EvConnect true) w, Ok tt).

Definition sql_effect (q : sql) (w : World) : World :=
  match q with
  | CreateDatabase db => set_databases (databases w ∪ {[db]}) w
  | CreateUser user password =>
      match db_users w !! user with
      | Some _ => w
      | None => set_db_users (<[user := password]> (db_users w)) w
      end
  | GrantAll db user => set_grants (grants w ∪ {[(db, user)]}) w
  | FlushPrivileges => w
  | DropDatabase db => set_databases (databases w ∖ {[db]}) w
  | DropUser user => set_db_users (delete user (db_users w)) w
  end.

(** [cursor.execute(q)] *)
Definition execute (q : sql) : M World unit :=
  λ w, if sql_fails (oracle env) q (clock w)
       then (log (EvSql q false) w, Raise MySQLError)
       else (log (EvSql q true) (sql_effect q w), Ok tt).

(** [string.ascii_letters + string.digits + "!@#$%^&*"] *)
Definition alphabet : string :=
  "abcdefghijklmnopqrstuvwxyzABCDEFGHIJKLMNOPQRSTUVWXYZ0123456789!@#$%^&*".

(** [secrets.choice(alphabet)] for the random number [r]. *)
Definition choice (r : nat) : ascii :=
  match String.get (r mod PyStr.len alphabet) alphabet with
  | Some c => c
  | None => "a"%char
  end.

Fixpoint choices (n i : nat) : string :=
  match n with
  | O => EmptyString
  | S k => String (choice (rand (oracle env) i)) (choices k (S i))
  end.

Definition _generate_password : M World string :=
  λ w, (set_rng (rng w + Config.PASSWORD_LENGTH) w,
        Ok (choices Config.PASSWORD_LENGTH (rng w))).

(** [x or default] for an optional string. *)
Definition str_or (x : option string) (default : string) : string :=
  match x with
  | Some s => if PyStr.nonempty s then s else default
  | None => default
  end.

Definition create_database (db_name : string) (db_user db_password : option string)
    (dry_run : bool) : M World (string * string * string) :=
  validate_identifier_or_raise db_name "database name" >>
  let db_user := str_or db_user db_name in
  validate_identifier_or_raise db_user "database user" >>
  let! db_password :=
    match db_password with
    | Some p => if PyStr.nonempty p then ret p else _generate_password
    | None => _generate_password
    end in
  if dry_run then ret (db_name, db_user, db_password)
  else
    try_except
      (_root_connection >>
       execute (CreateDatabase db_name) >>
       execute (CreateUser db_user db_password) >>
       execute (GrantAll db_name db_user) >>
       execute FlushPrivileges >>
       ret (db_name, db_user, db_password))
      is_MySQLError
      (λ _, raise (RuntimeError "Database creation failed")).

Definition delete_database (db_name : string) (db_user : option string)
    (dry_run : bool) : M World unit :=
  validate_identifier_or_raise db_name "database name" >>
  let db_user := str_or db_user db_name in
  if dry_run then ret tt
  else
    try_except
      (_root_connection >>
       execute (DropDatabase db_name) >>
       execute (DropUser db_user) >>
       execute FlushPrivileges)
      is_MySQLError
      (λ _, raise (RuntimeError "Database deletion failed")).

(* --------------------------------------------------------------------- *)
(** ** core/user.py *)
(* --------------------------------------------------------------------- *)

Definition create_linux_user (username : string) (home_dir : option string)
    (dry_run : bool) : M World unit :=
  validate_identifier_or_raise username "username" >>
  let home := default ("/home/" +:+ username) home_dir in
  if dry_run then ret tt
  else
    try_except
      (run_cmd ["useradd"; "-m"; "-d"; home; username] false)
      is_CalledProcessError
      (λ _, raise (RuntimeError "User creation failed")).

Definition delete_linux_user (username : string) (remove_home dry_run : bool)
    : M World unit :=
  validate_identifier_or_raise username "username" >>
  if dry_run then ret tt
  else
    let cmd := ["userdel"; if remove_home then "-r" else ""; username] in
    let cmd := filter (λ c, PyStr.nonempty c = true) cmd in
    try_except
      (run_cmd cmd false)
      is_CalledProcessError
      (λ _, raise (RuntimeError "User deletion failed")).

Definition chown_recursive (path user : string) (group : option string)
    (dry_run : bool) : M World unit :=
  let own := user +:+ ":" +:+ str_or group user in
  run_cmd ["chown"; "-R"; own; path] dry_run.

(* --------------------------------------------------------------------- *)
(** ** utils/state.py *)
(* --------------------------------------------------------------------- *)

(** The value under the key "sites" of a state document held in memory:
    either the dict object that the module constant DEFAULT_STATE holds
    (a shallow [copy()] shares it), or a dict of the document's own. *)
Inductive sites_ref : Type :=
| SitesShared
| SitesOwn (m : gmap string json).

(** A state document held in memory: the keys other than "sites", and the
    value of "sites" when the key is present. *)
Record doc : Type := mkDoc {
  doc_rest : gmap string json;
  doc_sites : option sites_ref
}.

(** [DEFAULT_STATE.copy()] with [DEFAULT_STATE = {"sites": {}, "version": 1}] *)
Definition default_copy : doc :=
  mkDoc {[ "version" := JInt 1 ]} (Some SitesShared).

(** The dict that [doc_sites] denotes in the host [w]. *)
Definition sites_of (state : doc) (w : World) : option (gmap string json) :=
  match doc_sites state with
  | None => None
  | Some SitesShared => Some (default_sites w)
  | Some (SitesOwn m) => Some m
  end.

(** The document as [json.dump] writes it. *)
Definition dump (state : doc) (w : World) : json :=
  JDict (match sites_of state w with
         | None => doc_rest state
         | Some m => <["sites" := JDict m]> (doc_rest state)
         end).

Definition _ensure_state_dir : M World unit :=
  λ w, match state_dir w with
       | Absent => (log EvStateMkdir (set_state_dir Directory w), Ok tt)
       | Directory => (w, Ok tt)
       | Regular => (w, Raise (FileExistsError (STATE_DIR env)))
       end.

(** [STATE_FILE.exists()] *)
Definition state_file_exists : M World bool :=
  λ w, (w, Ok (match state_file w with Missing => false | _ => true end)).

(** [with open(STATE_FILE, encoding="utf-8") as f: json.load(f)] *)
Definition read_state_file : M World json :=
  λ w, match state_file w with
       | Missing => (w, Raise (FileNotFoundError (STATE_FILE env)))
       | IsDir => (w, Raise (IsADirectoryError (STATE_FILE env)))
       | NotUtf8 => (w, Raise UnicodeDecodeError)
       | NotJson => (w, Raise JSONDecodeError)
       | Json v => (w, Ok v)
       end.

Definition load_state : M World doc :=
  _ensure_state_dir >>
  let! present := state_file_exists in
  if negb present then ret default_copy
  else
    try_except
      (let! data := read_state_file in
       (* data.get("sites"): only a dict has [get] *)
       match data with
       | JDict m =>
           ret (mkDoc (delete "sites" m)
                  (Some (SitesOwn match m !! "sites" with
                                  | Some (JDict sites) => sites
                                  | _ => ∅
                                  end)))
       | _ => raise AttributeError
       end)
      (λ e, is_JSONDecodeError e || is_OSError e)
      (λ _, ret default_copy).

Definition save_state (state : doc) : M World unit :=
  _ensure_state_dir >>
  λ w, match state_file w with
       | IsDir => (w, Raise (IsADirectoryError (STATE_FILE env)))
       | _ => (log EvSaveState (set_state_file (Json (dump state w)) w), Ok tt)
       end.

Definition get_site_state (state : doc) (primary_domain : string)
    : M World (option json) :=
  λ w, (w, Ok (match sites_of state w with
               | None => None
               | Some sites => sites !! primary_domain
               end)).

(** The dict under "sites" is changed in place: through [SitesShared] the
    change lands in the module constant. *)
Definition set_site_state (state : doc) (primary_domain : string)
    (site_data : json) : M World doc :=
  let state :=
    match doc_sites state with
    | None => mkDoc (doc_rest state) (Some (SitesOwn ∅))
    | Some _ => state
    end in
  match doc_sites state with
  | Some (SitesOwn m) =>
      ret (mkDoc (doc_rest state)
             (Some (SitesOwn (<[primary_domain := site_data]> m))))
  | _ =>
      modify (λ w, set_default_sites
                     (<[primary_domain := site_data]> (default_sites w)) w) >>
      ret state
  end.

Definition remove_site_state (state : doc) (primary_domain : string)
    : M World (doc * bool) :=
  match doc_sites state with
  | None => ret (state, false)
  | Some (SitesOwn m) =>
      match m !! primary_domain with
      | Some _ =>
          ret (mkDoc (doc_rest state)
                 (Some (SitesOwn (delete primary_domain m))), true)
      | None => ret (state, false)
      end
  | Some SitesShared =>
      let! w := get in
      match default_sites w !! primary_domain with
      | Some _ =>
          modify (λ w, set_default_sites
                         (delete primary_domain (default_sites w)) w) >>
          ret (state, true)
      | None => ret (state, false)
      end
  end.

(* --------------------------------------------------------------------- *)
(** ** core/caddy.py *)
(* --------------------------------------------------------------------- *)

Definition get_site_config_path (primary_domain : string) : string :=
  let safe_name := PyStr.replace_char "." "_" primary_domain in
  Path.join (CADDY_CONFIG_DIR env) (safe_name +:+ ".conf").

Definition all_domains (primary_domain : string) (aliases : list string)
    : list string :=
  primary_domain :: filter (λ a, a ≠ primary_domain) aliases.

Definition render_caddy_config (primary_domain : string)
    (aliases : list string) (web_root php_version : string) : string :=
  let domains_line := PyStr.join " " (all_domains primary_domain aliases) in
  match CADDY_TEMPLATE env with
  | None =>
      domains_line +:+ " {" +:+ PyStr.NL
      +:+ "    root * " +:+ web_root +:+ PyStr.NL
      +:+ "    php_server" +:+ PyStr.NL
      +:+ "}" +:+ PyStr.NL
  | Some content =>
      PyStr.replace "{web_root}" web_root
        (PyStr.replace "{domains_line}" domains_line content)
  end.

(** [CADDY_CONFIG_DIR.mkdir(parents=True, exist_ok=True)] *)
Definition mkdir_caddy_dir : M World unit :=
  λ w, match caddy_dir w with
       | Absent =>
           (log EvProxyMkdir (set_caddy_dir Directory w), Ok tt)
       | Directory => (w, Ok tt)
       | Regular => (w, Raise (FileExistsError (CADDY_CONFIG_DIR env)))
       end.

(** [path.exists()], [path.write_text(config)] and [path.unlink()] for a
    path of CADDY_CONFIG_DIR. *)
Definition proxy_exists (path : string) : M World bool :=
  λ w, (w, Ok (match proxy w !! path with Some _ => true | None => false end)).

Definition proxy_write_text (path text : string) : M World unit :=
  λ w, match proxy w !! path with
       | Some Dir => (w, Raise (IsADirectoryError path))
       | _ =>
           (log (EvProxyWrite path)
              (set_proxy (<[path := File text]> (proxy w)) w), Ok tt)
       end.

Definition proxy_unlink (path : string) : M World unit :=
  λ w, match proxy w !! path with
       | Some (File _) =>
           (log (EvProxyUnlink path) (set_proxy (delete path (proxy w)) w),
            Ok tt)
       | Some Dir => (w, Raise (IsADirectoryError path))
       | None => (w, Raise (FileNotFoundError path))
       end.

Definition write_site_config (primary_domain : string) (aliases : list string)
    (web_root php_version : string) (dry_run : bool) : M World unit :=
  let path := get_site_config_path primary_domain in
  let config := render_caddy_config primary_domain aliases web_root php_version in
  if dry_run then ret tt
  else
    mkdir_caddy_dir >>
    proxy_write_text path config >>
    run_cmd (CADDY_RELOAD_CMD env) dry_run.

Definition remove_site_config (primary_domain : string) (dry_run : bool)
    : M World bool :=
  let path := get_site_config_path primary_domain in
  if dry_run then proxy_exists path
  else
    let! present := proxy_exists path in
    if negb present then ret false
    else
      proxy_unlink path >>
      run_cmd (CADDY_RELOAD_CMD env) false >>
      ret true.

Definition reload_caddy (dry_run : bool) : M World unit :=
  run_cmd (CADDY_RELOAD_CMD env) dry_run.

(* --------------------------------------------------------------------- *)
(** ** core/wordpress.py *)
(* --------------------------------------------------------------------- *)

Definition render_wp_config (db_name db_user db_pass db_host : string) : string :=
  let content :=
    match WP_CONFIG_TEMPLATE env with
    | Some text => text
    | None =>
        "<?php" +:+ PyStr.NL
        +:+ "define('DB_NAME', '{db_name}');" +:+ PyStr.NL
        +:+ "define('DB_USER', '{db_user}');" +:+ PyStr.NL
        +:+ "define('DB_PASSWORD', '{db_pass}');" +:+ PyStr.NL
        +:+ "define('DB_HOST', '{db_host}');" +:+ PyStr.NL
    end in
  PyStr.replace "{db_host}" db_host
    (PyStr.replace "{db_pass}" db_pass
       (PyStr.replace "{db_user}" db_user
          (PyStr.replace "{db_name}" db_name content))).

(** [urlopen(WP_DOWNLOAD_URL, timeout=60)] and the write to the temporary
    file, which lies outside the modelled file system. *)
Definition fetch_archive : M World unit :=
  λ w, if fetch_fails (oracle env) (clock w)
       then (log (EvFetch (WP_DOWNLOAD_URL env) false) w, Raise URLError)
       else (log (EvFetch (WP_DOWNLOAD_URL env) true) w, Ok tt).

(** [tar.extractall(dir)]: the archive holds one directory [wordpress]. *)
Definition extractall (dir : string) : M World unit :=
  λ w, if extract_fails (oracle env) (clock w)
       then (log (EvExtract dir false) w, Raise TarError)
       else
         let wp_dir := Path.join dir "wordpress" in
         let files :=
           foldr (λ '(name, n) m, <[Path.join wp_dir name := n]> m)
                 (<[wp_dir := Dir]> (fs w)) (WP_ARCHIVE env) in
         (log (EvExtract dir true) (set_fs files w), Ok tt).

(** [wp_dir.iterdir()] *)
Definition iterdir (dir : string) : M World (list string) :=
  λ w, (w, Ok (entries dir (fs w))).

Definition download_wordpress (dest_dir : string) (dry_run : bool)
    : M World unit :=
  if dry_run then ret tt
  else
    mkdir dest_dir true >>
    fetch_archive >>
    extractall (Path.parent dest_dir) >>
    let wp_dir := Path.join (Path.parent dest_dir) "wordpress" in
    let! present := exists_ wp_dir in
    when present
      (let! ps := iterdir wp_dir in
       for_each ps (λ p, run_cmd ["mv"; p; dest_dir] false) >>
       rmdir wp_dir).

Definition install_wordpress (site_root db_name db_user db_pass : string)
    (dry_run : bool) : M World unit :=
  download_wordpress site_root dry_run >>
  let config_path := Path.join site_root "wp-config.php" in
  let config_content := render_wp_config db_name db_user db_pass "localhost" in
  if dry_run then ret tt
  else
    write_text config_path config_content >>
    run_cmd ["find"; site_root; "-type"; "d"; "-exec"; "chmod"; "755"; "{}"; ";"]
      false >>
    run_cmd ["find"; site_root; "-type"; "f"; "-exec"; "chmod"; "644"; "{}"; ";"]
      false.

(* --------------------------------------------------------------------- *)
(** ** core/site.py *)
(* --------------------------------------------------------------------- *)

Definition _site_path (primary_domain : string) : string :=
  Path.join (WEB_ROOT env) primary_domain.

Definition _db_name_from_domain (primary_domain : string) : string :=
  PyStr.take 64 (PyStr.replace_char "." "_" primary_domain).

(** An entry of [steps_done]: the step name with its rollback data. *)
Inductive step : Type :=
| StepDirectory (path : string)
| StepUser (username : string)
| StepDatabase (db_name db_user : string)
| StepWordpress
| StepCaddy
| StepState.

(** [app == "wordpress"] *)
Definition is_wordpress (app : option string) : bool :=
  match app with
  | Some a => String.eqb a "wordpress"
  | None => false
  end.

(** [bool(s)] for an optional string. *)
Definition str_truthy (s : option string) : bool :=
  match s with Some x => PyStr.nonempty x | None => false end.

(** One iteration of the loop of [rollback], without its [try]. *)
Definition rollback_step (primary_domain site_root : string) (dry_run : bool)
    (s : step) : M World unit :=
  match s with
  | StepState => ret tt
  | StepCaddy => remove_site_config primary_domain dry_run >> ret tt
  | StepWordpress => ret tt
  | StepDatabase db_name db_user =>
      delete_database db_name (Some db_user) dry_run
  | StepUser username => delete_linux_user username true dry_run
  | StepDirectory _ =>
      let! present := exists_ site_root in
      when present (rmtree site_root)
  end.

(** [try: ... except Exception as e: logger.warning(...)] *)
Definition swallow (m : M World unit) : M World unit :=
  try_except m (λ _, true) (λ _, ret tt).

Definition rollback (primary_domain site_root : string) (dry_run : bool)
    (steps_done : list step) : M World unit :=
  for_each (rev steps_done)
    (λ s, swallow (rollback_step primary_domain site_root dry_run s)).

(** [steps_done.append(s)] *)
Definition record (s : step) : M (World * list step) unit :=
  modify (λ '(w, steps_done), (w, steps_done ++ [s])).

(** A host operation run inside the [try], which also holds [steps_done]. *)
Definition io {A} (m : M World A) : M (World * list step) A := on_fst m.

(** The site record that step 5 assembles. *)
Definition site_record (primary_domain : string) (all_aliases : list string)
    (site_root : string) (php_version app : option string)
    (db_name : string) (db_user_val db_pass_val linux_user : option string)
    : gmap string json :=
  let site_data : gmap string json :=
    {[ "primary_domain" := JStr primary_domain;
       "aliases" := JList (JStr <$> all_aliases);
       "path" := JStr site_root;
       "php_version" := JStr (str_or php_version "8.3");
       "app" := match app with Some a => JStr a | None => JNull end ]} in
  let site_data :=
    if str_truthy db_user_val
    then <["db_password" := match db_pass_val with
                            | Some p => JStr p
                            | None => JNull
                            end]>
           (<["db_user" := JStr (default "" db_user_val)]>
              (<["db_name" := JStr db_name]> site_data))
    else site_data in
  if str_truthy linux_user
  then <["linux_user" := JStr (default "" linux_user)]> site_data
  else site_data.

(** The body of the [try] of [add_site]. *)
Definition add_site_body (primary_domain : string) (aliases : list string)
    (app php_version : option string) (create_user force dry_run : bool)
    (site_root : string) (state : doc) (existing : option json)
    : M (World * list step) json :=
  (* 1. Create directory *)
  io (when (negb dry_run) (mkdir site_root force)) >>
  record (StepDirectory site_root) >>
  let! linux_user :=
    if create_user then
      let uname := PyStr.take 32 (PyStr.split_head "." primary_domain) in
      io (create_linux_user uname (Some site_root) dry_run) >>
      record (StepUser uname) >>
      ret (Some uname)
    else ret None in
  (* 2. Database *)
  let db_name := _db_name_from_domain primary_domain in
  let! ' (db_name, db_user_val, db_pass_val) :=
    if is_wordpress app || negb (truthy_opt existing) then
      let! ' (n, u, p) := io (create_database db_name None None dry_run) in
      record (StepDatabase n (str_or (Some u) n)) >>
      ret (n, Some u, Some p)
    else ret (db_name, None, None) in
  (* 3. WordPress if requested *)
  let! ' (db_name, db_user_val, db_pass_val) :=
    if is_wordpress app then
      let! ' (n, u, p) :=
        if negb (str_truthy db_user_val) || negb (str_truthy db_pass_val)
        then io (create_database db_name None None dry_run)
        else ret (db_name, default "" db_user_val, default "" db_pass_val) in
      io (install_wordpress site_root n u p dry_run) >>
      record StepWordpress >>
      ret (n, Some u, Some p)
    else ret (db_name, db_user_val, db_pass_val) in
  (* 4. Caddy config *)
  let all_aliases := filter (λ a, a ≠ primary_domain) aliases in
  let php_ver := PyStr.strip (str_or php_version "8.3") in
  io (write_site_config primary_domain all_aliases site_root php_ver dry_run) >>
  record StepCaddy >>
  (* 5. State *)
  let site_data :=
    JDict (site_record primary_domain all_aliases site_root php_version app
             db_name db_user_val db_pass_val linux_user) in
  let! state := io (set_site_state state primary_domain site_data) in
  io (when (negb dry_run) (save_state state)) >>
  record StepState >>
  ret site_data.

Definition add_site (primary_domain : string) (aliases : option (list string))
    (app php_version : option string) (create_user force dry_run : bool)
    : M World json :=
  let aliases := default [] aliases in
  let '(ok, err) := Validators.validate_domains primary_domain aliases in
  if negb ok then raise (ValueError err)
  else
    let site_root := _site_path primary_domain in
    let! state := load_state in
    let! existing := get_site_state state primary_domain in
    if truthy_opt existing && negb force
    then raise (ValueError ("Site already exists: " +:+ primary_domain
                            +:+ ". Use --force to replace."))
    else
      λ w,
        match add_site_body primary_domain aliases app php_version
                create_user force dry_run site_root state existing (w, [])
        with
        | ((w', _), Ok site_data) => (w', Ok site_data)
        | ((w', steps_done), Raise e) =>
            if negb dry_run
            then ((rollback primary_domain site_root dry_run steps_done w').1,
                  Raise e)
            else (w', Raise e)
        end.

(** The arguments [delete_site] hands to [delete_database]: a recorded
    name that is not a string makes [validate_identifier] raise TypeError;
    what the SQL driver does with a user that is not a string is outside
    the sources, the model raises TypeError there as well. *)
Definition as_name (v : json) : M World string :=
  match v with
  | JStr s => ret s
  | _ => raise TypeError
  end.

Definition as_optional_name (v : option json) : M World (option string) :=
  match v with
  | None => ret None
  | Some (JStr s) => ret (Some s)
  | Some v => if truthy v then raise TypeError else ret None
  end.

Definition delete_site (primary_domain : string) (dry_run : bool)
    : M World unit :=
  let! state := load_state in
  let! site_data := get_site_state state primary_domain in
  let site_root := _site_path primary_domain in
  let! present := exists_ site_root in
  when (negb dry_run && present) (rmtree site_root) >>
  match site_data with
  | Some data =>
      when (truthy data)
        (let! db_name := lift_result (dict_get data "db_name") in
         let! db_user := lift_result (dict_get data "db_user") in
         when (truthy_opt db_name)
           (let! name := as_name (default JNull db_name) in
            let! user := as_optional_name db_user in
            delete_database name user dry_run))
  | None => ret tt
  end >>
  remove_site_config primary_domain dry_run >>
  let! ' (state, _) := remove_site_state state primary_domain in
  when (negb dry_run) (save_state state).

End Program.

(* ===================================================================== *)
(** * Concrete configurations *)
(* ===================================================================== *)

(** An environment in which nothing external fails; the random stream
    counts upwards. *)
Definition calm : Oracle :=
  mkOracle (λ _ _, false) (λ _, false) (λ _ _, false) (λ _, false)
           (λ _, false) (λ n, n).

(** The defaults of config.py, without template files, with a two-entry
    release archive. *)
Definition default_env (o : Oracle) : Env :=
  mkEnv "/var/lib/frankenphp-cli" "/var/lib/frankenphp-cli/state.json"
        "/var/www" "/etc/caddy/sites.d" ["systemctl"; "reload"; "caddy"]
        "https://wordpress.org/latest.tar.gz" None None
        [("index.php", File "<?php"); ("wp-admin", Dir)] o.

(** A host on which the tool has never run, in a fresh process. *)
Definition fresh_host : World :=
  mkWorld ∅ Absent ∅ Absent Missing ∅ ∅ ∅ ∅ ∅ 0 [].

(* ===================================================================== *)
(** * The configurations that the host model covers *)
(* ===================================================================== *)

(** The host keeps the web root tree, the proxy configuration directory
    and the state directory in stores of their own, and [Path.join] is
    plain concatenation.  That is what the code does on one file system
    when the domain is a validated one (no separator in it, so that the
    site root is an entry of WEB_ROOT and the proxy file an entry of
    CADDY_CONFIG_DIR) and the configured locations are written as pathlib
    prints an absolute path and lie apart.  Symbolic links are not
    modelled. *)

(** An absolute path as pathlib prints it: no empty, [.] or [..] component
    and no separator at its end. *)
Definition plain (p : string) : bool :=
  PyStr.startswith "/" p
  && negb (PyStr.contains "//" (p +:+ "/"))
  && negb (PyStr.contains "/./" (p +:+ "/"))
  && negb (PyStr.contains "/../" (p +:+ "/")).

(** Neither location is the other or lies below it. *)
Definition apart (p q : string) : bool :=
  negb (Path.within p q) && negb (Path.within q p).

(** The domain is a validated one, and its site root, the state directory
    (with the state file in it, as config.py has it) and the proxy
    configuration directory lie apart. *)
Definition locations_apart (env : Env) (d : string) : bool :=
  Validators.validate_domain d
  && plain (WEB_ROOT env) && plain (STATE_DIR env)
  && plain (CADDY_CONFIG_DIR env)
  && String.eqb (STATE_FILE env) (Path.join (STATE_DIR env) "state.json")
  && apart (_site_path env d) (STATE_DIR env)
  && apart (_site_path env d) (CADDY_CONFIG_DIR env)
  && apart (STATE_DIR env) (CADDY_CONFIG_DIR env).

(** The directory [wordpress] beside the site root, into which the release
    archive unpacks, lies apart from the state directory and from the proxy
    configuration directory. *)
Definition unpack_apart (env : Env) (d : string) : bool :=
  let wp_dir := Path.join (Path.parent (_site_path env d)) "wordpress" in
  apart wp_dir (STATE_DIR env) && apart wp_dir (CADDY_CONFIG_DIR env).

(* ===================================================================== *)
(** * Validators: identifiers *)
(* ===================================================================== *)

(** C4.  [validate_identifier] is meant to accept exactly a letter followed
    by at most 63 letters, digits or underscores.  The code tests the
    pattern with [match] and the end anchor [$], which also holds before a
    final line feed: the two-character string made of the letter a and a
    line feed is accepted, although its second character is none of the
    allowed ones. *)
Theorem validate_identifier_accepts_trailing_newline :
  Validators.validate_identifier ("a" +:+ PyStr.NL) = true
  ∧ Re.word PyStr.LF = false
  ∧ Re.fullmatch Validators.IDENTIFIER_REGEX ("a" +:+ PyStr.NL) = false.
Proof. vm_compute. repeat split. Qed.

(* ===================================================================== *)
(** * Validators: duplicate domains *)
(* ===================================================================== *)

Section ValidateDomains.

Import Validators.

Lemma validate_aliases_true seen aliases msg :
  validate_aliases seen aliases = (true, msg) →
  NoDup (PyStr.lower <$> aliases)
  ∧ (∀ a, a ∈ aliases → PyStr.lower a ∉ seen).
Proof.
  revert seen. induction aliases as [|a rest IHrest]; intros seen H; simpl in *.
  - split; [constructor | intros a Ha; inversion Ha].
  - destruct (validate_domain a); simpl in H; [|discriminate].
    case_bool_decide as Hin; [discriminate|].
    destruct (IHrest _ H) as [Hnd Hout]. split.
    + constructor; [|done].
      intros Hl. apply list_elem_of_fmap in Hl as (b & Hb & Hbin).
      apply (Hout b Hbin). rewrite <- Hb.
      apply elem_of_union_r, elem_of_singleton. reflexivity.
    + intros b Hb. apply elem_of_cons in Hb as [->|Hb]; [done|].
      intros Hc. apply (Hout b Hb), elem_of_union_l, Hc.
Qed.

Lemma validate_aliases_false seen aliases msg :
  validate_aliases seen aliases = (false, msg) →
  Forall (λ a, validate_domain a = true) aliases →
  ∃ a, a ∈ aliases ∧ msg = "Duplicate domain: " +:+ a.
Proof.
  revert seen. induction aliases as [|a rest IHrest]; intros seen H Hv; simpl in *.
  - discriminate.
  - inversion Hv as [|? ? Ha Hrest]; subst. rewrite Ha in H. simpl in H.
    case_bool_decide.
    + exists a. split; [left | congruence].
    + destruct (IHrest _ H Hrest) as (b & Hb & ->). exists b. split; [by right | done].
Qed.

(** Two members of the list at different positions agree up to case. *)
Definition has_duplicate (l : list string) : Prop :=
  ∃ i j a b, i ≠ j ∧ l !! i = Some a ∧ l !! j = Some b
             ∧ PyStr.lower a = PyStr.lower b.

Lemma has_duplicate_not_NoDup l :
  has_duplicate l → ¬ NoDup (PyStr.lower <$> l).
Proof.
  intros (i & j & a & b & Hij & Hi & Hj & Hab) Hnd.
  apply Hij. eapply NoDup_lookup; [exact Hnd | |].
  - rewrite list_lookup_fmap, Hi. reflexivity.
  - rewrite list_lookup_fmap, Hj. simpl. by rewrite Hab.
Qed.

Lemma validate_domains_true primary aliases msg :
  validate_domains primary aliases = (true, msg) →
  NoDup (PyStr.lower <$> (primary :: aliases)).
Proof.
  unfold validate_domains. destruct (validate_domain primary); simpl; [|discriminate].
  intros H. apply validate_aliases_true in H as [Hnd Hout].
  simpl. constructor; [|done].
  intros Hl. apply list_elem_of_fmap in Hl as (b & Hb & Hbin).
  apply (Hout b Hbin). set_solver.
Qed.

End ValidateDomains.

(** C5, as the code has it.  Whenever two members of the primary domain
    and the aliases are equal up to case, [validate_domains] returns
    false; the message is the duplicate-domain message when every member
    is a valid domain (an invalid member that comes first is reported
    instead, since the first violation ends the check). *)
Theorem validate_domains_rejects_duplicates primary aliases :
  has_duplicate (primary :: aliases) →
  (Validators.validate_domains primary aliases).1 = false
  ∧ (Forall (λ a, Validators.validate_domain a = true) (primary :: aliases) →
     ∃ a, a ∈ aliases
          ∧ (Validators.validate_domains primary aliases).2
            = "Duplicate domain: " +:+ a).
Proof.
  intros Hdup.
  destruct (Validators.validate_domains primary aliases) as [ok msg] eqn:E.
  destruct ok.
  - exfalso. eapply has_duplicate_not_NoDup; [exact Hdup|].
    eapply validate_domains_true; exact E.
  - split; [done|]. intros Hv. inversion Hv as [|? ? Hp Hrest]; subst.
    unfold Validators.validate_domains in E. rewrite Hp in E. simpl in E.
    exact (validate_aliases_false _ _ _ E Hrest).
Qed.

Lemma validate_domains_rejects_duplicates_witness :
  has_duplicate ["example.com"; "www.example.com"; "WWW.example.com"]
  ∧ (Validators.validate_domains "example.com"
       ["www.example.com"; "WWW.example.com"]).1 = false.
Proof.
  assert (H : has_duplicate ["example.com"; "www.example.com"; "WWW.example.com"]).
  { exists 1%nat, 2%nat, "www.example.com", "WWW.example.com".
    repeat split; first [lia | vm_compute; reflexivity]. }
  split; [exact H|].
  exact (proj1 (validate_domains_rejects_duplicates "example.com"
                  ["www.example.com"; "WWW.example.com"] H)).
Defined.

(** C5 as stated fails: with an invalid primary domain that is repeated as
    an alias, two members are equal, yet the message is not the
    duplicate-domain message. *)
Lemma validate_domains_duplicate_message_counterexample :
  has_duplicate ["bad"; "bad"]
  ∧ Validators.validate_domains "bad" ["bad"]
    = (false, "Invalid primary domain: bad").
Proof.
  split.
  - exists 0%nat, 1%nat, "bad", "bad". repeat split; first [lia | reflexivity].
  - vm_compute. reflexivity.
Qed.

(* ===================================================================== *)
(** * Proxy configuration text *)
(* ===================================================================== *)

Section StringFacts.

Import PyStr.

Lemma app_cons c (a b : string) : String c a +:+ b = String c (a +:+ b).
Proof. reflexivity. Qed.

Lemma app_nil_l (b : string) : "" +:+ b = b.
Proof. reflexivity. Qed.

Lemma startswith_app n b : startswith n (n +:+ b) = true.
Proof.
  induction n as [|c n IHn]; [done|].
  rewrite app_cons. simpl. by rewrite Ascii.eqb_refl, IHn.
Qed.

Lemma contains_here n s : startswith n s = true → contains n s = true.
Proof. intros H. destruct s; simpl; rewrite H; done. Qed.

Lemma contains_app_r n a b : contains n b = true → contains n (a +:+ b) = true.
Proof.
  intros H. induction a as [|c a IHa]; [done|].
  rewrite app_cons. simpl. rewrite IHa. apply orb_true_r.
Qed.

Lemma contains_app_mid n a b : contains n (a +:+ n +:+ b) = true.
Proof. apply contains_app_r, contains_here, startswith_app. Qed.

(** The character [c] occurs in [s]. *)
Fixpoint occurs (c : ascii) (s : string) : bool :=
  match s with
  | EmptyString => false
  | String x s' => Ascii.eqb x c || occurs c s'
  end.

Lemma startswith_sep c n a b :
  occurs c n = false →
  startswith n (a +:+ String c b) = startswith n a.
Proof.
  revert n. induction a as [|x a IHa]; intros n Hn.
  - rewrite app_nil_l. destruct n as [|y n]; [done|].
    simpl in *. apply orb_false_elim in Hn as [Hy _]. by rewrite Hy.
  - rewrite app_cons. destruct n as [|y n]; [done|].
    simpl in *. apply orb_false_elim in Hn as [_ Hn]. by rewrite IHa.
Qed.

Lemma contains_sep c n a b :
  n ≠ "" → occurs c n = false →
  contains n (a +:+ String c b) = contains n a || contains n b.
Proof.
  intros Hne Hn. induction a as [|x a IHa].
  - rewrite app_nil_l. destruct n as [|y n]; [done|].
    simpl in Hn. apply orb_false_elim in Hn as [Hy _].
    cbn [contains startswith]. by rewrite Hy.
  - rewrite app_cons.
    change (contains n (String x (a +:+ String c b)))
      with (startswith n (String x (a +:+ String c b))
            || contains n (a +:+ String c b)).
    rewrite <- app_cons, startswith_sep by done.
    rewrite IHa. simpl. by rewrite orb_assoc.
Qed.

Lemma contains_join n l :
  n ≠ "" → occurs " " n = false →
  Forall (λ x, contains n x = false) l →
  contains n (join " " l) = false.
Proof.
  intros Hne Hn. induction 1 as [|x l Hx Hl IHl].
  - destruct n; done.
  - destruct l as [|y l]; [done|].
    change (join " " (x :: y :: l)) with (x +:+ String " " (join " " (y :: l))).
    rewrite contains_sep by done. by rewrite Hx, IHl.
Qed.

End StringFacts.

Lemma all_domains_NoDup primary aliases :
  NoDup aliases → NoDup (all_domains primary aliases).
Proof.
  intros Hnd. unfold all_domains. constructor.
  - rewrite list_elem_of_filter. by intros [? _].
  - by apply NoDup_filter.
Qed.

(** C9, as the code has it.  Without a template file, the rendered block is
    the primary domain followed by the aliases that differ from it (in
    order; equal aliases are not merged, so the list is free of repeats
    when the alias list is), then the built-in body: it names the web root
    literally, has the [php_server] directive, and has no [php_fastcgi]
    directive unless a domain or the web root spells one. *)
Theorem render_caddy_config_default env primary aliases web_root php_version :
  CADDY_TEMPLATE env = None →
  let out := render_caddy_config env primary aliases web_root php_version in
  out = PyStr.join " " (primary :: filter (λ a, a ≠ primary) aliases)
        +:+ " {" +:+ PyStr.NL +:+ "    root * " +:+ web_root +:+ PyStr.NL
        +:+ "    php_server" +:+ PyStr.NL +:+ "}" +:+ PyStr.NL
  ∧ (NoDup aliases → NoDup (all_domains primary aliases))
  ∧ PyStr.contains web_root out = true
  ∧ PyStr.contains "php_server" out = true
  ∧ (Forall (λ x, PyStr.contains "php_fastcgi" x = false) (primary :: aliases) →
     PyStr.contains "php_fastcgi" web_root = false →
     PyStr.contains "php_fastcgi" out = false).
Proof.
  intros Htpl out. subst out. unfold render_caddy_config. rewrite Htpl.
  set (line := PyStr.join " " (all_domains primary aliases)).
  split; [reflexivity|]. split; [apply all_domains_NoDup|].
  split; [|split].
  - change (PyStr.contains web_root
              (line +:+ (" {" +:+ PyStr.NL +:+ "    root * ") +:+ web_root
               +:+ (PyStr.NL +:+ "    php_server" +:+ PyStr.NL +:+ "}"
                    +:+ PyStr.NL)) = true).
    apply contains_app_r, contains_app_mid.
  - change (PyStr.contains "php_server"
              (line +:+ (" {" +:+ PyStr.NL +:+ "    root * ") +:+ web_root
               +:+ (PyStr.NL +:+ "    ") +:+ "php_server"
               +:+ (PyStr.NL +:+ "}" +:+ PyStr.NL)) = true).
    do 3 apply contains_app_r. apply contains_app_mid.
  - intros Hdom Hroot.
    assert (Hline : PyStr.contains "php_fastcgi" line = false).
    { apply contains_join; [done | reflexivity |].
      unfold all_domains. inversion Hdom as [|? ? Hp Hal]; subst.
      constructor; [done|]. rewrite Forall_forall in Hal |- *.
      intros x Hx. apply Hal. by apply list_elem_of_filter in Hx as [_ Hx]. }
    change (PyStr.contains "php_fastcgi"
              (line +:+ String " "
                 (("{" +:+ PyStr.NL +:+ "    root *") +:+ String " "
                    (web_root +:+ String PyStr.LF
                       ("    php_server" +:+ PyStr.NL +:+ "}" +:+ PyStr.NL))))
            = false).
    rewrite !contains_sep by done.
    rewrite Hline, Hroot. reflexivity.
Qed.

Lemma render_caddy_config_default_witness :
  let out := render_caddy_config (default_env calm) "example.com"
               ["www.example.com"] "/var/www/example.com" "8.3" in
  CADDY_TEMPLATE (default_env calm) = None
  ∧ PyStr.contains "/var/www/example.com" out = true
  ∧ PyStr.contains "php_server" out = true
  ∧ PyStr.contains "php_fastcgi" out = false.
Proof.
  pose proof (render_caddy_config_default (default_env calm) "example.com"
                ["www.example.com"] "/var/www/example.com" "8.3" eq_refl)
    as (_ & _ & Hroot & Hserve & Hfast).
  split; [reflexivity|]. split; [exact Hroot|]. split; [exact Hserve|].
  apply Hfast; [repeat constructor | reflexivity].
Defined.

(** C9 as stated fails: the aliases are not deduplicated.  An alias given
    twice is listed twice. *)
Lemma render_caddy_config_repeats_alias :
  let aliases := ["www.example.com"; "www.example.com"] in
  ¬ NoDup (all_domains "example.com" aliases)
  ∧ PyStr.startswith "example.com www.example.com www.example.com {"
      (render_caddy_config (default_env calm) "example.com" aliases
         "/var/www/example.com" "8.3") = true.
Proof.
  split; [|vm_compute; reflexivity].
  assert (E : all_domains "example.com"
                ["www.example.com"; "www.example.com"]
              = ["example.com"; "www.example.com"; "www.example.com"])
    by (vm_compute; reflexivity).
  rewrite E. intros H.
  apply NoDup_cons in H as [_ H]. apply NoDup_cons in H as [H _].
  apply H. left.
Qed.

(* ===================================================================== *)
(** * The state store *)
(* ===================================================================== *)

Section StateStore.

Context (env : Env).

(** The host once the state directory is there. *)
Definition ensured (w : World) : World :=
  match state_dir w with
  | Absent => log EvStateMkdir (set_state_dir Directory w)
  | _ => w
  end.

(** The document that [load_state] makes of a parsed JSON object. *)
Definition doc_of_dict (m : gmap string json) : doc :=
  mkDoc (delete "sites" m)
    (Some (SitesOwn match m !! "sites" with
                    | Some (JDict sites) => sites
                    | _ => ∅
                    end)).

(** What [load_state] does, case by case. *)
Lemma load_state_result w :
  load_state env w =
  match state_dir w with
  | Regular => (w, Raise (FileExistsError (STATE_DIR env)))
  | _ =>
      match state_file w with
      | Missing | IsDir | NotJson => (ensured w, Ok default_copy)
      | NotUtf8 => (ensured w, Raise UnicodeDecodeError)
      | Json (JDict m) => (ensured w, Ok (doc_of_dict m))
      | Json _ => (ensured w, Raise AttributeError)
      end
  end.
Proof.
  unfold load_state, ensured, bind, _ensure_state_dir, state_file_exists,
    try_except, read_state_file, ret, raise.
  destruct w as [? ? ? sd sf ? ? ? ? ? ? ?]; simpl.
  destruct sd; simpl; (destruct sf as [| | | |[]]; reflexivity).
Qed.

Lemma ensured_state_file w : state_file (ensured w) = state_file w.
Proof. unfold ensured. by destruct (state_dir w). Qed.

Lemma ensured_default_sites w : default_sites (ensured w) = default_sites w.
Proof. unfold ensured. by destruct (state_dir w). Qed.

Lemma ensured_state_dir w : state_dir w ≠ Regular → state_dir (ensured w) = Directory.
Proof. unfold ensured. destruct (state_dir w) eqn:E; simpl; congruence. Qed.

(** A missing or unparsable state file yields the default document, and in
    a process that has not yet changed the shared default its site map is
    empty. *)
Lemma load_state_default w :
  state_dir w ≠ Regular →
  state_file w = Missing ∨ state_file w = NotJson ∨ state_file w = IsDir →
  ∃ w', load_state env w = (w', Ok default_copy)
        ∧ (default_sites w = ∅ → sites_of default_copy w' = Some ∅).
Proof.
  intros Hd Hf. exists (ensured w). rewrite load_state_result.
  split.
  - destruct (state_dir w); [| |done];
      destruct Hf as [->|[->| ->]]; reflexivity.
  - intros He. unfold sites_of. simpl. by rewrite ensured_default_sites, He.
Qed.

(** What [save_state] does. *)
Lemma save_state_result state w :
  save_state env state w =
  match state_dir w with
  | Regular => (w, Raise (FileExistsError (STATE_DIR env)))
  | _ =>
      match state_file w with
      | IsDir => (ensured w, Raise (IsADirectoryError (STATE_FILE env)))
      | _ => (log EvSaveState
                (set_state_file (Json (dump state (ensured w))) (ensured w)),
              Ok tt)
      end
  end.
Proof.
  unfold save_state, ensured, bind, _ensure_state_dir.
  destruct w as [? ? ? sd sf ? ? ? ? ? ? ?]; simpl.
  destruct sd; simpl; (destruct sf; reflexivity).
Qed.

Lemma sites_of_ensured state w : sites_of state (ensured w) = sites_of state w.
Proof. unfold sites_of. by rewrite ensured_default_sites. Qed.

(** After a [save_state] that returned, the state file holds the dump. *)
Lemma save_state_written state w w' :
  save_state env state w = (w', Ok tt) →
  state_dir w' = Directory
  ∧ state_file w' = Json (JDict (match sites_of state w with
                                 | None => doc_rest state
                                 | Some m => <["sites" := JDict m]> (doc_rest state)
                                 end)).
Proof.
  rewrite save_state_result. intros H.
  assert (Hd : state_dir w ≠ Regular) by (intros E; rewrite E in H; discriminate).
  assert (Hw : w' = log EvSaveState
                     (set_state_file (Json (dump state (ensured w))) (ensured w))).
  { destruct (state_dir w); [| |done]; destruct (state_file w); congruence. }
  subst w'. simpl. split; [by apply ensured_state_dir|].
  unfold dump. by rewrite sites_of_ensured.
Qed.

(** Reading back a state file that holds a JSON object. *)
Lemma load_state_parsed w m :
  state_dir w = Directory → state_file w = Json (JDict m) →
  load_state env w = (w, Ok (doc_of_dict m)).
Proof.
  intros Hd Hf. rewrite load_state_result, Hd, Hf. unfold ensured. by rewrite Hd.
Qed.

Lemma set_site_state_result state d r w :
  ∃ w' state', set_site_state state d r w = (w', Ok state')
    ∧ (∃ sites, sites_of state' w' = Some sites ∧ sites !! d = Some r)
    ∧ state_dir w' = state_dir w ∧ state_file w' = state_file w.
Proof.
  unfold set_site_state, sites_of.
  destruct state as [rest [[|m]|]]; simpl;
    eexists _, _; (split; [reflexivity|]); simpl;
    (split; [eexists; split; [reflexivity | apply lookup_insert_eq] | done]).
Qed.

End StateStore.

(** C3.  [load_state] is meant never to raise, whatever the state file
    holds.  The code asks [data.get("sites")] of whatever [json.load]
    returned and catches only [JSONDecodeError] and [OSError]: a file that
    holds the JSON array [[]] raises AttributeError, and a file whose bytes
    are not UTF-8 raises UnicodeDecodeError. *)
Theorem load_state_raises_on_non_object (o : Oracle) :
  (load_state (default_env o)
     (set_state_file (Json (JList [])) fresh_host)).2
  = Raise AttributeError
  ∧ (load_state (default_env o) (set_state_file NotUtf8 fresh_host)).2
    = Raise UnicodeDecodeError.
Proof. split; reflexivity. Qed.

(** C6.  Round trip through the state store: once [set_site_state] on the
    loaded document and [save_state] have run, [load_state] followed by
    [get_site_state] returns the record that was set.  The second load may
    run in another process, whose shared default site map [ds] is whatever
    it is: the record comes back through the state file. *)
Theorem state_round_trip env d r w w' ds :
  (let! state := load_state env in
   let! state := set_site_state state d r in
   save_state env state) w = (w', Ok tt) →
  ∃ w'', (let! loaded := load_state env in get_site_state loaded d)
           (set_default_sites ds w')
         = (w'', Ok (Some r)).
Proof.
  unfold bind at 1 2. intros H.
  destruct (load_state env w) as [w1 [state|e]] eqn:Hload; [|discriminate].
  destruct (set_site_state_result state d r w1)
    as (w2 & state' & Hset & (sites & Hsites & Hd) & Hdir & Hfile).
  rewrite Hset in H.
  destruct (save_state_written env state' w2 w' H) as (Hsd & Hsf).
  rewrite Hsites in Hsf.
  exists (set_default_sites ds w'). unfold bind.
  rewrite (load_state_parsed env (set_default_sites ds w') _ Hsd Hsf).
  unfold get_site_state, sites_of, doc_of_dict. simpl.
  rewrite lookup_insert_eq. by rewrite Hd.
Qed.

Lemma state_round_trip_witness :
  ∃ w'',
    (let! loaded := load_state (default_env calm) in
     get_site_state loaded "example.com")
      (set_default_sites ∅
         (log EvSaveState
            (set_state_file
               (Json (JDict {[ "sites" :=
                                 JDict {[ "example.com" :=
                                            JDict {[ "path" := JStr "/var/www/example.com" ]} ]};
                               "version" := JInt 1 ]}))
               (set_default_sites
                  {[ "example.com" := JDict {[ "path" := JStr "/var/www/example.com" ]} ]}
                  (log EvStateMkdir (set_state_dir Directory fresh_host))))))
    = (w'', Ok (Some (JDict {[ "path" := JStr "/var/www/example.com" ]}))).
Proof.
  apply (state_round_trip (default_env calm) "example.com"
           (JDict {[ "path" := JStr "/var/www/example.com" ]}) fresh_host _ ∅).
  vm_compute. reflexivity.
Defined.

(* ===================================================================== *)
(** * Footprints: what an operation may touch *)
(* ===================================================================== *)

(** The parts of the host an operation may change, and with them the kinds
    of events it may log. *)
Record mask : Type := Mask {
  m_fs : bool;        (* the web root tree; downloads *)
  m_proxy : bool;     (* the proxy configuration directory *)
  m_sdir : bool;      (* the state directory *)
  m_sfile : bool;     (* the state file *)
  m_users : bool;     (* the OS accounts *)
  m_sql : bool;       (* the SQL server *)
  m_mem : bool;       (* process memory: shared default, random stream *)
  m_proc : bool       (* external commands *)
}.

Definition ev_ok (k : mask) (ev : event) : bool :=
  match ev with
  | EvMkdir _ | EvRmtree _ | EvRmdir _ | EvWrite _
  | EvFetch _ _ | EvExtract _ _ => m_fs k
  | EvProxyMkdir | EvProxyWrite _ | EvProxyUnlink _ => m_proxy k
  | EvStateMkdir => m_sdir k
  | EvSaveState => m_sfile k
  | EvRun _ _ => m_proc k
  | EvConnect _ | EvSql _ _ => m_sql k
  end.

(** [w'] differs from [w] only in the parts that [k] allows. *)
Definition frame (k : mask) (w w' : World) : Prop :=
  (m_fs k = false → fs w' = fs w)
  ∧ (m_proxy k = false → proxy w' = proxy w ∧ caddy_dir w' = caddy_dir w)
  ∧ (m_sdir k = false → state_dir w' = state_dir w)
  ∧ (m_sfile k = false → state_file w' = state_file w)
  ∧ (m_users k = false → users w' = users w)
  ∧ (m_sql k = false →
     databases w' = databases w ∧ db_users w' = db_users w
     ∧ grants w' = grants w)
  ∧ (m_mem k = false →
     default_sites w' = default_sites w ∧ rng w' = rng w)
  ∧ ∃ evs, trace w' = trace w ++ evs ∧ Forall (λ ev, ev_ok k ev = true) evs.

Lemma frame_refl k w : frame k w w.
Proof.
  unfold frame. repeat split; try done.
  exists []. split; [by rewrite app_nil_r | constructor].
Qed.

Lemma frame_trans k w1 w2 w3 : frame k w1 w2 → frame k w2 w3 → frame k w1 w3.
Proof.
  intros (F1 & P1 & D1 & S1 & U1 & Q1 & M1 & evs1 & T1 & E1)
         (F2 & P2 & D2 & S2 & U2 & Q2 & M2 & evs2 & T2 & E2).
  unfold frame.
  split; [intros Hk; by rewrite F2, F1|].
  split; [intros Hk; destruct (P1 Hk), (P2 Hk); split; congruence|].
  split; [intros Hk; by rewrite D2, D1|].
  split; [intros Hk; by rewrite S2, S1|].
  split; [intros Hk; by rewrite U2, U1|].
  split; [intros Hk; destruct (Q1 Hk) as (?&?&?), (Q2 Hk) as (?&?&?);
          repeat split; congruence|].
  split; [intros Hk; destruct (M1 Hk), (M2 Hk); split; congruence|].
  exists (evs1 ++ evs2). split.
  - by rewrite T2, T1, app_assoc.
  - by apply Forall_app.
Qed.

(** [k'] allows whatever [k] allows. *)
Definition mask_le (k k' : mask) : bool :=
  implb (m_fs k) (m_fs k') && implb (m_proxy k) (m_proxy k')
  && implb (m_sdir k) (m_sdir k') && implb (m_sfile k) (m_sfile k')
  && implb (m_users k) (m_users k') && implb (m_sql k) (m_sql k')
  && implb (m_mem k) (m_mem k') && implb (m_proc k) (m_proc k').

Lemma frame_weaken k k' w w' : mask_le k k' = true → frame k w w' → frame k' w w'.
Proof.
  unfold mask_le. rewrite !andb_true_iff.
  intros (((((((Hf & Hp) & Hd) & Hs) & Hu) & Hq) & Hm) & Hr)
         (F & P & D & S & U & Q & M & evs & T & E).
  assert (Himp : ∀ a b, implb a b = true → b = false → a = false)
    by (by intros [] []).
  unfold frame.
  split; [eauto|]. split; [eauto|]. split; [eauto|]. split; [eauto|].
  split; [eauto|]. split; [eauto|]. split; [eauto|].
  exists evs. split; [done|].
  eapply Forall_impl; [exact E|]. intros ev Hev.
  destruct ev; simpl in *; rewrite Hev in *; simpl in *; done.
Qed.

Section Framed.

Context {S : Type} (π : S → World).

(** Whatever [m] returns or raises, it stays within the footprint [k]. *)
Definition framed {A} (k : mask) (m : M S A) : Prop :=
  ∀ s, frame k (π s) (π (m s).1).

Lemma framed_ret {A} k (a : A) : framed k (ret a).
Proof. intros s. apply frame_refl. Qed.

Lemma framed_raise {A} k e : framed k (@raise S A e).
Proof. intros s. apply frame_refl. Qed.

Lemma framed_lift_result {A} k (r : result A) : framed k (lift_result r).
Proof. intros s. apply frame_refl. Qed.

Lemma framed_get k : framed k (@get S).
Proof. intros s. apply frame_refl. Qed.

Lemma framed_bind {A B} k (m : M S A) (f : A → M S B) :
  framed k m → (∀ a, framed k (f a)) → framed k (bind m f).
Proof.
  intros Hm Hf s. unfold bind. specialize (Hm s).
  destruct (m s) as [s1 [a|e]]; simpl in *; [|done].
  eapply frame_trans; [exact Hm | apply Hf].
Qed.

Lemma framed_try_except {A} k (m : M S A) catches h :
  framed k m → (∀ e, framed k (h e)) → framed k (try_except m catches h).
Proof.
  intros Hm Hh s. unfold try_except. specialize (Hm s).
  destruct (m s) as [s1 [a|e]]; simpl in *; [done|].
  destruct (catches e); [|done].
  eapply frame_trans; [exact Hm | apply Hh].
Qed.

Lemma framed_when k c (m : M S unit) : framed k m → framed k (when c m).
Proof. intros Hm. destruct c; [done | apply framed_ret]. Qed.

Lemma framed_for_each {A} k (l : list A) (f : A → M S unit) :
  (∀ x, framed k (f x)) → framed k (for_each l f).
Proof.
  intros Hf. induction l as [|x l IHl]; simpl.
  - apply framed_ret.
  - apply framed_bind; [apply Hf | intros _; exact IHl].
Qed.

End Framed.

(** Footprints of operations on the host itself, and inside the [try] of
    [add_site]. *)
Definition here (w : World) : World := w.
Abbreviation framedW := (framed here).
Abbreviation framedS := (framed (@fst World (list step))).

Lemma framed_io {A} k (m : M World A) : framedW k m → framedS k (io m).
Proof.
  intros Hm [w l]. unfold io, on_fst. specialize (Hm w). unfold here in Hm.
  destruct (m w) as [w' r]. exact Hm.
Qed.

Lemma framed_record k s : framedS k (record s).
Proof. intros [w l]. apply frame_refl. Qed.

(** A host that is an explicit update of [w] is within a footprint. *)
Ltac frame_updates :=
  unfold frame; simpl; repeat split; try congruence;
  first
    [ by (exists []; split; [by rewrite app_nil_r | constructor])
    | by (eexists [_]; split;
          [reflexivity | repeat constructor; simpl; assumption]) ].

Ltac frame_prim :=
  let w := fresh "w" in
  intros w; unfold here; simpl;
  repeat match goal with
         | |- context [match ?x with _ => _ end] => destruct x eqn:?; simpl
         end;
  first [apply frame_refl | frame_updates].

Section PrimitiveFootprints.

Context (env : Env) (k : mask).

Lemma framed_exists p : framedW k (exists_ p).
Proof. intros w. apply frame_refl. Qed.

Lemma framed_mkdir p ok : m_fs k = true → framedW k (mkdir p ok).
Proof. intros Hk. unfold mkdir. frame_prim. Qed.

Lemma framed_rmtree p : m_fs k = true → framedW k (rmtree p).
Proof. intros Hk. unfold rmtree. frame_prim. Qed.

Lemma framed_rmdir p : m_fs k = true → framedW k (rmdir p).
Proof. intros Hk. unfold rmdir. frame_prim. Qed.

Lemma framed_write_text p text : m_fs k = true → framedW k (write_text p text).
Proof. intros Hk. unfold write_text. frame_prim. Qed.

(** An external command needs the parts its effect touches. *)
Definition cmd_ok (c : command) : bool :=
  match c with
  | Useradd _ _ | Userdel _ _ => m_fs k && m_users k
  | Mv _ _ => m_fs k
  | Other => true
  end.

Lemma framed_subprocess_run cmd :
  m_proc k = true → cmd_ok (parse cmd) = true →
  framedW k (subprocess_run env cmd).
Proof.
  intros Hk Hc w. unfold here, subprocess_run.
  destruct (proc_fails _ _ _); simpl; [frame_updates|].
  destruct (parse cmd) as [home name|rm name|src dst|]; simpl in *.
  - apply andb_prop in Hc as [Hf Hu].
    destruct (users w !! name); simpl; [frame_updates|].
    destruct (fs w !! home); simpl; frame_updates.
  - apply andb_prop in Hc as [Hf Hu].
    destruct (users w !! name); simpl; [|frame_updates].
    destruct rm; simpl; frame_updates.
  - destruct (fs w !! src) as [n|]; simpl; [|frame_updates].
    destruct (fs w !! dst) as [[|?]|]; simpl; frame_updates.
  - frame_updates.
Qed.

Lemma framed_run_cmd cmd dry_run :
  (dry_run = false → m_proc k = true ∧ cmd_ok (parse cmd) = true) →
  framedW k (run_cmd env cmd dry_run).
Proof.
  intros Hk. unfold run_cmd. destruct dry_run; [apply framed_ret|].
  destruct Hk as [? ?]; [done|]. by apply framed_subprocess_run.
Qed.

Lemma framed_validate_identifier_or_raise name kind :
  framedW k (validate_identifier_or_raise name kind).
Proof.
  unfold validate_identifier_or_raise.
  destruct (negb _); [apply framed_raise | apply framed_ret].
Qed.

Lemma framed_root_connection : m_sql k = true → framedW k (_root_connection env).
Proof. intros Hk. unfold _root_connection. frame_prim. Qed.

Lemma framed_execute q : m_sql k = true → framedW k (execute env q).
Proof.
  intros Hk w. unfold here, execute.
  destruct (sql_fails _ _ _); simpl; [frame_updates|].
  destruct q; simpl; try solve [frame_updates].
  destruct (db_users w !! user); simpl; frame_updates.
Qed.

Lemma framed_generate_password : m_mem k = true → framedW k (_generate_password env).
Proof. intros Hk. unfold _generate_password. frame_prim. Qed.

Lemma framed_ensure_state_dir : m_sdir k = true → framedW k (_ensure_state_dir env).
Proof. intros Hk. unfold _ensure_state_dir. frame_prim. Qed.

Lemma framed_mkdir_caddy_dir : m_proxy k = true → framedW k (mkdir_caddy_dir env).
Proof. intros Hk. unfold mkdir_caddy_dir. frame_prim. Qed.

Lemma framed_proxy_exists p : framedW k (proxy_exists p).
Proof. intros w. apply frame_refl. Qed.

Lemma framed_proxy_write_text p text :
  m_proxy k = true → framedW k (proxy_write_text p text).
Proof. intros Hk. unfold proxy_write_text. frame_prim. Qed.

Lemma framed_proxy_unlink p : m_proxy k = true → framedW k (proxy_unlink p).
Proof. intros Hk. unfold proxy_unlink. frame_prim. Qed.

Lemma framed_fetch_archive : m_fs k = true → framedW k (fetch_archive env).
Proof. intros Hk. unfold fetch_archive. frame_prim. Qed.

Lemma framed_extractall dir : m_fs k = true → framedW k (extractall env dir).
Proof. intros Hk. unfold extractall. frame_prim. Qed.

Lemma framed_iterdir dir : framedW k (iterdir dir).
Proof. intros w. apply frame_refl. Qed.

End PrimitiveFootprints.

Create HintDb frames.

#[export] Hint Resolve framed_exists framed_mkdir framed_rmtree framed_rmdir
  framed_write_text framed_validate_identifier_or_raise
  framed_root_connection framed_execute framed_generate_password
  framed_ensure_state_dir framed_mkdir_caddy_dir framed_proxy_exists
  framed_proxy_write_text framed_proxy_unlink framed_fetch_archive
  framed_extractall framed_iterdir : frames.

#[export] Hint Extern 5 => congruence : frames.

(** Premises [false = false → P] become [P]. *)
Ltac use_flags :=
  repeat match goal with
         | H : ?x = ?x → _ |- _ => specialize (H eq_refl)
         | H : true = false → _ |- _ => clear H
         | H : _ ∧ _ |- _ => destruct H
         end.

(** Walk through the structure of a computation, by its syntax. *)
Ltac framing_step :=
  lazymatch goal with
  | |- framed _ _ ?m =>
      lazymatch m with
      | ret _ => apply framed_ret
      | raise _ => apply framed_raise
      | lift_result _ => apply framed_lift_result
      | get => apply framed_get
      | bind _ _ => apply framed_bind; [|intros ?]
      | try_except _ _ _ => apply framed_try_except; [|intros ?]
      | when _ _ => unfold when at 1; cbn [negb andb]
      | for_each _ _ => apply framed_for_each; intros ?
      | io _ => apply framed_io
      | record _ => apply framed_record
      | if ?b then _ else _ => destruct b eqn:?
      | match ?x with _ => _ end => destruct x eqn:?
      | let x := _ in _ => cbv zeta
      end
  end.

Ltac framing :=
  use_flags;
  repeat first [ solve [use_flags; eauto with frames] | framing_step ];
  use_flags; eauto with frames.

(** Replace the flags that are known to be set. *)
Ltac flags :=
  simpl;
  repeat match goal with
         | H : ?f ?k = true |- context [?f ?k] => rewrite H
         end;
  simpl; try reflexivity; try done.

Section CompositeFootprints.

Context (env : Env) (k : mask).

Lemma framed_create_database db_name db_user db_password dry_run :
  m_mem k = true → (dry_run = false → m_sql k = true) →
  framedW k (create_database env db_name db_user db_password dry_run).
Proof. intros Hm Hs. unfold create_database. framing. Qed.

Lemma framed_delete_database db_name db_user dry_run :
  (dry_run = false → m_sql k = true) →
  framedW k (delete_database env db_name db_user dry_run).
Proof. intros Hs. unfold delete_database. framing. Qed.

Lemma framed_create_linux_user username home_dir dry_run :
  (dry_run = false → m_proc k = true ∧ m_fs k = true ∧ m_users k = true) →
  framedW k (create_linux_user env username home_dir dry_run).
Proof.
  intros Hk. unfold create_linux_user, run_cmd. framing.
  apply framed_subprocess_run; flags.
Qed.

Lemma framed_delete_linux_user username remove_home dry_run :
  (dry_run = false → m_proc k = true ∧ m_fs k = true ∧ m_users k = true) →
  framedW k (delete_linux_user env username remove_home dry_run).
Proof.
  intros Hk. unfold delete_linux_user, run_cmd. framing.
  apply framed_subprocess_run; [done|].
  destruct remove_home, username; flags.
Qed.

Lemma framed_chown_recursive path user group dry_run :
  (dry_run = false → m_proc k = true) →
  framedW k (chown_recursive env path user group dry_run).
Proof.
  intros Hk. unfold chown_recursive. apply framed_run_cmd.
  intros ->. split; [by apply Hk | reflexivity].
Qed.

Lemma framed_load_state : m_sdir k = true → framedW k (load_state env).
Proof.
  intros Hk. unfold load_state. framing.
  all: intros w; unfold here, read_state_file, state_file_exists;
    try destruct (state_file w); apply frame_refl.
Qed.

Lemma framed_save_state state :
  m_sdir k = true → m_sfile k = true → framedW k (save_state env state).
Proof.
  intros Hd Hf. unfold save_state. framing.
  intros w. unfold here. destruct (state_file w); frame_updates.
Qed.

Lemma framed_get_site_state state d : framedW k (get_site_state state d).
Proof. intros w. apply frame_refl. Qed.

Lemma framed_set_site_state state d r :
  m_mem k = true → framedW k (set_site_state state d r).
Proof.
  intros Hk. unfold set_site_state.
  destruct state as [rest [[|m]|]]; simpl; framing.
  intros w. unfold here, modify. frame_updates.
Qed.

Lemma framed_remove_site_state state d :
  m_mem k = true → framedW k (remove_site_state state d).
Proof.
  intros Hk. unfold remove_site_state.
  destruct state as [rest [[|m]|]]; simpl; framing.
  intros w. unfold here, modify. frame_updates.
Qed.

(** The reload command, when it runs, needs what its effect touches. *)
Definition reload_ok : Prop :=
  m_proc k = true ∧ cmd_ok k (parse (CADDY_RELOAD_CMD env)) = true.

Lemma framed_reload_caddy dry_run :
  (dry_run = false → reload_ok) → framedW k (reload_caddy env dry_run).
Proof. intros Hk. unfold reload_caddy. apply framed_run_cmd. exact Hk. Qed.

Lemma framed_write_site_config d aliases web_root php dry_run :
  (dry_run = false → m_proxy k = true ∧ reload_ok) →
  framedW k (write_site_config env d aliases web_root php dry_run).
Proof.
  intros Hk. unfold write_site_config. framing.
  apply framed_run_cmd. intros _. assumption.
Qed.

Lemma framed_remove_site_config d dry_run :
  (dry_run = false → m_proxy k = true ∧ reload_ok) →
  framedW k (remove_site_config env d dry_run).
Proof.
  intros Hk. unfold remove_site_config. framing.
  apply framed_run_cmd. intros _. assumption.
Qed.

Lemma framed_download_wordpress dest dry_run :
  (dry_run = false → m_fs k = true ∧ m_proc k = true) →
  framedW k (download_wordpress env dest dry_run).
Proof.
  intros Hk. unfold download_wordpress. framing.
  apply framed_run_cmd. intros _. split; flags.
Qed.

Lemma framed_install_wordpress site_root db_name db_user db_pass dry_run :
  (dry_run = false → m_fs k = true ∧ m_proc k = true) →
  framedW k (install_wordpress env site_root db_name db_user db_pass dry_run).
Proof.
  intros Hk. unfold install_wordpress. framing.
  - by apply framed_download_wordpress.
  - apply framed_run_cmd. intros _. split; flags.
  - apply framed_run_cmd. intros _. split; flags.
Qed.

End CompositeFootprints.

#[export] Hint Resolve framed_run_cmd framed_create_database framed_delete_database
  framed_create_linux_user framed_delete_linux_user framed_chown_recursive
  framed_load_state framed_save_state framed_get_site_state
  framed_set_site_state framed_remove_site_state framed_reload_caddy
  framed_write_site_config framed_remove_site_config
  framed_download_wordpress framed_install_wordpress : frames.

Section SiteFootprints.

Context (env : Env) (k : mask).

(** Everything a real run of the orchestrator may touch, the state store
    apart. *)
Definition provisioning_ok : Prop :=
  m_fs k = true ∧ m_proxy k = true ∧ m_users k = true ∧ m_sql k = true
  ∧ m_proc k = true.

Lemma framed_rollback_step d site_root dry_run s :
  provisioning_ok →
  framedW k (rollback_step env d site_root dry_run s).
Proof.
  intros (? & ? & ? & ? & ?). unfold rollback_step.
  assert (reload_ok env k) by (split; [done|]; destruct (parse _); flags).
  destruct s; framing.
Qed.

Lemma framed_rollback d site_root dry_run steps_done :
  provisioning_ok →
  framedW k (rollback env d site_root dry_run steps_done).
Proof.
  intros Hk. unfold rollback, swallow. framing.
  by apply framed_rollback_step.
Qed.

Lemma reload_ok_of_provisioning : provisioning_ok → reload_ok env k.
Proof.
  intros (? & ? & ? & ? & ?). split; [done|]. destruct (parse _); flags.
Qed.

Lemma framed_add_site_body d aliases app php create_user force dry_run
    site_root state existing :
  m_mem k = true →
  (dry_run = false → provisioning_ok ∧ m_sdir k = true ∧ m_sfile k = true) →
  framedS k (add_site_body env d aliases app php create_user force dry_run
               site_root state existing).
Proof.
  intros Hm Hk. unfold add_site_body.
  destruct dry_run.
  - framing.
  - destruct Hk as ((? & ? & ? & ? & ?) & ? & ?); [done|].
    assert (reload_ok env k)
      by (apply reload_ok_of_provisioning; repeat split; done).
    framing.
Qed.

Lemma framed_add_site d aliases app php create_user force dry_run :
  m_sdir k = true → m_mem k = true →
  (dry_run = false → provisioning_ok ∧ m_sfile k = true) →
  framedW k (add_site env d aliases app php create_user force dry_run).
Proof.
  intros Hd Hm Hk. unfold add_site.
  destruct (Validators.validate_domains _ _) as [ok err].
  destruct (negb ok); [apply framed_raise|].
  apply framed_bind; [by apply framed_load_state | intros state].
  apply framed_bind; [apply framed_get_site_state | intros existing].
  destruct (_ && _); [apply framed_raise|].
  intros w. unfold here.
  pose proof (framed_add_site_body d (default [] aliases) app php create_user
                force dry_run (_site_path env d) state existing Hm) as Hbody.
  specialize (Hbody (λ E, conj (proj1 (Hk E)) (conj Hd (proj2 (Hk E)))) (w, [])).
  destruct (add_site_body _ _ _ _ _ _ _ _ _ _ _ _)
    as [[w' steps_done] [site_data|e]]; simpl in *; [done|].
  destruct dry_run; simpl; [done|].
  eapply frame_trans; [exact Hbody|].
  apply (framed_rollback d (_site_path env d) false steps_done).
  apply (Hk eq_refl).
Qed.

Lemma framed_delete_site d dry_run :
  m_sdir k = true → m_mem k = true →
  (dry_run = false → provisioning_ok ∧ m_sfile k = true) →
  framedW k (delete_site env d dry_run).
Proof.
  intros Hd Hm Hk. unfold delete_site, as_name, as_optional_name.
  destruct dry_run.
  - framing.
  - destruct Hk as ((? & ? & ? & ? & ?) & ?); [done|].
    assert (reload_ok env k)
      by (apply reload_ok_of_provisioning; repeat split; done).
    framing.
Qed.

End SiteFootprints.

(* ===================================================================== *)
(** * Dry run *)
(* ===================================================================== *)

(** The host is the same in every part outside the process: files, proxy
    configuration, state, accounts, SQL server. *)
Definition untouched (w w' : World) : Prop :=
  fs w' = fs w ∧ caddy_dir w' = caddy_dir w ∧ proxy w' = proxy w
  ∧ state_file w' = state_file w ∧ users w' = users w
  ∧ databases w' = databases w ∧ db_users w' = db_users w
  ∧ grants w' = grants w.

(** No effect at all: nothing changed and nothing was attempted. *)
Definition no_effect (w w' : World) : Prop :=
  untouched w w' ∧ state_dir w' = state_dir w ∧ trace w' = trace w.

(** No effect but that the state directory was created if it was missing. *)
Definition only_state_dir (w w' : World) : Prop :=
  untouched w w'
  ∧ ((state_dir w' = state_dir w ∧ trace w' = trace w)
     ∨ (state_dir w = Absent ∧ state_dir w' = Directory
        ∧ trace w' = trace w ++ [EvStateMkdir])).

(** The footprint of a dry run of one component: process memory only. *)
Definition quiet : mask := Mask false false false false false false true false.

Lemma frame_quiet_no_effect w w' : frame quiet w w' → no_effect w w'.
Proof.
  intros (F & P & D & S & U & Q & _ & evs & T & E).
  destruct (P eq_refl) as [? ?]. destruct (Q eq_refl) as (? & ? & ?).
  assert (evs = []) as ->.
  { destruct evs as [|ev evs]; [done|].
    inversion E as [|? ? Hev]; subst. destruct ev; discriminate. }
  rewrite app_nil_r in T.
  repeat split; auto.
Qed.

Lemma load_state_only_state_dir env w : only_state_dir w (load_state env w).1.
Proof.
  rewrite load_state_result.
  assert (Hsame : only_state_dir w w).
  { split; [by repeat split | by left]. }
  assert (Hens : only_state_dir w (ensured w)).
  { unfold ensured. destruct (state_dir w) eqn:E; [|exact Hsame..].
    split; [by repeat split | right]. by repeat split. }
  destruct (state_dir w); [..|exact Hsame];
    destruct (state_file w) as [| | | |[]]; exact Hens.
Qed.

Lemma only_state_dir_then_no_effect w w1 w' :
  only_state_dir w w1 → no_effect w1 w' → only_state_dir w w'.
Proof.
  intros ((?&?&?&?&?&?&?&?) & Hs) ((?&?&?&?&?&?&?&?) & Hd & Ht).
  split; [repeat split; congruence|].
  rewrite Hd, Ht. exact Hs.
Qed.

(** The world in which the continuation of a [bind] starts. *)
Lemma bind_split {A B} (m : M World A) (f : A → M World B) k w :
  (∀ a, framedW k (f a)) → frame k (m w).1 (bind m f w).1.
Proof.
  intros Hf. unfold bind. destruct (m w) as [w1 [a|e]]; simpl.
  - apply Hf.
  - apply frame_refl.
Qed.

Lemma add_site_dry_run env d aliases app php create_user force w :
  only_state_dir w (add_site env d aliases app php create_user force true w).1.
Proof.
  unfold add_site.
  destruct (Validators.validate_domains _ _) as [ok err].
  destruct (negb ok).
  { split; [by repeat split | by left]. }
  eapply only_state_dir_then_no_effect; [apply load_state_only_state_dir|].
  apply frame_quiet_no_effect, bind_split. intros state.
  apply framed_bind; [apply framed_get_site_state | intros existing].
  destruct (_ && _); [apply framed_raise|].
  intros w1. unfold here.
  pose proof (framed_add_site_body env quiet d (default [] aliases) app php
                create_user force true (_site_path env d) state existing
                eq_refl) as Hbody.
  specialize (Hbody (λ E, False_ind _ (Bool.diff_true_false E)) (w1, [])).
  destruct (add_site_body _ _ _ _ _ _ _ _ _ _ _ _)
    as [[w' steps_done] [site_data|e]]; exact Hbody.
Qed.

Lemma delete_site_dry_run env d w : only_state_dir w (delete_site env d true w).1.
Proof.
  unfold delete_site.
  eapply only_state_dir_then_no_effect; [apply load_state_only_state_dir|].
  apply frame_quiet_no_effect, bind_split. intros state.
  unfold as_name, as_optional_name. framing.
Qed.

Lemma choices_len env n i : PyStr.len (choices env n i) = n.
Proof.
  revert i. induction n as [|n IHn]; intros i; simpl; [done|].
  unfold PyStr.len in *. by rewrite IHn.
Qed.

(** C8, as the code has it.  With the dry-run flag set, no operation of
    any component changes the web root tree, the proxy configuration, the
    state file, the OS accounts or the SQL server, and none attempts to;
    [add_site] and [delete_site] alone have one effect on the file system:
    [load_state] creates the state directory when it is missing.
    [create_database], given a valid name and no password, returns the
    name twice and a generated password of PASSWORD_LENGTH = 32
    characters. *)
Theorem dry_run_has_no_effect env w :
  (∀ cmd, no_effect w (run_cmd env cmd true w).1)
  ∧ (∀ n u p, no_effect w (create_database env n u p true w).1)
  ∧ (∀ n u, no_effect w (delete_database env n u true w).1)
  ∧ (∀ u h, no_effect w (create_linux_user env u h true w).1)
  ∧ (∀ u r, no_effect w (delete_linux_user env u r true w).1)
  ∧ (∀ p u g, no_effect w (chown_recursive env p u g true w).1)
  ∧ (∀ d al root php, no_effect w (write_site_config env d al root php true w).1)
  ∧ (∀ d, no_effect w (remove_site_config env d true w).1)
  ∧ no_effect w (reload_caddy env true w).1
  ∧ (∀ dest, no_effect w (download_wordpress env dest true w).1)
  ∧ (∀ root n u p, no_effect w (install_wordpress env root n u p true w).1)
  ∧ (∀ d al app php cu force,
       only_state_dir w (add_site env d al app php cu force true w).1)
  ∧ (∀ d, only_state_dir w (delete_site env d true w).1)
  ∧ (∀ n, Validators.validate_identifier n = true →
       ∃ w' password,
         create_database env n None None true w = (w', Ok (n, n, password))
         ∧ PyStr.len password = 32%nat).
Proof.
  repeat match goal with |- _ ∧ _ => split end; intros;
    try (apply frame_quiet_no_effect;
         match goal with
         | |- frame quiet ?w (?m ?w).1 =>
             let H := fresh in
             assert (H : framedW quiet m) by (framing; eauto with frames);
             exact (H w)
         end).
  - apply add_site_dry_run.
  - apply delete_site_dry_run.
  - unfold create_database, validate_identifier_or_raise, bind, str_or.
    rewrite H. cbn [negb]. unfold _generate_password, ret.
    eexists _, _. split; [reflexivity|]. apply choices_len.
Qed.

Lemma dry_run_has_no_effect_witness :
  ∃ w' password,
    create_database (default_env calm) "example_com" None None true fresh_host
    = (w', Ok ("example_com", "example_com", password))
    ∧ PyStr.len password = 32%nat.
Proof.
  apply (dry_run_has_no_effect (default_env calm) fresh_host).
  vm_compute. reflexivity.
Defined.

(** C8 as stated fails: a dry run of [add_site] on a host without state
    directory creates that directory. *)
Lemma dry_run_creates_state_directory :
  let w' := (add_site (default_env calm) "example.com" None None None
               false false true fresh_host).1 in
  state_dir fresh_host = Absent ∧ state_dir w' = Directory
  ∧ trace w' = [EvStateMkdir].
Proof. vm_compute. repeat split. Qed.

(* ===================================================================== *)
(** * Running a computation step by step *)
(* ===================================================================== *)

Lemma bind_cases {S A B} (m : M S A) (f : A → M S B) s s' r :
  bind m f s = (s', r) →
  (∃ e, m s = (s', Raise e) ∧ r = Raise e)
  ∨ (∃ s1 a, m s = (s1, Ok a) ∧ f a s1 = (s', r)).
Proof.
  unfold bind. destruct (m s) as [s1 [a|e]]; intros H.
  - right. by exists s1, a.
  - left. exists e. by simplify_eq.
Qed.

Lemma bind_Ok {S A B} (m : M S A) (f : A → M S B) s s' b :
  bind m f s = (s', Ok b) →
  ∃ s1 a, m s = (s1, Ok a) ∧ f a s1 = (s', Ok b).
Proof.
  intros H. apply bind_cases in H as [(e & _ & ?)|H]; [discriminate | exact H].
Qed.

Lemma bind_eq {S A B} (m : M S A) (f : A → M S B) s s1 a :
  m s = (s1, Ok a) → bind m f s = f a s1.
Proof. intros H. unfold bind. by rewrite H. Qed.

Lemma framed_run {A} k (m : M World A) w w' r :
  framedW k m → m w = (w', r) → frame k w w'.
Proof. intros Hm E. specialize (Hm w). unfold here in Hm. by rewrite E in Hm. Qed.

(** The exceptions a computation may raise. *)
Section Raises.

Context {S : Type}.

Definition raises {A} (C : exn → bool) (m : M S A) : Prop :=
  ∀ s s' e, m s = (s', Raise e) → C e = true.

Lemma raises_ret {A} C (a : A) : raises C (@ret S A a).
Proof. intros s s' e H. discriminate. Qed.

Lemma raises_raise {A} (C : exn → bool) e : C e = true → raises C (@raise S A e).
Proof. intros He s s' e' H. unfold raise in H. congruence. Qed.

Lemma raises_lift_result {A} (C : exn → bool) (r : result A) :
  (∀ e, r = Raise e → C e = true) → raises C (@lift_result S A r).
Proof. intros Hr s s' e H. apply Hr. unfold lift_result in H. congruence. Qed.

Lemma raises_bind {A B} C (m : M S A) (f : A → M S B) :
  raises C m → (∀ a, raises C (f a)) → raises C (bind m f).
Proof.
  intros Hm Hf s s' e H.
  apply bind_cases in H as [(e' & H & [= <-])|(s1 & a & _ & H)].
  - by eapply Hm.
  - by eapply Hf.
Qed.

Lemma raises_try_except {A} C C0 (m : M S A) catches h :
  raises C0 m →
  (∀ e, C0 e = true → catches e = false → C e = true) →
  (∀ e, raises C (h e)) →
  raises C (try_except m catches h).
Proof.
  intros Hm Hc Hh s s' e H. unfold try_except in H.
  destruct (m s) as [s1 [a|e']] eqn:E; [discriminate|].
  destruct (catches e') eqn:Ec.
  - by eapply Hh.
  - injection H as <- <-. apply Hc; [by eapply Hm | done].
Qed.

Lemma raises_when C c (m : M S unit) : raises C m → raises C (when c m).
Proof. intros Hm. destruct c; [done | apply raises_ret]. Qed.

Lemma raises_weaken {A} (C C' : exn → bool) (m : M S A) :
  (∀ e, C e = true → C' e = true) → raises C m → raises C' m.
Proof. intros Hc Hm s s' e H. by eapply Hc, Hm. Qed.

End Raises.

(* ===================================================================== *)
(** * delete_site: teardown stops at the first failure *)
(* ===================================================================== *)

Section DeleteSite.

Context (env : Env).

Definition is_ValueError_or_RuntimeError (e : exn) : bool :=
  match e with ValueError _ | RuntimeError _ => true | _ => false end.

Lemma raises_validate_identifier_or_raise name kind :
  raises is_ValueError_or_RuntimeError (validate_identifier_or_raise name kind).
Proof.
  unfold validate_identifier_or_raise.
  destruct (negb _); [by apply raises_raise | apply raises_ret].
Qed.

Lemma raises_root_connection : raises is_MySQLError (_root_connection env).
Proof.
  intros w w' e H. unfold _root_connection in H.
  destruct (connect_fails _ _); by simplify_eq.
Qed.

Lemma raises_execute q : raises is_MySQLError (execute env q).
Proof.
  intros w w' e H. unfold execute in H.
  destruct (sql_fails _ _ _); by simplify_eq.
Qed.

Lemma raises_delete_database db_name db_user dry_run :
  raises is_ValueError_or_RuntimeError
    (delete_database env db_name db_user dry_run).
Proof.
  unfold delete_database.
  apply raises_bind; [apply raises_validate_identifier_or_raise | intros _].
  destruct dry_run; [apply raises_ret|].
  apply raises_try_except with (C0 := is_MySQLError).
  - repeat (apply raises_bind; [|intros _]);
      first [apply raises_root_connection | apply raises_execute].
  - intros e -> [=].
  - intros e. by apply raises_raise.
Qed.

(** The exceptions of the database step of [delete_site]. *)
Definition is_db_step_exn (e : exn) : bool :=
  match e with
  | ValueError _ | RuntimeError _ | AttributeError | TypeError => true
  | _ => false
  end.

(** The database step of [delete_site]. *)
Definition drop_recorded_database (site_data : option json) (dry_run : bool)
    : M World unit :=
  match site_data with
  | Some data =>
      when (truthy data)
        (let! db_name := lift_result (dict_get data "db_name") in
         let! db_user := lift_result (dict_get data "db_user") in
         when (truthy_opt db_name)
           (let! name := as_name (default JNull db_name) in
            let! user := as_optional_name db_user in
            delete_database env name user dry_run))
  | None => ret tt
  end.

Lemma raises_drop_recorded_database site_data dry_run :
  raises is_db_step_exn (drop_recorded_database site_data dry_run).
Proof.
  unfold drop_recorded_database.
  destruct site_data as [data|]; [|apply raises_ret].
  apply raises_when.
  apply raises_bind; [|intros db_name].
  { apply raises_lift_result. intros e He. by destruct data; simplify_eq/=. }
  apply raises_bind; [|intros db_user].
  { apply raises_lift_result. intros e He. by destruct data; simplify_eq/=. }
  apply raises_when.
  apply raises_bind; [|intros name].
  { unfold as_name. destruct (default JNull db_name);
      first [apply raises_ret | by apply raises_raise]. }
  apply raises_bind; [|intros user].
  { unfold as_optional_name. destruct db_user as [[]|];
      repeat first [apply raises_ret | by apply raises_raise
                   | match goal with |- raises _ (if ?b then _ else _) =>
                       destruct b end]. }
  eapply raises_weaken; [|apply raises_delete_database].
  by intros [].
Qed.

Lemma framed_drop_recorded_database k site_data dry_run :
  (dry_run = false → m_sql k = true) →
  framedW k (drop_recorded_database site_data dry_run).
Proof.
  intros Hk. unfold drop_recorded_database, as_name, as_optional_name.
  framing.
Qed.

(** [delete_site], with its steps named. *)
Lemma delete_site_steps d dry_run :
  delete_site env d dry_run =
  (let! state := load_state env in
   let! site_data := get_site_state state d in
   let! present := exists_ (_site_path env d) in
   when (negb dry_run && present) (rmtree (_site_path env d)) >>
   drop_recorded_database site_data dry_run >>
   remove_site_config env d dry_run >>
   let! ' (state, _) := remove_site_state state d in
   when (negb dry_run) (save_state env state)).
Proof. reflexivity. Qed.

Lemma rmtree_raise p w w' e :
  rmtree p w = (w', Raise e) →
  w' = w ∧ (e = NotADirectoryError p ∨ e = FileNotFoundError p).
Proof.
  unfold rmtree. destruct (fs w !! p) as [[|?]|]; intros [= <- <-]; auto.
Qed.

Lemma save_state_raise state w w' e :
  save_state env state w = (w', Raise e) →
  state_file w' = state_file w
  ∧ (e = FileExistsError (STATE_DIR env) ∨ e = IsADirectoryError (STATE_FILE env)).
Proof.
  rewrite save_state_result.
  destruct (state_dir w) eqn:Hd; destruct (state_file w) eqn:Hf;
    intros [= <- <-]; rewrite ?ensured_state_file; auto.
Qed.

Lemma load_state_raise w w' e :
  load_state env w = (w', Raise e) →
  e = FileExistsError (STATE_DIR env) ∨ e = UnicodeDecodeError
  ∨ e = AttributeError.
Proof.
  rewrite load_state_result.
  destruct (state_dir w); destruct (state_file w) as [| | | |[]];
    intros [= <- <-]; auto.
Qed.

Definition is_proxy_step_exn (e : exn) : bool :=
  match e with
  | IsADirectoryError _ | FileNotFoundError _ | CalledProcessError _ => true
  | _ => false
  end.

Lemma raises_remove_site_config d dry_run :
  raises is_proxy_step_exn (remove_site_config env d dry_run).
Proof.
  unfold remove_site_config.
  destruct dry_run.
  { intros w w' e H. discriminate. }
  apply raises_bind; [intros w w' e H; discriminate | intros present].
  destruct (negb present); [apply raises_ret|].
  apply raises_bind; [|intros _].
  { intros w w' e H. unfold proxy_unlink in H.
    destruct (proxy w !! _) as [[|?]|]; by simplify_eq. }
  apply raises_bind; [|intros _; apply raises_ret].
  intros w w' e H. unfold run_cmd, subprocess_run in H.
  destruct (proc_fails _ _ _); [by simplify_eq|].
  destruct (effect _ _); by simplify_eq.
Qed.

(** The footprints of the teardown up to the directory, up to the
    database, and up to the proxy configuration; the state file is out of
    reach of all three. *)
Definition mask_dir : mask := Mask true false true false false false false false.
Definition mask_db : mask := Mask true false true false false true false false.
Definition mask_teardown : mask := Mask true true true false true true true true.

End DeleteSite.

(** C2, as the code has it.  The teardown steps of [delete_site] run one
    after the other without a guard, so the first step that raises ends
    the call and the later steps are not attempted: whenever [delete_site]
    raises, the persisted state is as before (the record is not removed);
    when the database drop raised (RuntimeError), the proxy configuration
    is as before; when the directory removal raised (NotADirectoryError),
    the SQL server and the proxy configuration are as before.  The domain
    is a validated one and the configured locations lie apart. *)
Theorem delete_site_stops_at_first_failure env d w w' e :
  locations_apart env d = true →
  delete_site env d false w = (w', Raise e) →
  state_file w' = state_file w
  ∧ (∀ msg, e = RuntimeError msg → proxy w' = proxy w)
  ∧ (∀ p, e = NotADirectoryError p →
       databases w' = databases w ∧ db_users w' = db_users w
       ∧ proxy w' = proxy w).
Proof.
  intros _. rewrite delete_site_steps. intros H.
  (* load_state *)
  apply bind_cases in H as [(e0 & H & [= <-]) | (w1 & state & Hload & H)].
  { pose proof (framed_run mask_dir _ _ _ _ (framed_load_state env mask_dir eq_refl) H)
      as (_ & P & _ & S & _ & Q & _).
    destruct (P eq_refl), (Q eq_refl) as (? & ? & ?).
    apply load_state_raise in H as [->|[->| ->]];
      (split; [by apply S|]); split; intros; simplify_eq. }
  pose proof (framed_run mask_dir _ _ _ _ (framed_load_state env mask_dir eq_refl) Hload)
    as F1.
  apply bind_cases in H as [(e0 & H & _) | (w2 & site_data & Hget & H)];
    [discriminate|].
  injection Hget as <- _.
  apply bind_cases in H as [(e0 & H & _) | (w2 & present & Hex & H)];
    [discriminate|].
  injection Hex as <- _.
  (* the site directory *)
  apply bind_cases in H as [(e0 & H & [= <-]) | (w2 & [] & Hrm & H)].
  { assert (w' = w1) as ->.
    { simpl in H. destruct present; simpl in H;
        [by apply rmtree_raise in H as [-> _] | discriminate]. }
    destruct F1 as (_ & P & _ & S & _ & Q & _).
    destruct (P eq_refl), (Q eq_refl) as (? & ? & ?).
    split; [by apply S|]. split; intros; simplify_eq; auto. }
  assert (F2 : frame mask_dir w w2).
  { eapply frame_trans; [exact F1|]. eapply framed_run; [|exact Hrm].
    simpl. destruct present; simpl; [by apply framed_rmtree | apply framed_ret]. }
  (* the database *)
  apply bind_cases in H as [(e0 & H & [= <-]) | (w3 & [] & Hdb & H)].
  { assert (F3 : frame mask_db w w').
    { eapply frame_trans; [by eapply frame_weaken; [|exact F2]|].
      eapply framed_run; [|exact H]. by apply framed_drop_recorded_database. }
    destruct F3 as (_ & P & _ & S & _).
    destruct (P eq_refl).
    apply raises_drop_recorded_database in H.
    split; [by apply S|]. split; intros; simplify_eq; auto. }
  assert (F3 : frame mask_db w w3).
  { eapply frame_trans; [by eapply frame_weaken; [|exact F2]|].
    eapply framed_run; [|exact Hdb]. by apply framed_drop_recorded_database. }
  (* the proxy configuration *)
  assert (Hrel : reload_ok env mask_teardown).
  { split; [done|]. by destruct (parse _). }
  apply bind_cases in H as [(e0 & H & [= <-]) | (w4 & removed & Hrsc & H)].
  { assert (F4 : frame mask_teardown w w').
    { eapply frame_trans; [by eapply frame_weaken; [|exact F3]|].
      eapply framed_run; [|exact H]. by apply framed_remove_site_config. }
    destruct F4 as (_ & _ & _ & S & _).
    apply raises_remove_site_config in H.
    split; [by apply S|]. split; intros; simplify_eq. }
  assert (F4 : frame mask_teardown w w4).
  { eapply frame_trans; [by eapply frame_weaken; [|exact F3]|].
    eapply framed_run; [|exact Hrsc]. by apply framed_remove_site_config. }
  (* the state record *)
  apply bind_cases in H as [(e0 & H & [= <-]) | (w5 & [state' existed] & Hrss & H)].
  { pose proof (framed_run mask_teardown _ _ _ _
                  (framed_remove_site_state mask_teardown state d eq_refl) H)
      as (_ & _ & _ & S & _).
    exfalso. revert H. unfold remove_site_state.
    destruct state as [rest [[|m]|]]; simpl; try discriminate.
    - unfold bind, get, modify, ret.
      destruct (default_sites w4 !! d); discriminate.
    - destruct (m !! d); discriminate. }
  assert (F5 : frame mask_teardown w w5).
  { eapply frame_trans; [exact F4|].
    eapply framed_run; [|exact Hrss]. by apply framed_remove_site_state. }
  simpl in H. apply save_state_raise in H as [Hs He].
  destruct F5 as (_ & _ & _ & S & _).
  split; [by rewrite Hs, S|].
  split; intros; destruct He; simplify_eq.
Qed.

(** The SQL server cannot be reached; everything else works. *)
Definition sql_down : Oracle :=
  mkOracle (λ _ _, false) (λ _, true) (λ _ _, false) (λ _, false)
           (λ _, false) (λ n, n).

(** The host after [add_site("example.com")] with the defaults. *)
Definition provisioned : World :=
  (add_site (default_env calm) "example.com" None None None false false false
     fresh_host).1.

Lemma delete_site_stops_at_first_failure_witness :
  let w' := (delete_site (default_env sql_down) "example.com" false
               provisioned).1 in
  state_file w' = state_file provisioned ∧ proxy w' = proxy provisioned.
Proof.
  intros w'.
  assert (Ha : locations_apart (default_env sql_down) "example.com" = true)
    by (vm_compute; reflexivity).
  assert (E : delete_site (default_env sql_down) "example.com" false
                provisioned
              = (w', Raise (RuntimeError "Database deletion failed")))
    by (vm_compute; reflexivity).
  pose proof (delete_site_stops_at_first_failure (default_env sql_down)
                "example.com" provisioned w'
                (RuntimeError "Database deletion failed") Ha E)
    as (Hs & Hp & _).
  split; [exact Hs | exact (Hp _ eq_refl)].
Defined.

(** C2 as stated fails: with the SQL server down, [delete_site] on a
    provisioned site removes the directory, fails to connect, and raises;
    the proxy configuration file and the state record are still there and
    no attempt was made on them. *)
Lemma delete_site_skips_later_steps :
  let r := delete_site (default_env sql_down) "example.com" false provisioned in
  r.2 = Raise (RuntimeError "Database deletion failed")
  ∧ proxy r.1 !! "/etc/caddy/sites.d/example_com.conf"
    = proxy provisioned !! "/etc/caddy/sites.d/example_com.conf"
  ∧ proxy provisioned !! "/etc/caddy/sites.d/example_com.conf" ≠ None
  ∧ state_file r.1 = state_file provisioned
  ∧ trace r.1 = trace provisioned
                ++ [EvRmtree "/var/www/example.com"; EvConnect false].
Proof. vm_compute. repeat split. discriminate. Qed.

(* ===================================================================== *)
(** * delete_site twice *)
(* ===================================================================== *)

(** The configured reload command only reloads the proxy: it is none of the
    commands that change accounts or files. *)
Definition reload_inert (env : Env) : Prop :=
  parse (CADDY_RELOAD_CMD env) = Other.

Section DeleteTwice.

Context (env : Env).

Lemma remove_tree_gone p (m : gmap string node) : remove_tree p m !! p = None.
Proof.
  unfold remove_tree. apply map_lookup_filter_None. right.
  intros n _. simpl. unfold Path.within. by rewrite String.eqb_refl.
Qed.

Lemma remove_tree_absent p q (m : gmap string node) :
  m !! q = None → remove_tree p m !! q = None.
Proof. intros H. unfold remove_tree. apply map_lookup_filter_None. by left. Qed.

Lemma load_state_Ok_sites w w' state :
  load_state env w = (w', Ok state) → doc_sites state ≠ None.
Proof.
  rewrite load_state_result.
  destruct (state_dir w); destruct (state_file w) as [| | | |[]];
    intros [= <- <-]; done.
Qed.

Lemma remove_site_state_result state d w w' state' existed :
  doc_sites state ≠ None →
  remove_site_state state d w = (w', Ok (state', existed)) →
  (∃ sites, sites_of state' w' = Some sites ∧ sites !! d = None)
  ∧ state_dir w' = state_dir w ∧ state_file w' = state_file w.
Proof.
  intros Hs. unfold remove_site_state, sites_of.
  destruct state as [rest [[|m]|]]; simpl; [| |done].
  - unfold bind, get, modify, ret.
    destruct (default_sites w !! d) eqn:E; intros [= <- <- <-]; simpl;
      (split; [eexists; split; [reflexivity|] | done]);
      [apply lookup_delete_eq | done].
  - destruct (m !! d) eqn:E; intros [= <- <- <-]; simpl;
      (split; [eexists; split; [reflexivity|] | done]);
      [apply lookup_delete_eq | done].
Qed.

Lemma remove_site_config_Ok d w w' removed :
  remove_site_config env d false w = (w', Ok removed) →
  proxy w' !! get_site_config_path env d = None.
Proof.
  unfold remove_site_config. intros H.
  apply bind_Ok in H as (w1 & present & Hp & H).
  unfold proxy_exists in Hp. injection Hp as <- <-.
  destruct (proxy w !! _) as [n|] eqn:E; simpl in H.
  - apply bind_Ok in H as (w2 & [] & Hu & H).
    apply bind_Ok in H as (w3 & [] & Hr & H).
    injection H as <- _.
    assert (proxy w2 !! get_site_config_path env d = None).
    { unfold proxy_unlink in Hu. rewrite E in Hu.
      destruct n; simplify_eq. simpl. apply lookup_delete_eq. }
    pose (k := Mask true false true true true true true true).
    assert (Hf : framedW k (run_cmd env (CADDY_RELOAD_CMD env) false)).
    { apply framed_run_cmd. intros _. split; [done|]. by destruct (parse _). }
    pose proof (framed_run k _ _ _ _ Hf Hr) as (_ & P & _).
    destruct (P eq_refl) as [-> _]. done.
  - by injection H as <- _.
Qed.

(** What a completed [delete_site] leaves behind. *)
Lemma delete_site_Ok d w w' :
  reload_inert env →
  delete_site env d false w = (w', Ok tt) →
  fs w' !! _site_path env d = None
  ∧ proxy w' !! get_site_config_path env d = None
  ∧ state_dir w' = Directory
  ∧ ∃ rest sites, state_file w' = Json (JDict (<["sites" := JDict sites]> rest))
                  ∧ sites !! d = None.
Proof.
  intros Hinert. rewrite delete_site_steps. intros H.
  apply bind_Ok in H as (w1 & state & Hload & H).
  apply bind_Ok in H as (? & site_data & [= <- _] & H).
  apply bind_Ok in H as (? & present & [= <- Hp] & H).
  apply bind_Ok in H as (w2 & [] & Hrm & H).
  apply bind_Ok in H as (w3 & [] & Hdb & H).
  apply bind_Ok in H as (w4 & removed & Hrsc & H).
  apply bind_Ok in H as (w5 & [state' existed] & Hrss & H).
  simpl in H.
  pose (k := Mask false true true true false true true true).
  assert (Hrel : reload_ok env k).
  { split; [done|]. unfold reload_inert in Hinert. by rewrite Hinert. }
  (* the directory is gone after the first step and stays away *)
  assert (Hfs2 : fs w2 !! _site_path env d = None).
  { simpl in Hrm. destruct (fs w1 !! _site_path env d) as [n|] eqn:E;
      subst present; simpl in Hrm.
    - unfold rmtree in Hrm. rewrite E in Hrm. destruct n; simplify_eq.
      simpl. apply remove_tree_gone.
    - by injection Hrm as <-. }
  assert (F : frame k w2 w').
  { eapply frame_trans;
      [eapply framed_run; [|exact Hdb]; by apply framed_drop_recorded_database|].
    eapply frame_trans;
      [eapply framed_run; [|exact Hrsc]; by apply framed_remove_site_config|].
    eapply frame_trans;
      [eapply framed_run; [|exact Hrss]; by apply framed_remove_site_state|].
    eapply framed_run; [|exact H]. by apply framed_save_state. }
  destruct F as (Ffs & _).
  split; [by rewrite Ffs|].
  (* the proxy configuration is gone after the third step *)
  apply remove_site_config_Ok in Hrsc.
  assert (Fp : frame (Mask false false true true false false true false) w4 w').
  { eapply frame_trans;
      [eapply framed_run; [|exact Hrss]; by apply framed_remove_site_state|].
    eapply framed_run; [|exact H]. by apply framed_save_state. }
  destruct Fp as (_ & P & _). destruct (P eq_refl) as [-> _].
  split; [exact Hrsc|].
  (* the state file holds what was saved *)
  apply load_state_Ok_sites in Hload.
  destruct (remove_site_state_result _ _ _ _ _ _ Hload Hrss)
    as ((sites & Hsites & Hd) & _ & _).
  apply save_state_written in H as [Hdir Hfile].
  split; [exact Hdir|].
  rewrite Hsites in Hfile. by exists (doc_rest state'), sites.
Qed.

End DeleteTwice.



(* ===================================================================== *)
(** * add_site: re-adding a site without an application *)
(* ===================================================================== *)

#[export] Hint Extern 1 (_ = true) => reflexivity : frames.

(** Everything but the SQL server. *)
Definition no_sql : mask := Mask true true true true true false true true.

Definition is_sql_event (ev : event) : bool :=
  match ev with
  | EvConnect _ | EvSql _ _ => true
  | _ => false
  end.

Section Readd.

Context (env : Env).

Lemma io_Ok {A} (m : M World A) w l w' l' a :
  io m (w, l) = ((w', l'), Ok a) → m w = (w', Ok a) ∧ l' = l.
Proof.
  unfold io, on_fst. destruct (m w) as [w1 r]. by intros [= <- <- <-].
Qed.

(** With a record at hand and no application asked for, the [try] of
    [add_site] stays away from the SQL server. *)
Lemma add_site_body_no_sql d aliases app php create_user force dry_run
    site_root state existing :
  is_wordpress app = false → truthy_opt existing = true →
  framedS no_sql (add_site_body env d aliases app php create_user force
                    dry_run site_root state existing).
Proof.
  intros Happ Hex. unfold add_site_body. rewrite Happ, Hex. cbn [orb negb].
  assert (reload_ok env no_sql) by (split; [done|]; by destruct (parse _)).
  framing.
Qed.

Lemma site_record_no_database d all_aliases site_root php app db_name
    linux_user :
  let rec := site_record d all_aliases site_root php app db_name None None
               linux_user in
  rec !! "db_name" = None ∧ rec !! "db_user" = None
  ∧ rec !! "db_password" = None.
Proof.
  unfold site_record. cbn [str_truthy].
  destruct (str_truthy linux_user);
    repeat split;
    repeat (rewrite lookup_insert_ne by discriminate);
    by rewrite lookup_singleton_ne by discriminate.
Qed.

Lemma truthy_dict_with_key (data : gmap string json) key :
  is_Some (data !! key) → truthy (JDict data) = true.
Proof.
  intros [v Hv]. simpl. destruct (size data =? 0)%nat eqn:E; [|done].
  apply Nat.eqb_eq, map_size_empty_iff in E. subst. by rewrite lookup_empty in Hv.
Qed.

(** The end of the [try] of [add_site]: the record goes into the document
    and the document into the state file. *)
Lemma persist_record_Ok state d site_data w l w' l' r :
  (let! state := io (set_site_state state d site_data) in
   io (when (negb false) (save_state env state)) >>
   record StepState >>
   ret site_data) (w, l) = ((w', l'), Ok r) →
  r = site_data
  ∧ ∃ rest sites, state_file w' = Json (JDict (<["sites" := JDict sites]> rest))
                  ∧ sites !! d = Some site_data.
Proof.
  intros H.
  apply bind_Ok in H as ([w1 l1] & state' & Hset & H).
  apply io_Ok in Hset as [Hset ->].
  apply bind_Ok in H as ([w2 l2] & [] & Hsave & H).
  apply io_Ok in Hsave as [Hsave ->]. simpl in Hsave.
  apply bind_Ok in H as ([w3 l3] & [] & Hrec & H).
  injection Hrec as <- <-. injection H as <- <- <-.
  split; [done|].
  destruct (set_site_state_result state d site_data w)
    as (w1' & state'' & Hset' & (sites & Hsites & Hd) & _).
  rewrite Hset in Hset'. injection Hset' as <- <-.
  apply save_state_written in Hsave as [_ Hfile]. rewrite Hsites in Hfile.
  by exists (doc_rest state'), sites.
Qed.

End Readd.

(** C10.  [add_site] with [force] on a domain whose record holds database
    fields, with no application asked for: when it completes, the SQL
    server was not contacted and is as before, and the record that is
    returned and persisted for the domain has no [db_name], [db_user] or
    [db_password]. *)
Theorem forced_readd_drops_database_fields env d aliases app php create_user
    w w' r m sites data :
  is_wordpress app = false →
  state_file w = Json (JDict m) →
  m !! "sites" = Some (JDict sites) →
  sites !! d = Some (JDict data) →
  is_Some (data !! "db_name") ∧ is_Some (data !! "db_user")
  ∧ is_Some (data !! "db_password") →
  add_site env d aliases app php create_user true false w = (w', Ok r) →
  (∃ evs, trace w' = trace w ++ evs
          ∧ Forall (λ ev, is_sql_event ev = false) evs)
  ∧ databases w' = databases w ∧ db_users w' = db_users w
  ∧ grants w' = grants w
  ∧ ∃ rec rest sites',
      r = JDict rec
      ∧ rec !! "db_name" = None ∧ rec !! "db_user" = None
      ∧ rec !! "db_password" = None
      ∧ state_file w' = Json (JDict (<["sites" := JDict sites']> rest))
      ∧ sites' !! d = Some r.
Proof.
  intros Happ Hfile Hsites Hrec (Hname & _ & _) H.
  unfold add_site in H.
  destruct (Validators.validate_domains _ _) as [[] err]; [|discriminate].
  cbn [negb] in H.
  apply bind_Ok in H as (w1 & state & Hload & H).
  apply bind_Ok in H as (? & existing & Hget & H).
  assert (Hstate : state = doc_of_dict m ∧ w1 = ensured w).
  { rewrite load_state_result, Hfile in Hload.
    destruct (state_dir w); by simplify_eq. }
  destruct Hstate as [-> ->].
  unfold get_site_state, sites_of, doc_of_dict in Hget. simpl in Hget.
  rewrite Hsites, Hrec in Hget. injection Hget as <- <-.
  assert (Htruthy : truthy_opt (Some (JDict data)) = true)
    by (by eapply truthy_dict_with_key).
  rewrite Htruthy in H. cbn [negb andb] in H.
  destruct (add_site_body _ _ _ _ _ _ _ _ _ _ _ _)
    as [[w2 steps_done] [site_data|e]] eqn:Hbody; [|by destruct (negb false)].
  injection H as <- <-.
  (* footprint *)
  assert (F : frame no_sql w w2).
  { eapply frame_trans;
      [eapply framed_run; [|exact Hload]; by apply framed_load_state|].
    pose proof (add_site_body_no_sql env d (default [] aliases) app php
                  create_user true false (_site_path env d) (doc_of_dict m)
                  (Some (JDict data)) Happ Htruthy (ensured w, [])) as Hf.
    by rewrite Hbody in Hf. }
  destruct F as (_ & _ & _ & _ & _ & Q & _ & evs & Ht & Hev).
  destruct (Q eq_refl) as (Hdb & Hdbu & Hgr).
  split.
  { exists evs. split; [done|]. eapply Forall_impl; [exact Hev|].
    intros ev. by destruct ev. }
  split; [done|]. split; [done|]. split; [done|].
  (* the record *)
  unfold add_site_body in Hbody. rewrite Happ, Htruthy in Hbody.
  cbn [orb negb] in Hbody.
  apply bind_Ok in Hbody as ([wa la] & [] & _ & Hbody).
  apply bind_Ok in Hbody as ([wb lb] & [] & _ & Hbody).
  apply bind_Ok in Hbody as ([wc lc] & linux_user & _ & Hbody).
  apply bind_Ok in Hbody as ([wd ld] & x & Hx & Hbody).
  injection Hx as <- <- <-.
  apply bind_Ok in Hbody as ([we le] & y & Hy & Hbody).
  injection Hy as <- <- <-.
  apply bind_Ok in Hbody as ([wf lf] & [] & _ & Hbody).
  apply bind_Ok in Hbody as ([wg lg] & [] & _ & Hbody).
  apply persist_record_Ok in Hbody as (-> & rest & sites' & Hfile' & Hd).
  eexists _, rest, sites'. split; [reflexivity|].
  pose proof (site_record_no_database d
                (filter (λ a, a ≠ d) (default [] aliases)) (_site_path env d)
                php app (_db_name_from_domain d) linux_user) as (? & ? & ?).
  done.
Qed.

(** A record with database fields, and a host whose state file holds it
    for example.com. *)
Definition record_with_database : gmap string json :=
  {[ "db_name" := JStr "example_com";
     "db_user" := JStr "example_com";
     "db_password" := JStr "secret" ]}.

Definition host_with_record : World :=
  set_state_file
    (Json (JDict {[ "sites" :=
                      JDict {[ "example.com" := JDict record_with_database ]} ]}))
    (set_state_dir Directory fresh_host).

Lemma forced_readd_drops_database_fields_witness :
  let run := add_site (default_env calm) "example.com" None None None
               false true false host_with_record in
  databases run.1 = databases host_with_record
  ∧ ∃ rec, run.2 = Ok (JDict rec) ∧ rec !! "db_name" = None.
Proof.
  intros run.
  destruct (forced_readd_drops_database_fields (default_env calm)
              "example.com" None None None false host_with_record run.1
              (match run.2 with Ok v => v | Raise _ => JNull end)
              {[ "sites" := JDict {[ "example.com" := JDict record_with_database ]} ]}
              {[ "example.com" := JDict record_with_database ]}
              record_with_database)
    as (_ & Hdb & _ & _ & rec & rest & sites' & Hr & Hname & _).
  - reflexivity.
  - reflexivity.
  - vm_compute. reflexivity.
  - vm_compute. reflexivity.
  - repeat split; eexists; vm_compute; reflexivity.
  - vm_compute. reflexivity.
  - split; [exact Hdb|]. exists rec. split; [|exact Hname].
    rewrite <- Hr. vm_compute. reflexivity.
Defined.

(* ===================================================================== *)
(** * Invariants and triples *)
(* ===================================================================== *)

Section Keeps.

Context {S : Type}.

(** [I] survives [m], whether [m] returns or raises. *)
Definition keeps {A} (I : S → Prop) (m : M S A) : Prop :=
  ∀ s, I s → I (m s).1.

Lemma keeps_ret {A} I (a : A) : keeps I (ret a).
Proof. by intros s. Qed.

Lemma keeps_bind {A B} I (m : M S A) (f : A → M S B) :
  keeps I m → (∀ a, keeps I (f a)) → keeps I (bind m f).
Proof.
  intros Hm Hf s Hs. unfold bind. specialize (Hm s Hs).
  destruct (m s) as [s1 [a|e]]; simpl in *; [by apply Hf | done].
Qed.

Lemma keeps_when I c (m : M S unit) : keeps I m → keeps I (when c m).
Proof. intros Hm. destruct c; [done | apply keeps_ret]. Qed.

Lemma keeps_for_each {A} I (l : list A) (f : A → M S unit) :
  (∀ x, keeps I (f x)) → keeps I (for_each l f).
Proof.
  intros Hf. induction l as [|x l IHl]; simpl.
  - apply keeps_ret.
  - apply keeps_bind; [apply Hf | intros _; exact IHl].
Qed.

Lemma keeps_try_except {A} I (m : M S A) catches h :
  keeps I m → (∀ e, keeps I (h e)) → keeps I (try_except m catches h).
Proof.
  intros Hm Hh s Hs. unfold try_except. specialize (Hm s Hs).
  destruct (m s) as [s1 [a|e]]; simpl in *; [done|].
  destruct (catches e); [by apply Hh | done].
Qed.

(** From [P], [m] returns in [Q] or raises in [E]. *)
Definition triple {A} (P : S → Prop) (m : M S A) (Q : A → S → Prop)
    (E : S → Prop) : Prop :=
  ∀ s, P s → match m s with
             | (s', Ok a) => Q a s'
             | (s', Raise _) => E s'
             end.

Lemma triple_ret {A} (P : S → Prop) (a : A) (Q : A → S → Prop) E :
  (∀ s, P s → Q a s) → triple P (ret a) Q E.
Proof. intros H s Hs. by apply H. Qed.

Lemma triple_bind {A B} P (m : M S A) (f : A → M S B) Q R E :
  triple P m Q E → (∀ a, triple (Q a) (f a) R E) → triple P (bind m f) R E.
Proof.
  intros Hm Hf s Hs. unfold bind. specialize (Hm s Hs).
  destruct (m s) as [s1 [a|e]]; [by apply Hf | done].
Qed.

Lemma triple_conseq {A} (P P' : S → Prop) (m : M S A) (Q Q' : A → S → Prop)
    (E E' : S → Prop) :
  (∀ s, P' s → P s) → (∀ a s, Q a s → Q' a s) → (∀ s, E s → E' s) →
  triple P m Q E → triple P' m Q' E'.
Proof.
  intros HP HQ HE Hm s Hs. specialize (Hm s (HP s Hs)).
  destruct (m s) as [s1 [a|e]]; auto.
Qed.

End Keeps.

(** An exception that is swallowed leaves a normal return. *)
Lemma swallow_Ok (m : M World unit) w :
  swallow m w = ((swallow m w).1, Ok tt).
Proof.
  unfold swallow, try_except. destruct (m w) as [w1 [[]|e]]; reflexivity.
Qed.

Lemma swallow_world (m : M World unit) w : (swallow m w).1 = (m w).1.
Proof.
  unfold swallow, try_except. destruct (m w) as [w1 [[]|e]]; reflexivity.
Qed.

Lemma for_each_swallow_cons {A} (f : A → M World unit) x l w :
  (for_each (x :: l) (λ y, swallow (f y)) w).1
  = (for_each l (λ y, swallow (f y)) (f x w).1).1.
Proof.
  simpl. unfold bind. rewrite (swallow_Ok (f x) w).
  by rewrite swallow_world.
Qed.

Lemma frame_clock k w w' : frame k w w' → (clock w ≤ clock w')%nat.
Proof.
  intros (_ & _ & _ & _ & _ & _ & _ & evs & T & _).
  unfold clock. rewrite T, length_app. lia.
Qed.

(* ===================================================================== *)
(** * Paths *)
(* ===================================================================== *)

Section PathFacts.

Lemma str_app_assoc (a b c : string) : (a +:+ b) +:+ c = a +:+ (b +:+ c).
Proof. induction a as [|x a IHa]; [done|]. rewrite !app_cons. by rewrite IHa. Qed.

Lemma str_length_app (a b : string) :
  String.length (a +:+ b) = (String.length a + String.length b)%nat.
Proof. induction a as [|x a IHa]; [done|]. rewrite app_cons. simpl. by rewrite IHa. Qed.

Lemma join_ne p name : Path.join p name ≠ p.
Proof.
  unfold Path.join. intros H. apply (f_equal String.length) in H.
  rewrite !str_length_app in H. simpl in H. lia.
Qed.

Lemma join_has_slash p name : Path.has_slash (Path.join p name) = true.
Proof.
  unfold Path.has_slash, Path.join. apply contains_app_r, contains_here.
  reflexivity.
Qed.

Lemma name_no_slash s : Path.has_slash s = false → Path.name s = s.
Proof. intros H. destruct s as [|c s]; simpl; [done|]. by rewrite H. Qed.

Lemma has_slash_cons c s :
  Path.has_slash (String c s) = Ascii.eqb "/" c || Path.has_slash s.
Proof. unfold Path.has_slash. simpl. by rewrite andb_true_r. Qed.

Lemma parent_name s :
  Path.has_slash s = true →
  s = Path.parent s +:+ "/" +:+ Path.name s
  ∧ Path.has_slash (Path.name s) = false.
Proof.
  induction s as [|c s IHs]; [done|]. intros H.
  cbn [Path.parent Path.name]. rewrite H.
  destruct (Path.has_slash s) eqn:Hs.
  - destruct (IHs eq_refl) as [Heq Hn]. split; [|done].
    rewrite app_cons. by rewrite <- Heq.
  - rewrite has_slash_cons, Hs, orb_false_r in H.
    apply Ascii.eqb_eq in H as <-.
    rewrite name_no_slash by done. by split.
Qed.

(** Nothing that is unpacked below [parent/wordpress] is the path itself. *)
Lemma unpacked_ne p entry :
  Path.has_slash p = true →
  Path.join (Path.join (Path.parent p) "wordpress") entry ≠ p.
Proof.
  intros Hp Heq. destruct (parent_name p Hp) as [Hsplit Hname].
  rewrite Hsplit in Heq at 2. unfold Path.join in Heq.
  rewrite !str_app_assoc in Heq.
  apply String.app_inj in Heq.
  change ("/" +:+ "wordpress" +:+ "/" +:+ entry)
    with (String "/" ("wordpress" +:+ "/" +:+ entry)) in Heq.
  change ("/" +:+ Path.name p) with (String "/" (Path.name p)) in Heq.
  injection Heq as Heq. rewrite <- Heq in Hname.
  unfold Path.has_slash in Hname.
  rewrite contains_app_mid in Hname. discriminate.
Qed.

End PathFacts.

(* ===================================================================== *)
(** * add_site: what the steps and their undo actions do *)
(* ===================================================================== *)

Definition not_file (o : option node) : Prop :=
  match o with Some (File _) => False | _ => True end.

Definition is_file (o : option node) : Prop :=
  match o with Some (File _) => True | _ => False end.

Lemma keeps_of_framed {A} k (I : World → Prop) (m : M World A) :
  framedW k m → (∀ w w', frame k w w' → I w → I w') → keeps I m.
Proof. intros Hm HI w Hw. eapply HI; [apply (Hm w) | done]. Qed.

Section SiteRoot.

Context (env : Env) (p : string).

(** The site root is a directory or absent. *)
Definition root_ok (w : World) : Prop := not_file (fs w !! p).

Lemma root_ok_frame k w w' : m_fs k = false → frame k w w' → root_ok w → root_ok w'.
Proof. intros Hk (F & _) H. unfold root_ok. by rewrite (F Hk). Qed.

Lemma root_ok_remove_tree q w :
  root_ok w → not_file (remove_tree q (fs w) !! p).
Proof.
  unfold root_ok, remove_tree. intros H.
  destruct (filter _ (fs w) !! p) as [n|] eqn:E; [|done].
  apply map_lookup_filter_Some in E as [E _]. by rewrite E in H.
Qed.

Lemma keeps_root_mkdir ok : keeps root_ok (mkdir p ok).
Proof.
  intros w H. unfold mkdir, root_ok in *.
  destruct (fs w !! p) as [[|?]|] eqn:E; simpl; rewrite ?E; try done.
  - destruct ok; simpl; by rewrite E.
  - by rewrite lookup_insert_eq.
Qed.

Lemma keeps_root_extractall :
  Path.has_slash p = true → keeps root_ok (extractall env (Path.parent p)).
Proof.
  intros Hp w H. unfold extractall.
  destruct (extract_fails _ _); simpl; [done|].
  unfold root_ok in *. simpl.
  induction (WP_ARCHIVE env) as [|[entry n] l IHl]; simpl.
  - destruct (decide (Path.join (Path.parent p) "wordpress" = p)) as [->|Hne].
    + by rewrite lookup_insert_eq.
    + by rewrite lookup_insert_ne.
  - rewrite lookup_insert_ne; [done|]. by apply unpacked_ne.
Qed.

Lemma keeps_root_mv q : keeps root_ok (run_cmd env ["mv"; q; p] false).
Proof.
  intros w H. unfold run_cmd, subprocess_run.
  destruct (proc_fails _ _ _); simpl; [done|].
  change (parse ["mv"; q; p]) with (Mv q p). simpl.
  destruct (fs w !! q) as [n|] eqn:Eq; simpl; [|done].
  destruct (fs w !! p) as [[|?]|] eqn:Ep; simpl; try done.
  unfold root_ok. simpl.
  rewrite lookup_insert_ne by apply join_ne.
  destruct (decide (q = p)) as [->|Hne].
  - by rewrite lookup_delete_eq.
  - rewrite lookup_delete_ne by done. by rewrite Ep.
Qed.

Lemma keeps_root_rmdir q : keeps root_ok (rmdir q).
Proof.
  intros w H. unfold rmdir.
  destruct (fs w !! q) as [[|?]|] eqn:Eq; simpl; try done.
  destruct (occupied q (fs w)); simpl; [done|].
  unfold root_ok in *. simpl.
  destruct (decide (q = p)) as [->|Hne].
  - by rewrite lookup_delete_eq.
  - by rewrite lookup_delete_ne.
Qed.

Lemma keeps_root_write_text name text :
  keeps root_ok (write_text (Path.join p name) text).
Proof.
  intros w H. unfold write_text.
  assert (Hw : root_ok (log (EvWrite (Path.join p name))
                          (set_fs (<[Path.join p name := File text]> (fs w)) w))).
  { unfold root_ok. simpl. by rewrite lookup_insert_ne by apply join_ne. }
  by destruct (fs w !! Path.join p name) as [[|?]|].
Qed.

Lemma keeps_root_inert cmd :
  parse cmd = Other → keeps root_ok (run_cmd env cmd false).
Proof.
  intros Hc. eapply (keeps_of_framed
                       (Mask false false false false false false false true)).
  - apply framed_run_cmd. intros _. split; [done|]. by rewrite Hc.
  - intros w w'. by apply root_ok_frame.
Qed.

Lemma keeps_root_same_fs {A} (m : M World A) :
  (∀ w, fs (m w).1 = fs w) → keeps root_ok m.
Proof. intros Hm w H. unfold root_ok. by rewrite Hm. Qed.

Lemma keeps_root_install_wordpress db_name db_user db_pass :
  Path.has_slash p = true →
  keeps root_ok (install_wordpress env p db_name db_user db_pass false).
Proof.
  intros Hp. unfold install_wordpress, download_wordpress.
  apply keeps_bind; [|intros _].
  { apply keeps_bind; [apply keeps_root_mkdir | intros _].
    apply keeps_bind; [|intros _].
    { apply keeps_root_same_fs. intros w. unfold fetch_archive.
      by destruct (fetch_fails _ _). }
    apply keeps_bind; [by apply keeps_root_extractall | intros _].
    apply keeps_bind; [by apply keeps_root_same_fs | intros present].
    apply keeps_when.
    apply keeps_bind; [by apply keeps_root_same_fs | intros ps].
    apply keeps_bind; [|intros _; apply keeps_root_rmdir].
    apply keeps_for_each. intros q. apply keeps_root_mv. }
  apply keeps_bind; [apply keeps_root_write_text | intros _].
  apply keeps_bind; [|intros _]; by apply keeps_root_inert.
Qed.

End SiteRoot.

(** The OS account that [add_site] derives from the domain. *)
Definition site_user (primary_domain : string) : string :=
  PyStr.take 32 (PyStr.split_head "." primary_domain).

(** The undo actions can be relied upon, and no step fails half way: the
    reload command only reloads and does not fail, SQL statements do not
    fail on an open connection, the SQL server stays reachable once it was
    reached, and [userdel] of the site's account does not fail. *)
Record dependable (env : Env) (d : string) : Prop := {
  dep_inert : reload_inert env;
  dep_reload : ∀ t, proc_fails (oracle env) (CADDY_RELOAD_CMD env) t = false;
  dep_sql : ∀ q t, sql_fails (oracle env) q t = false;
  dep_conn : ∀ t t', (t ≤ t')%nat →
             connect_fails (oracle env) t = false →
             connect_fails (oracle env) t' = false;
  dep_userdel : ∀ t, proc_fails (oracle env) ["userdel"; "-r"; site_user d] t
                     = false
}.

Lemma valid_nonempty n :
  Validators.validate_identifier n = true → PyStr.nonempty n = true.
Proof. unfold Validators.validate_identifier. by destruct n. Qed.

Section Undo.

Context (env : Env) (d : string) (Hdep : dependable env d).

#[local] Abbreviation R := (_site_path env d).
#[local] Abbreviation P := (get_site_config_path env d).
#[local] Abbreviation uname := (site_user d).
#[local] Abbreviation db := (_db_name_from_domain d).
#[local] Abbreviation undo := (rollback_step env d (_site_path env d) false).

(** The footprint of an undo action: no state, no process memory. *)
Definition mask_undo : mask := Mask true true false false true true false true.

Lemma framed_undo s : framedW mask_undo (undo s).
Proof. apply framed_rollback_step. by repeat split. Qed.

Lemma if_same {A} (b : bool) (x : A) : (if b then x else x) = x.
Proof. by destruct b. Qed.

Lemma then_ret_world {S A B} (m : M S A) (b : B) (s : S) :
  ((m >> ret b) s).1 = (m s).1.
Proof. unfold bind. by destruct (m s) as [? []]. Qed.

(** The reload command changes nothing but the log. *)
Lemma reload_only_logs w :
  ∃ ok, (subprocess_run env (CADDY_RELOAD_CMD env) w).1
        = log (EvRun (CADDY_RELOAD_CMD env) ok) w.
Proof.
  unfold subprocess_run. rewrite (dep_inert _ _ Hdep). simpl.
  destruct (proc_fails _ _ _); by eexists.
Qed.

Lemma remove_site_config_proxy w :
  let w' := (remove_site_config env d false w).1 in
  fs w' = fs w ∧ users w' = users w
  ∧ (proxy w' = proxy w ∨ proxy w' = delete P (proxy w))
  ∧ (is_file (proxy w !! P) → proxy w' !! P = None).
Proof.
  unfold remove_site_config, bind, proxy_exists.
  destruct (proxy w !! P) as [n|] eqn:E; simpl; [|by repeat split; auto].
  unfold proxy_unlink. rewrite E.
  destruct n as [|text]; simpl; [by repeat split; auto|].
  set (w1 := log _ _).
  destruct (reload_only_logs w1) as [ok Hr].
  destruct (subprocess_run env (CADDY_RELOAD_CMD env) w1) as [w2 [[]|e]];
    simpl in *; subst w2; simpl; repeat split; auto;
    intros _; apply lookup_delete_eq.
Qed.

Lemma remove_site_config_sql w :
  databases (remove_site_config env d false w).1 = databases w
  ∧ db_users (remove_site_config env d false w).1 = db_users w.
Proof.
  unfold remove_site_config, bind, proxy_exists.
  destruct (proxy w !! P) as [n|] eqn:E; simpl; [|done].
  unfold proxy_unlink. rewrite E.
  destruct n as [|text]; simpl; [done|].
  set (w1 := log _ _).
  destruct (reload_only_logs w1) as [ok Hr].
  by destruct (subprocess_run env (CADDY_RELOAD_CMD env) w1) as [w2 [[]|e]];
    simpl in *; subst w2.
Qed.

Lemma userdel_argv u :
  filter (λ c, PyStr.nonempty c = true) ["userdel"; "-r"; u]
  = if PyStr.nonempty u then ["userdel"; "-r"; u] else ["userdel"; "-r"].
Proof. by destruct u. Qed.

Lemma delete_linux_user_shape u w :
  let w' := (delete_linux_user env u true false w).1 in
  (fs w' = fs w ∨ ∃ h, fs w' = remove_tree h (fs w))
  ∧ (users w' = users w ∨ ∃ x, users w' = delete x (users w))
  ∧ proxy w' = proxy w
  ∧ databases w' = databases w ∧ db_users w' = db_users w.
Proof.
  unfold delete_linux_user, bind, validate_identifier_or_raise.
  destruct (negb _); simpl; [by auto|].
  rewrite userdel_argv.
  set (cmd := if PyStr.nonempty u then _ else _).
  assert (Hp : ∃ rm n, parse cmd = Userdel rm n).
  { subst cmd. destruct (PyStr.nonempty u); by eexists _, _. }
  destruct Hp as (rm & n & Hp).
  unfold try_except, subprocess_run. rewrite Hp.
  destruct (proc_fails _ _ _); simpl; [by auto|].
  destruct (users w !! n) as [h|]; simpl; [|by auto].
  destruct rm; simpl; repeat split; eauto.
Qed.

Lemma undo_shape s w :
  let w' := (undo s w).1 in
  (fs w' = fs w ∨ ∃ h, fs w' = remove_tree h (fs w))
  ∧ (users w' = users w ∨ ∃ x, users w' = delete x (users w))
  ∧ (proxy w' = proxy w ∨ proxy w' = delete P (proxy w)).
Proof.
  destruct s as [p|u|n u| | |]; cbn [rollback_step].
  - unfold bind, exists_. destruct (fs w !! R) as [[|?]|] eqn:E; simpl;
      unfold rmtree; rewrite ?E; simpl; repeat split; eauto.
  - destruct (delete_linux_user_shape u w) as (? & ? & ? & _). auto.
  - pose proof (framed_delete_database env
                  (Mask false false false false false true false false)
                  n (Some u) false (λ _, eq_refl) w)
      as (F & P' & _ & _ & U & _).
    destruct (P' eq_refl). unfold here in *. rewrite F, U by done. auto.
  - simpl. auto.
  - rewrite then_ret_world.
    destruct (remove_site_config_proxy w) as (Hf & Hu & Hp & _). auto.
  - simpl. auto.
Qed.

Lemma undo_root s w : root_ok R w → root_ok R (undo s w).1.
Proof.
  intros H. destruct (undo_shape s w) as ([E|[h E]] & _); unfold root_ok;
    rewrite E; [done | by apply root_ok_remove_tree].
Qed.

Lemma undo_root_absent s w : fs w !! R = None → fs (undo s w).1 !! R = None.
Proof.
  intros H. destruct (undo_shape s w) as ([E|[h E]] & _);
    rewrite E; [done | by apply remove_tree_absent].
Qed.

Lemma undo_directory p w :
  root_ok R w → fs (undo (StepDirectory p) w).1 !! R = None.
Proof.
  unfold root_ok. intros H. simpl. unfold bind, exists_.
  destruct (fs w !! R) as [[|?]|] eqn:E; simpl; [|done|done].
  unfold rmtree. rewrite E. simpl. apply remove_tree_gone.
Qed.

Lemma undo_proxy_absent s w :
  proxy w !! P = None → proxy (undo s w).1 !! P = None.
Proof.
  intros H. destruct (undo_shape s w) as (_ & _ & [E|E]); rewrite E;
    [done | apply lookup_delete_eq].
Qed.

Lemma undo_caddy w : is_file (proxy w !! P) → proxy (undo StepCaddy w).1 !! P = None.
Proof.
  intros H. cbn [rollback_step]. rewrite then_ret_world.
  by destruct (remove_site_config_proxy w) as (_ & _ & _ & Hp); apply Hp.
Qed.

Lemma undo_proxy_file s w :
  s ≠ StepCaddy → proxy (undo s w).1 = proxy w.
Proof.
  intros Hs. destruct s as [p|u|n u| | |]; cbn [rollback_step]; try done.
  - unfold bind, exists_. destruct (fs w !! R) as [[|?]|] eqn:E; simpl;
      unfold rmtree; rewrite ?E; done.
  - by destruct (delete_linux_user_shape u w) as (_ & _ & ? & _).
  - pose proof (framed_delete_database env
                  (Mask false false false false false true false false)
                  n (Some u) false (λ _, eq_refl) w) as (_ & P' & _).
    by destruct (P' eq_refl).
Qed.

Lemma undo_user_absent s w :
  users w !! uname = None → users (undo s w).1 !! uname = None.
Proof.
  intros H. destruct (undo_shape s w) as (_ & [E|[x E]] & _); rewrite E;
    [done|]. destruct (decide (x = uname)) as [->|Hne];
    [apply lookup_delete_eq | by rewrite lookup_delete_ne].
Qed.

Lemma undo_user w :
  Validators.validate_identifier uname = true →
  users (undo (StepUser uname) w).1 !! uname = None.
Proof.
  intros Hv. simpl.
  unfold delete_linux_user, bind, validate_identifier_or_raise.
  rewrite Hv. simpl.
  assert (Hcmd : filter (λ c, PyStr.nonempty c = true) ["userdel"; "-r"; uname]
                 = ["userdel"; "-r"; uname]).
  { apply valid_nonempty in Hv. destruct uname; [discriminate | reflexivity]. }
  rewrite Hcmd. unfold try_except, run_cmd, subprocess_run.
  rewrite (dep_userdel _ _ Hdep).
  change (parse ["userdel"; "-r"; uname]) with (Userdel true uname). simpl.
  destruct (users w !! uname) as [h|] eqn:E; simpl; [|done].
  apply lookup_delete_eq.
Qed.

Lemma undo_sql_absent s w :
  (db ∉ databases w → db ∉ databases (undo s w).1)
  ∧ (db_users w !! db = None → db_users (undo s w).1 !! db = None).
Proof.
  assert (Hsame : ∀ w' : World,
            databases w' = databases w → db_users w' = db_users w →
            (db ∉ databases w → db ∉ databases w')
            ∧ (db_users w !! db = None → db_users w' !! db = None)).
  { intros w' -> ->. auto. }
  destruct s as [p|u|n u| | |]; cbn [rollback_step]; try (by apply Hsame).
  - apply Hsame; unfold bind, exists_;
      destruct (fs w !! R) as [[|?]|] eqn:E; simpl;
      unfold rmtree; rewrite ?E; done.
  - destruct (delete_linux_user_shape u w) as (_ & _ & _ & ? & ?).
    by apply Hsame.
  - unfold delete_database, bind, validate_identifier_or_raise.
    destruct (negb _); simpl; [by apply Hsame|].
    unfold try_except, _root_connection.
    destruct (connect_fails _ _); simpl; [by apply Hsame|].
    unfold execute. rewrite !(dep_sql _ _ Hdep). simpl.
    split; intros H.
    + intros Hin. apply H. by apply elem_of_difference in Hin as [? _].
    + set (x := if PyStr.nonempty u then u else n).
      destruct (decide (x = db)) as [->|Hne];
        [apply lookup_delete_eq | by rewrite lookup_delete_ne].
  - rewrite then_ret_world.
    destruct (remove_site_config_sql w). by apply Hsame.
Qed.

Lemma undo_database w :
  Validators.validate_identifier db = true →
  connect_fails (oracle env) (clock w) = false →
  (db ∉ databases (undo (StepDatabase db db) w).1)
  ∧ (db_users (undo (StepDatabase db db) w).1 !! db = None).
Proof.
  intros Hv Hc. simpl.
  unfold delete_database, bind, validate_identifier_or_raise.
  rewrite Hv. simpl. unfold try_except, _root_connection. rewrite Hc.
  unfold execute. rewrite !(dep_sql _ _ Hdep). simpl.
  rewrite if_same. split; [|apply lookup_delete_eq].
  intros Hin. apply elem_of_difference in Hin as [_ Hin].
  apply Hin. by apply elem_of_singleton.
Qed.

(** ** The whole rollback *)

#[local] Abbreviation undo_all :=
  (λ l : list step, for_each l (λ s, swallow (undo s))).

Lemma undo_all_cons s l w : (undo_all (s :: l) w).1 = (undo_all l (undo s w).1).1.
Proof. apply for_each_swallow_cons. Qed.

Lemma undo_state_file s w : state_file (undo s w).1 = state_file w.
Proof. by destruct (framed_undo s w) as (_ & _ & _ & H & _); apply H. Qed.

Lemma undo_clock s w : (clock w ≤ clock (undo s w).1)%nat.
Proof. exact (frame_clock _ _ _ (framed_undo s w)). Qed.

Lemma undo_all_state_file l w : state_file (undo_all l w).1 = state_file w.
Proof.
  revert w. induction l as [|s l IH]; intros w; [done|].
  by rewrite undo_all_cons, IH, undo_state_file.
Qed.

(** The site root is gone once the directory step is undone. *)
Lemma undo_all_root l w :
  root_ok R w →
  fs w !! R = None ∨ (∃ p, StepDirectory p ∈ l) →
  fs (undo_all l w).1 !! R = None.
Proof.
  revert w. induction l as [|s l IH]; intros w Hok H.
  - destruct H as [H|[p H]]; [done | by apply elem_of_nil in H].
  - rewrite undo_all_cons. apply IH; [by apply undo_root|].
    destruct H as [H|[p H]]; [left; by apply undo_root_absent|].
    apply elem_of_cons in H as [<-|H]; [|by eauto].
    left. by apply undo_directory.
Qed.

Lemma undo_all_proxy l w :
  proxy w !! P = None ∨ (StepCaddy ∈ l ∧ is_file (proxy w !! P)) →
  proxy (undo_all l w).1 !! P = None.
Proof.
  revert w. induction l as [|s l IH]; intros w H.
  - destruct H as [H|[H _]]; [done | by apply elem_of_nil in H].
  - rewrite undo_all_cons. apply IH.
    destruct H as [H|[H Hf]]; [left; by apply undo_proxy_absent|].
    assert (Hs : s = StepCaddy ∨ s ≠ StepCaddy)
      by (destruct s; auto; by right).
    destruct Hs as [->|Hs]; [left; by apply undo_caddy|].
    right. rewrite undo_proxy_file by done. split; [|done].
    by apply elem_of_cons in H as [<-|H].
Qed.

Lemma undo_all_user l w :
  users w !! uname = None
  ∨ (StepUser uname ∈ l ∧ Validators.validate_identifier uname = true) →
  users (undo_all l w).1 !! uname = None.
Proof.
  revert w. induction l as [|s l IH]; intros w H.
  - destruct H as [H|[H _]]; [done | by apply elem_of_nil in H].
  - rewrite undo_all_cons. apply IH.
    destruct H as [H|[H Hv]]; [left; by apply undo_user_absent|].
    apply elem_of_cons in H as [<-|H]; [|by auto].
    left. by apply undo_user.
Qed.

(** The database step is on record, and the SQL server was reached. *)
Definition database_recorded (w : World) (l : list step) : Prop :=
  StepDatabase db db ∈ l
  ∧ Validators.validate_identifier db = true
  ∧ ∃ t, (t ≤ clock w)%nat ∧ connect_fails (oracle env) t = false.

Lemma undo_all_sql l w :
  (db ∉ databases w ∨ database_recorded w l →
   db ∉ databases (undo_all l w).1)
  ∧ (db_users w !! db = None ∨ database_recorded w l →
     db_users (undo_all l w).1 !! db = None).
Proof.
  revert w. induction l as [|s l IH]; intros w.
  - split; (intros [H|[H _]]; [done | by apply elem_of_nil in H]).
  - rewrite undo_all_cons.
    destruct (IH (undo s w).1) as [IHd IHu].
    destruct (undo_sql_absent s w) as [Hd Hu].
    assert (Hrec : database_recorded w (s :: l) →
              ((db ∉ databases (undo s w).1)
               ∧ (db_users (undo s w).1 !! db = None))
              ∨ database_recorded (undo s w).1 l).
    { intros (Hin & Hv & t & Ht & Hc).
      apply elem_of_cons in Hin as [<-|Hin].
      - left. apply undo_database; [done|].
        by apply (dep_conn _ _ Hdep t).
      - right. repeat split; [done..|]. exists t. split; [|done].
        pose proof (undo_clock s w). lia. }
    split.
    + intros [H|H]; [by auto|].
      apply IHd. destruct (Hrec H) as [[? _]|?]; auto.
    + intros [H|H]; [by auto|].
      apply IHu. destruct (Hrec H) as [[_ ?]|?]; auto.
Qed.

End Undo.
(* ===================================================================== *)
(** * add_site: what the rollback restores *)
(* ===================================================================== *)

Lemma elem_of_rev {A} (x : A) l : x ∈ l → x ∈ rev l.
Proof. rewrite !list_elem_of_In. apply in_rev. Qed.

Section AddSiteRollback.

Context (env : Env) (d : string) (Hdep : dependable env d) (w0 : World).

#[local] Abbreviation R := (_site_path env d).
#[local] Abbreviation P := (get_site_config_path env d).
#[local] Abbreviation uname := (site_user d).
#[local] Abbreviation db := (_db_name_from_domain d).

(** What [steps_done] has to account for, component by component: either
    the component is as it was when [add_site] was called, or the step that
    undoes the change is on record. *)
Definition proxy_ok (w : World) (l : list step) : Prop :=
  proxy w !! P = proxy w0 !! P ∨ (StepCaddy ∈ l ∧ is_file (proxy w !! P)).

Definition user_ok (w : World) (l : list step) : Prop :=
  users w !! uname = users w0 !! uname
  ∨ (StepUser uname ∈ l ∧ Validators.validate_identifier uname = true).

Definition sql_ok (w : World) (l : list step) : Prop :=
  (databases w = databases w0 ∧ db_users w = db_users w0)
  ∨ database_recorded env d w l.

Definition undoable (s : World * list step) : Prop :=
  (∃ p, StepDirectory p ∈ s.2)
  ∧ root_ok R s.1
  ∧ proxy_ok s.1 s.2
  ∧ user_ok s.1 s.2
  ∧ sql_ok s.1 s.2
  ∧ state_file s.1 = state_file w0.

Lemma undoable_frame k w l w' l' :
  undoable (w, l) → frame k w w' → (∀ x, x ∈ l → x ∈ l') →
  state_file w' = state_file w →
  m_fs k = false ∨ root_ok R w' →
  m_proxy k = false ∨ proxy_ok w' l' →
  m_users k = false ∨ user_ok w' l' →
  m_sql k = false ∨ sql_ok w' l' →
  undoable (w', l').
Proof.
  intros (Hd & Hr & Hp & Hu & Hs & Hf) Hk Hl Hf' Hr' Hp' Hu' Hs'.
  pose proof (frame_clock _ _ _ Hk) as Hc.
  destruct Hk as (Kf & Kp & _ & _ & Ku & Ks & _).
  simpl in *. repeat split; simpl.
  - destruct Hd as [p Hd]. eauto.
  - destruct Hr' as [E|?]; [|done]. unfold root_ok. by rewrite (Kf E).
  - destruct Hp' as [E|?]; [|done]. destruct (Kp E) as [Ep _].
    unfold proxy_ok in *. rewrite Ep.
    destruct Hp as [?|[? ?]]; auto.
  - destruct Hu' as [E|?]; [|done]. unfold user_ok in *. rewrite (Ku E).
    destruct Hu as [?|[? ?]]; auto.
  - destruct Hs' as [E|?]; [|done]. destruct (Ks E) as (Ed & Eu & _).
    unfold sql_ok in *. rewrite Ed, Eu.
    destruct Hs as [?|(? & ? & t & ? & ?)]; [by left|right].
    repeat split; auto. exists t. split; [lia | done].
  - congruence.
Qed.

(** The rollback, started where the invariant holds. *)
Lemma undoable_rollback w l :
  undoable (w, l) →
  let w' := (rollback env d R false l w).1 in
  fs w' !! R = None
  ∧ (users w0 !! uname = None → users w' !! uname = None)
  ∧ (db ∉ databases w0 → db ∉ databases w')
  ∧ (db_users w0 !! db = None → db_users w' !! db = None)
  ∧ (proxy w0 !! P = None → proxy w' !! P = None)
  ∧ state_file w' = state_file w0.
Proof.
  intros (Hd & Hr & Hp & Hu & Hs & Hf). simpl in *. unfold rollback.
  assert (Hrec : database_recorded env d w l →
                 database_recorded env d w (rev l)).
  { intros (? & ? & ?). split; [by apply elem_of_rev | by split]. }
  destruct (undo_all_sql env d Hdep (rev l) w) as [Hdb Hdu].
  repeat split.
  - apply (undo_all_root env d Hdep); [done|]. right.
    destruct Hd as [p Hd]. exists p. by apply elem_of_rev.
  - intros H0. apply (undo_all_user env d Hdep).
    destruct Hu as [E|[? ?]]; [left; congruence | right].
    split; [by apply elem_of_rev | done].
  - intros H0. apply Hdb. destruct Hs as [[E _]|?]; [left; by rewrite E | auto].
  - intros H0. apply Hdu. destruct Hs as [[_ E]|?]; [left; by rewrite E | auto].
  - intros H0. apply (undo_all_proxy env d Hdep).
    destruct Hp as [E|[? ?]]; [left; congruence | right].
    split; [by apply elem_of_rev | done].
  - by rewrite (undo_all_state_file env d).
Qed.

(** ** The steps of the [try], one by one *)

Lemma create_linux_user_spec name home w w' r :
  create_linux_user env name (Some home) false w = (w', r) →
  (root_ok home w → root_ok home w')
  ∧ match r with
    | Ok _ => Validators.validate_identifier name = true
    | Raise _ => users w' = users w
    end.
Proof.
  unfold create_linux_user, bind, validate_identifier_or_raise.
  destruct (Validators.validate_identifier name) eqn:Hv; simpl;
    [|by intros [= <- <-]].
  unfold try_except, subprocess_run.
  destruct (proc_fails _ _ _); simpl; [by intros [= <- <-]|].
  destruct (users w !! name); simpl; [by intros [= <- <-]|].
  intros [= <- <-]. split; [|done]. unfold root_ok.
  destruct (fs w !! home) eqn:E; simpl; [by rewrite E|].
  by rewrite lookup_insert_eq.
Qed.

Lemma create_database_spec name w w' r :
  create_database env name None None false w = (w', r) →
  match r with
  | Ok (n, u, p) =>
      n = name ∧ u = name ∧ PyStr.nonempty p = true
      ∧ Validators.validate_identifier name = true
      ∧ ∃ t, (t ≤ clock w')%nat ∧ connect_fails (oracle env) t = false
  | Raise _ => databases w' = databases w ∧ db_users w' = db_users w
  end.
Proof.
  intros E.
  assert (Hclock : (clock w ≤ clock w')%nat).
  { apply (frame_clock (Mask false false false false false true true false)).
    apply (framed_run _ (create_database env name None None false) w w' r);
      [|exact E].
    by apply framed_create_database. }
  revert E.
  unfold create_database, bind, validate_identifier_or_raise.
  cbn [str_or].
  destruct (Validators.validate_identifier name) eqn:Hv; cbn -[choices];
    [|by intros [= <- <-]].
  unfold try_except, bind, _root_connection. cbn -[choices].
  destruct (connect_fails _ _) eqn:Hc; cbn -[choices]; [by intros [= <- <-]|].
  unfold execute. rewrite !(dep_sql _ _ Hdep). cbn -[choices].
  intros [= <- <-]. split_and!; try done.
  exists (clock w). by split.
Qed.

Lemma write_site_config_spec aliases php w w' r :
  write_site_config env d aliases R php false w = (w', r) →
  match r with
  | Ok _ => is_file (proxy w' !! P)
  | Raise _ => proxy w' = proxy w
  end.
Proof.
  unfold write_site_config, bind, mkdir_caddy_dir, proxy_write_text, run_cmd.
  set (text := render_caddy_config _ _ _ _ _).
  assert (Hreload : ∀ w1, ∃ w2, subprocess_run env (CADDY_RELOAD_CMD env) w1
                                = (w2, Ok tt) ∧ proxy w2 = proxy w1).
  { intros w1. unfold subprocess_run.
    rewrite (dep_reload _ _ Hdep), (dep_inert _ _ Hdep). simpl. by eexists. }
  destruct (caddy_dir w); simpl.
  - destruct (proxy w !! P) as [[|?]|] eqn:E; simpl;
      [by intros [= <- <-]| |];
      match goal with
      | |- context [subprocess_run env _ ?w1] =>
          destruct (Hreload w1) as (w2 & -> & Hp)
      end; intros [= <- <-]; rewrite Hp; simpl; by rewrite lookup_insert_eq.
  - destruct (proxy w !! P) as [[|?]|] eqn:E; simpl;
      [by intros [= <- <-]| |];
      match goal with
      | |- context [subprocess_run env _ ?w1] =>
          destruct (Hreload w1) as (w2 & -> & Hp)
      end; intros [= <- <-]; rewrite Hp; simpl; by rewrite lookup_insert_eq.
  - by intros [= <- <-].
Qed.

Lemma elem_of_snoc (l : list step) s x : x ∈ l → x ∈ l ++ [s].
Proof. intros H. apply elem_of_app. by left. Qed.

Lemma elem_of_last (l : list step) s : s ∈ l ++ [s].
Proof. apply elem_of_app. right. by apply list_elem_of_singleton. Qed.

Lemma stage_user w l :
  undoable (w, l) →
  match create_linux_user env uname (Some R) false w with
  | (w', Ok _) => undoable (w', l ++ [StepUser uname])
  | (w', Raise _) => undoable (w', l)
  end.
Proof.
  intros H. destruct (create_linux_user _ _ _ _ w) as [w' r] eqn:E.
  pose proof (framed_run (Mask true false false false true false false true)
                _ _ _ _
                (framed_create_linux_user env (Mask true false false false true false false true) uname (Some R) false
                   (λ _, conj eq_refl (conj eq_refl eq_refl))) E) as F.
  destruct (create_linux_user_spec _ _ _ _ _ E) as [Hroot Hr].
  assert (Hf : state_file w' = state_file w)
    by (by destruct F as (_ & _ & _ & Hf & _); apply Hf).
  assert (Hroot' : root_ok R w') by (apply Hroot; apply H).
  destruct r as [[]|e].
  - eapply undoable_frame; [exact H | exact F | ..]; auto using elem_of_snoc.
    right. right. split; [apply elem_of_last | done].
  - eapply undoable_frame; [exact H | exact F | ..]; auto.
    right. destruct H as (_ & _ & _ & Hu & _). simpl in Hu.
    unfold user_ok in *. rewrite Hr. exact Hu.
Qed.

Lemma stage_database w l :
  undoable (w, l) →
  match create_database env db None None false w with
  | (w', Ok (n, u, p)) =>
      undoable (w', l ++ [StepDatabase n (str_or (Some u) n)])
      ∧ PyStr.nonempty u = true ∧ PyStr.nonempty p = true
  | (w', Raise _) => undoable (w', l)
  end.
Proof.
  intros H. destruct (create_database _ _ _ _ _ w) as [w' r] eqn:E.
  pose proof (framed_run (Mask false false false false false true true false)
                _ _ _ _
                (framed_create_database env (Mask false false false false false true true false) db None None false
                   eq_refl (λ _, eq_refl)) E) as F.
  pose proof (create_database_spec _ _ _ _ E) as Hr.
  assert (Hf : state_file w' = state_file w)
    by (by destruct F as (_ & _ & _ & Hf & _); apply Hf).
  destruct r as [[[n u] p]|e].
  - destruct Hr as (-> & -> & Hp & Hv & Hconn).
    split; [|by split; [apply valid_nonempty|]].
    unfold str_or. rewrite if_same.
    eapply undoable_frame; [exact H | exact F | ..]; auto using elem_of_snoc.
    right. right. split; [apply elem_of_last | by split].
  - eapply undoable_frame; [exact H | exact F | ..]; auto.
    right. destruct H as (_ & _ & _ & _ & Hs & _). simpl in Hs.
    destruct Hr as [Ed Eu]. unfold sql_ok in *. rewrite Ed, Eu.
    destruct Hs as [?|(? & ? & t & ? & ?)]; [by left | right].
    split; [done|]. split; [done|]. exists t. split; [|done].
    pose proof (frame_clock _ _ _ F). lia.
Qed.

Lemma stage_wordpress n u p w l :
  undoable (w, l) →
  match install_wordpress env R n u p false w with
  | (w', Ok _) => undoable (w', l ++ [StepWordpress])
  | (w', Raise _) => undoable (w', l)
  end.
Proof.
  intros H.
  pose proof (keeps_root_install_wordpress env R n u p
                (join_has_slash _ _) w) as Hroot.
  destruct (install_wordpress _ _ _ _ _ _ w) as [w' r] eqn:E.
  pose proof (framed_run (Mask true false false false false false false true)
                _ _ _ _
                (framed_install_wordpress env (Mask true false false false false false false true) R n u p false
                   (λ _, conj eq_refl eq_refl)) E) as F.
  assert (Hf : state_file w' = state_file w)
    by (by destruct F as (_ & _ & _ & Hf & _); apply Hf).
  assert (Hroot' : root_ok R w') by (apply Hroot; apply H).
  destruct r as [[]|e];
    (eapply undoable_frame; [exact H | exact F | ..]);
    auto using elem_of_snoc.
Qed.

Lemma stage_caddy aliases php w l :
  undoable (w, l) →
  match write_site_config env d aliases R php false w with
  | (w', Ok _) => undoable (w', l ++ [StepCaddy])
  | (w', Raise _) => undoable (w', l)
  end.
Proof.
  intros H. destruct (write_site_config _ _ _ _ _ _ w) as [w' r] eqn:E.
  assert (Hk : reload_ok env (Mask false true false false false false false true)).
  { split; [done|]. by rewrite (dep_inert _ _ Hdep). }
  pose proof (framed_run (Mask false true false false false false false true)
                _ _ _ _
                (framed_write_site_config env (Mask false true false false false false false true) d aliases R php false
                   (λ _, conj eq_refl Hk)) E) as F.
  pose proof (write_site_config_spec _ _ _ _ _ E) as Hr.
  assert (Hf : state_file w' = state_file w)
    by (by destruct F as (_ & _ & _ & Hf & _); apply Hf).
  destruct r as [[]|e].
  - eapply undoable_frame; [exact H | exact F | ..]; auto using elem_of_snoc.
    right. right. split; [apply elem_of_last | done].
  - eapply undoable_frame; [exact H | exact F | ..]; auto.
    right. destruct H as (_ & _ & Hp & _). simpl in Hp.
    unfold proxy_ok in *. by rewrite Hr.
Qed.

Lemma stage_set_site_state state data w l :
  undoable (w, l) →
  match set_site_state state d data w with
  | (w', _) => undoable (w', l)
  end.
Proof.
  intros H. destruct (set_site_state _ _ _ w) as [w' r] eqn:E.
  pose proof (framed_run (Mask false false false false false false true false)
                _ _ _ _
                (framed_set_site_state (Mask false false false false false false true false) state d data eq_refl) E) as F.
  eapply undoable_frame; [exact H | exact F | ..]; auto.
  by destruct F as (_ & _ & _ & Hf & _); apply Hf.
Qed.

Lemma stage_save_state state w l :
  undoable (w, l) →
  match save_state env state w with
  | (w', Ok _) => True
  | (w', Raise _) => undoable (w', l)
  end.
Proof.
  intros H. destruct (save_state env state w) as [w' r] eqn:E.
  pose proof (framed_run (Mask false false true true false false false false)
                _ _ _ _
                (framed_save_state env (Mask false false true true false false false false) state eq_refl eq_refl) E) as F.
  destruct r as [[]|e]; [done|].
  eapply undoable_frame; [exact H | exact F | ..]; auto.
  by destruct (save_state_raise _ _ _ _ _ E).
Qed.

Lemma stage_directory force :
  fs w0 !! R = None ∨ (force = true ∧ fs w0 !! R = Some Dir) →
  match mkdir R force w0 with
  | (w', Ok _) => undoable (w', [StepDirectory R])
  | (w', Raise _) => False
  end.
Proof.
  intros [H0|[-> H0]]; unfold mkdir; rewrite H0; unfold undoable; simpl;
    split_and!; try (by left); try done.
  - exists R. by apply list_elem_of_singleton.
  - unfold root_ok; simpl. by rewrite lookup_insert_eq.
  - exists R. by apply list_elem_of_singleton.
  - unfold root_ok. by rewrite H0.
Qed.

(** ** The triples of the [try] *)

#[local] Abbreviation S := (World * list step)%type.

Lemma triple_io {A B} (m : M World A) (f : A → M S B)
    (Pre : S → Prop) (Mid : A → S → Prop) Q E :
  (∀ w l, Pre (w, l) → match m w with
                       | (w', Ok a) => Mid a (w', l)
                       | (w', Raise _) => E (w', l)
                       end) →
  (∀ a, triple (Mid a) (f a) Q E) →
  triple Pre (bind (io m) f) Q E.
Proof.
  intros Hm Hf. apply (triple_bind _ _ _ Mid); [|done].
  intros [w l] HP. unfold io, on_fst. specialize (Hm w l HP).
  by destruct (m w) as [w' [a|e]].
Qed.

Lemma triple_record {B} s (f : M S B) (Pre Mid : S → Prop) Q E :
  (∀ w l, Pre (w, l) → Mid (w, l ++ [s])) →
  triple Mid f Q E →
  triple Pre (bind (record s) (λ _, f)) Q E.
Proof.
  intros Hs Hf. apply (triple_bind _ _ _ (λ _, Mid)); [|done].
  intros [w l] HP. by apply Hs.
Qed.

Lemma triple_assume {A} (φ : Prop) (m : M S A) (Pre : S → Prop) Q E :
  (φ → triple Pre m Q E) → triple (λ s, Pre s ∧ φ) m Q E.
Proof. intros H s [Hs Hφ]. by apply H. Qed.

(** The invariant once [s] is appended to [steps_done]. *)
Definition undoable_with (s : step) (st : S) : Prop :=
  undoable (st.1, st.2 ++ [s]).

Lemma add_site_body_undoable aliases app php create_user force state existing :
  fs w0 !! R = None ∨ (force = true ∧ fs w0 !! R = Some Dir) →
  triple (λ s, s = (w0, []))
    (add_site_body env d aliases app php create_user force false R
       state existing)
    (λ _ _, True) undoable.
Proof.
  intros H0. unfold add_site_body. cbn [negb when]. cbv zeta.
  (* 1. directory *)
  apply (triple_io _ _ _ (λ _, undoable_with (StepDirectory R))).
  { intros w l [= -> ->]. pose proof (stage_directory force H0) as H.
    by destruct (mkdir R force w0) as [w' [[]|e]]. }
  intros _. apply (triple_record _ _ _ undoable); [done|].
  (* user *)
  apply (triple_bind _ _ _ (λ _, undoable)).
  { destruct create_user; [|by apply triple_ret].
    apply (triple_io _ _ _ (λ _, undoable_with (StepUser uname))).
    { intros w l H. pose proof (stage_user w l H) as H'.
      by destruct (create_linux_user _ _ _ _ w) as [w' [[]|e]]. }
    intros _. apply (triple_record _ _ _ undoable); [done|].
    by apply triple_ret. }
  intros linux_user.
  (* 2. database *)
  apply (triple_bind _ _ _
           (λ x s, undoable s
                   ∧ (is_wordpress app = true →
                      str_truthy x.1.2 = true ∧ str_truthy x.2 = true))).
  { destruct (is_wordpress app || negb (truthy_opt existing)) eqn:Hc.
    - apply (triple_io _ _ _
               (λ a s, undoable_with (StepDatabase a.1.1
                                        (str_or (Some a.1.2) a.1.1)) s
                       ∧ PyStr.nonempty a.1.2 = true
                       ∧ PyStr.nonempty a.2 = true)).
      { intros w l H. pose proof (stage_database w l H) as H'.
        by destruct (create_database _ _ _ _ _ w) as [w' [[[n u] p]|e]]. }
      intros [[n u] p]. cbn [fst snd].
      apply (triple_record _ _ _
               (λ s, undoable s ∧ PyStr.nonempty u = true
                     ∧ PyStr.nonempty p = true)).
      { by intros w l (? & ? & ?). }
      apply triple_ret. intros s (? & ? & ?). by split.
    - apply triple_ret. intros s Hs. split; [done|].
      intros Hw. rewrite Hw in Hc. discriminate. }
  intros [[db_name db_user_val] db_pass_val]. cbn [fst snd].
  (* 3. WordPress *)
  apply (triple_bind _ _ _ (λ _, undoable)).
  { destruct (is_wordpress app) eqn:Hw.
    - apply triple_assume. intros Hcreds.
      destruct (Hcreds eq_refl) as [-> ->]. cbn [negb orb].
      apply (triple_bind _ _ _ (λ _, undoable)); [by apply triple_ret|].
      intros [[n u] p].
      apply (triple_io _ _ _ (λ _, undoable_with StepWordpress)).
      { intros w l H. pose proof (stage_wordpress n u p w l H) as H'.
        by destruct (install_wordpress _ _ _ _ _ _ w) as [w' [[]|e]]. }
      intros _. apply (triple_record _ _ _ undoable); [done|].
      by apply triple_ret.
    - apply triple_ret. by intros s [? _]. }
  intros [[db_name' db_user_val'] db_pass_val'].
  (* 4. proxy configuration *)
  apply (triple_io _ _ _ (λ _, undoable_with StepCaddy)).
  { intros w l H.
    match goal with
    | |- context [write_site_config env d ?a R ?p false w] =>
        pose proof (stage_caddy a p w l H) as H'
    end.
    by destruct (write_site_config _ _ _ _ _ _ w) as [w' [[]|e]]. }
  intros _. apply (triple_record _ _ _ undoable); [done|].
  (* 5. state *)
  apply (triple_io _ _ _ (λ _, undoable)).
  { intros w l H.
    match goal with
    | |- context [set_site_state state d ?data w] =>
        pose proof (stage_set_site_state state data w l H) as H'
    end.
    by destruct (set_site_state _ _ _ w) as [w' [a|e]]. }
  intros state'.
  apply (triple_io _ _ _ (λ _ _, True)).
  { intros w l H. pose proof (stage_save_state state' w l H) as H'.
    by destruct (save_state _ _ w) as [w' [[]|e]]. }
  intros _. apply (triple_record _ _ _ (λ _, True)); [done|].
  by apply triple_ret.
Qed.

End AddSiteRollback.

(** The archive cannot be unpacked; everything else works. *)
Definition unpack_fails : Oracle :=
  mkOracle (λ _ _, false) (λ _, false) (λ _ _, false) (λ _, false)
           (λ _, true) (λ n, n).

(** The SQL server is down and [userdel] fails. *)
Definition userdel_fails : Oracle :=
  mkOracle (λ cmd _, match cmd with
                     | c :: _ => String.eqb c "userdel"
                     | [] => false
                     end)
           (λ _, true) (λ _ _, false) (λ _, false) (λ _, false) (λ n, n).

(** X1.  The rollback of [add_site].  Let the domain be a validated one,
    let the configured locations and the directory into which the release
    archive unpacks lie apart, and let the undo actions be dependable: the
    reload command only reloads the proxy and does not fail, SQL statements
    do not fail on an open connection, the SQL server stays reachable once
    it was reached, and [userdel] of the site's account does not fail.  If
    [add_site]
    (not a dry run) is called where the site directory does not exist and
    it raises, then afterwards the site directory does not exist; the
    account, the database, the database user and the proxy configuration
    file of the domain are absent if they were absent before the call; and
    the state file is what it was before the call. *)
Theorem add_site_rollback_restores_host env d aliases app php create_user
    force w0 w' e :
  locations_apart env d = true →
  unpack_apart env d = true →
  dependable env d →
  fs w0 !! _site_path env d = None →
  add_site env d aliases app php create_user force false w0 = (w', Raise e) →
  fs w' !! _site_path env d = None
  ∧ (users w0 !! site_user d = None → users w' !! site_user d = None)
  ∧ ((_db_name_from_domain d ∉ databases w0) →
     (_db_name_from_domain d ∉ databases w'))
  ∧ (db_users w0 !! _db_name_from_domain d = None →
     db_users w' !! _db_name_from_domain d = None)
  ∧ (proxy w0 !! get_site_config_path env d = None →
     proxy w' !! get_site_config_path env d = None)
  ∧ state_file w' = state_file w0.
Proof.
  intros _ _ Hdep H0 Hrun.
  assert (Hsame : ∀ w1, only_state_dir w0 w1 →
            fs w1 !! _site_path env d = None
            ∧ (users w0 !! site_user d = None →
               users w1 !! site_user d = None)
            ∧ ((_db_name_from_domain d ∉ databases w0) →
               (_db_name_from_domain d ∉ databases w1))
            ∧ (db_users w0 !! _db_name_from_domain d = None →
               db_users w1 !! _db_name_from_domain d = None)
            ∧ (proxy w0 !! get_site_config_path env d = None →
               proxy w1 !! get_site_config_path env d = None)
            ∧ state_file w1 = state_file w0).
  { intros w1 ((Ef & _ & Ep & Es & Eu & Ed & Eb & _) & _).
    by rewrite Ef, Ep, Es, Eu, Ed, Eb. }
  assert (Hrefl : only_state_dir w0 w0).
  { split; [by repeat split | by left]. }
  revert Hrun. unfold add_site.
  destruct (Validators.validate_domains d (default [] aliases)) as [ok err].
  destruct ok; cbn [negb]; [|intros [= <- <-]; by apply Hsame].
  intros Hrun. apply bind_cases in Hrun as [(e1 & Hload & _)|Hrun].
  { pose proof (load_state_only_state_dir env w0) as Hl.
    rewrite Hload in Hl. by apply Hsame. }
  destruct Hrun as (w1 & state & Hload & Hrun).
  pose proof (load_state_only_state_dir env w0) as Hl.
  rewrite Hload in Hl. simpl in Hl.
  unfold bind, get_site_state in Hrun.
  set (existing := match sites_of state w1 with
                   | Some sites => _ | None => _ end) in Hrun.
  destruct (truthy_opt existing && negb force);
    [injection Hrun as <- _; by apply Hsame|].
  destruct (Hsame w1 Hl) as (H1 & _).
  pose proof (add_site_body_undoable env d Hdep w1 (default [] aliases) app
                php create_user force state existing (or_introl H1)
                (w1, []) eq_refl)
    as Hbody.
  destruct (add_site_body _ _ _ _ _ _ _ _ _ _ _ _)
    as [[w2 steps] [site_data|e2]]; [discriminate|].
  cbn [negb] in Hrun. injection Hrun as <- _.
  destruct (undoable_rollback env d Hdep w1 w2 steps Hbody)
    as (Rf & Ru & Rd & Rb & Rp & Rs).
  destruct Hl as ((Ef & _ & Ep & Es & Eu & Ed & Eb & _) & _).
  rewrite Ep, Es, Eu, Ed, Eb in *. by repeat split.
Qed.


Lemma add_site_rollback_restores_host_witness :
  let env := default_env unpack_fails in
  let w' := (add_site env "example.com" None (Some "wordpress") None
               true false false fresh_host).1 in
  fs w' !! _site_path env "example.com" = None
  ∧ users w' !! site_user "example.com" = None
  ∧ (_db_name_from_domain "example.com" ∉ databases w')
  ∧ db_users w' !! _db_name_from_domain "example.com" = None
  ∧ proxy w' !! get_site_config_path env "example.com" = None
  ∧ state_file w' = state_file fresh_host.
Proof.
  intros env w'.
  assert (Ha : locations_apart env "example.com" = true)
    by (vm_compute; reflexivity).
  assert (Hw : unpack_apart env "example.com" = true)
    by (vm_compute; reflexivity).
  assert (Hdep : dependable env "example.com").
  { split.
    - reflexivity.
    - intros t. reflexivity.
    - intros q t. reflexivity.
    - intros t t' _ H. exact H.
    - intros t. reflexivity. }
  assert (H0 : fs fresh_host !! _site_path env "example.com" = None)
    by (vm_compute; reflexivity).
  assert (Hrun : add_site env "example.com" None (Some "wordpress") None
                   true false false fresh_host = (w', Raise TarError))
    by (vm_compute; reflexivity).
  pose proof (add_site_rollback_restores_host env "example.com" None
                (Some "wordpress") None true false fresh_host w'
                TarError Ha Hw Hdep H0 Hrun) as (Hf & Hu & Hd & Hb & Hp & Hs).
  split; [exact Hf|].
  split; [apply Hu; vm_compute; reflexivity|].
  split; [apply Hd; exact (not_elem_of_empty _)|].
  split; [apply Hb; vm_compute; reflexivity|].
  split; [apply Hp; vm_compute; reflexivity | exact Hs].
Defined.

(** The rollback is best effort: an undo action that raises is logged and
    skipped.  With the SQL server down and [userdel] failing, [add_site]
    with [create_user] creates the account, fails to create the database
    and raises; the rollback removes the directory, but the account it
    created is still there. *)
Lemma add_site_rollback_leaves_account :
  let env := default_env userdel_fails in
  let run := add_site env "example.com" None None None true false false
               fresh_host in
  fs fresh_host !! "/var/www/example.com" = None
  ∧ users fresh_host !! "example" = None
  ∧ run.2 = Raise (RuntimeError "Database creation failed")
  ∧ fs run.1 !! "/var/www/example.com" = None
  ∧ users run.1 !! "example" = Some "/var/www/example.com".
Proof. vm_compute. repeat split. Qed.

(* ===================================================================== *)
(** * Which characters the validators let through *)
(* ===================================================================== *)

(** [all(P(c) for c in s)] *)
Fixpoint all_chars (P : ascii → bool) (s : string) : bool :=
  match s with
  | EmptyString => true
  | String c s' => P c && all_chars P s'
  end.

(** Every character class of [r] lies within [P]. *)
Fixpoint classes (P : ascii → bool) (r : Re.regex) : Prop :=
  match r with
  | Re.Void | Re.Eps => True
  | Re.Class p => ∀ c, p c = true → P c = true
  | Re.Cat r1 r2 | Re.Alt r1 r2 => classes P r1 ∧ classes P r2
  | Re.Star r1 => classes P r1
  end.

Section RegexFacts.

Import Re.

Lemma matches_Void s : matches Void s = false.
Proof. induction s as [|c s IHs]; [done | exact IHs]. Qed.

Lemma classes_cat P r1 r2 : classes P r1 → classes P r2 → classes P (cat r1 r2).
Proof. intros H1 H2. destruct r1, r2; simpl in *; auto. Qed.

Lemma classes_alt P r1 r2 : classes P r1 → classes P r2 → classes P (alt r1 r2).
Proof. intros H1 H2. destruct r1, r2; simpl in *; auto. Qed.

Lemma classes_deriv P c r : classes P r → classes P (deriv c r).
Proof.
  induction r as [| |p|r1 IH1 r2 IH2|r1 IH1 r2 IH2|r1 IH1]; simpl; intros H.
  - done.
  - done.
  - by destruct (p c).
  - destruct H as [H1 H2]. apply classes_alt.
    + apply classes_cat; auto.
    + destruct (nullable r1); simpl; auto.
  - destruct H as [H1 H2]. apply classes_alt; auto.
  - apply classes_cat; simpl; auto.
Qed.

(** A character outside [P] kills the match. *)
Lemma deriv_outside P c r : classes P r → P c = false → deriv c r = Void.
Proof.
  intros Hr Hc.
  induction r as [| |p|r1 IH1 r2 IH2|r1 IH1 r2 IH2|r1 IH1]; simpl in *.
  - done.
  - done.
  - destruct (p c) eqn:E; [|done]. rewrite (Hr c E) in Hc. discriminate.
  - destruct Hr as [H1 H2]. rewrite (IH1 H1), (IH2 H2).
    by destruct (nullable r1).
  - destruct Hr as [H1 H2]. by rewrite (IH1 H1), (IH2 H2).
  - by rewrite (IH1 Hr).
Qed.

Lemma matches_classes P r s :
  classes P r → matches r s = true → all_chars P s = true.
Proof.
  revert r. induction s as [|c s IHs]; intros r Hr Hm; [done|].
  simpl in *. destruct (P c) eqn:Hc.
  - simpl. apply (IHs (deriv c r)); [by apply classes_deriv | done].
  - rewrite (deriv_outside P c r Hr Hc), matches_Void in Hm. discriminate.
Qed.

Lemma classes_UpTo P n r : classes P r → classes P (UpTo n r).
Proof. intros Hr. induction n as [|n IHn]; simpl; auto. Qed.

(** [[p]r] on a string that starts with [c]. *)
Lemma deriv_Class_Cat p r c :
  deriv c (Cat (Class p) r) = if p c then r else Void.
Proof. simpl. destruct (p c); [|done]. by destruct r. Qed.

(** [[p]{0,n}] holds of the strings of at most [n] characters of [p]. *)
Lemma matches_UpTo p n s :
  matches (UpTo n (Class p)) s
  = (PyStr.len s <=? n)%nat && all_chars p s.
Proof.
  revert s. induction n as [|n IHn]; intros s.
  - destruct s as [|c s]; [done|]. simpl. apply matches_Void.
  - destruct s as [|c s]; [done|].
    change (matches (UpTo (S n) (Class p)) (String c s))
      with (matches (alt Void (deriv c (Cat (Class p) (UpTo n (Class p))))) s).
    rewrite deriv_Class_Cat. cbn [alt]. destruct (p c) eqn:E; simpl; rewrite E.
    + by rewrite IHn.
    + rewrite matches_Void. by rewrite andb_false_r.
Qed.

Lemma chop_newline_app s : chop_newline (s +:+ PyStr.NL) = Some s.
Proof.
  induction s as [|c s IHs]; [done|].
  change (String c s +:+ PyStr.NL) with (String c (s +:+ PyStr.NL)).
  destruct (s +:+ PyStr.NL) as [|c' t] eqn:E; [by destruct s|].
  change (chop_newline (String c (String c' t)))
    with (option_map (String c) (chop_newline (String c' t))).
  by rewrite IHs.
Qed.

Lemma chop_newline_Some s s' :
  chop_newline s = Some s' → s = s' +:+ PyStr.NL.
Proof.
  revert s'. induction s as [|c s IHs]; intros s'; [done|].
  destruct s as [|c' s].
  - simpl. destruct (Ascii.eqb_spec c PyStr.LF) as [->|Hne]; [|done].
    by intros [= <-].
  - change (chop_newline (String c (String c' s)))
      with (option_map (String c) (chop_newline (String c' s))).
    intros H. destruct (chop_newline (String c' s)) as [t|]; [|done].
    injection H as <-. by rewrite (IHs t eq_refl).
Qed.

End RegexFacts.

Section CharFacts.

Import PyStr.

Lemma contains_char c s : contains (String c "") s = occurs c s.
Proof.
  induction s as [|x s IHs]; [done|]. simpl.
  by rewrite IHs, andb_true_r, (Ascii.eqb_sym c x).
Qed.

Lemma all_chars_occurs P c s :
  all_chars P s = true → P c = false → occurs c s = false.
Proof.
  intros Hs Hc. induction s as [|x s IHs]; [done|]. simpl in *.
  apply andb_true_iff in Hs as [Hx Hs]. rewrite (IHs Hs), orb_false_r.
  destruct (Ascii.eqb_spec x c) as [->|]; [congruence | done].
Qed.

Lemma all_chars_weaken (P Q : ascii → bool) s :
  (∀ c, P c = true → Q c = true) → all_chars P s = true → all_chars Q s = true.
Proof.
  intros HPQ. induction s as [|x s IHs]; [done|]. simpl.
  intros [Hx Hs]%andb_true_iff. by rewrite (HPQ x Hx), (IHs Hs).
Qed.

Lemma all_chars_lower P s :
  all_chars P (lower s) = all_chars (λ c, P (lower_char c)) s.
Proof. induction s as [|x s IHs]; [done|]. simpl. by rewrite IHs. Qed.

(** [lstrip] and [rstrip] drop white space only. *)
Lemma all_chars_lstrip P s :
  all_chars P (lstrip s) = true → all_chars (λ c, isspace c || P c) s = true.
Proof.
  induction s as [|x s IHs]; [done|]. simpl.
  destruct (isspace x) eqn:Hx; simpl; [exact IHs|].
  intros [-> Hs]%andb_true_iff. simpl.
  revert Hs. apply all_chars_weaken. intros c ->. apply orb_true_r.
Qed.

Lemma all_chars_rstrip P s :
  all_chars P (rstrip s) = true → all_chars (λ c, isspace c || P c) s = true.
Proof.
  induction s as [|x s IHs]; [done|]. simpl.
  destruct (rstrip s) as [|y r].
  - destruct (isspace x) eqn:Hx; simpl.
    + intros _. by apply IHs.
    + intros [-> _]%andb_true_iff. by apply IHs.
  - simpl. intros [-> Hr]%andb_true_iff. rewrite orb_true_r. by apply IHs.
Qed.

Lemma all_chars_strip P s :
  all_chars P (strip s) = true → all_chars (λ c, isspace c || P c) s = true.
Proof.
  intros H. apply all_chars_lstrip, all_chars_rstrip in H.
  revert H. apply all_chars_weaken. intros c. by rewrite orb_assoc, orb_diag.
Qed.

Lemma occurs_app c a b : occurs c (a +:+ b) = occurs c a || occurs c b.
Proof.
  induction a as [|x a IHa]; [done|]. rewrite app_cons. simpl.
  by rewrite IHa, orb_assoc.
Qed.

Lemma occurs_take c n s : occurs c (take n s) = true → occurs c s = true.
Proof.
  revert s. induction n as [|n IHn]; intros [|x s]; simpl; try done.
  intros [-> | H]%orb_true_iff; [done|]. rewrite (IHn s H). apply orb_true_r.
Qed.

Lemma take_replace_char a b n s :
  take n (replace_char a b s) = replace_char a b (take n s).
Proof.
  revert s. induction n as [|n IHn]; intros [|x s]; simpl; try done.
  by rewrite IHn.
Qed.

Lemma occurs_replace_char a b c s :
  c ≠ a → c ≠ b → occurs c (replace_char a b s) = occurs c s.
Proof.
  intros Ha Hb. induction s as [|x s IHs]; [done|]. simpl. rewrite IHs.
  f_equal. destruct (Ascii.eqb_spec x a) as [->|]; [|done].
  destruct (Ascii.eqb_spec b c), (Ascii.eqb_spec a c); congruence.
Qed.

Lemma str_app_inv_tail (x y z : string) : x +:+ z = y +:+ z → x = y.
Proof.
  revert y. induction x as [|c x IHx]; intros [|c' y] H.
  - done.
  - apply (f_equal String.length) in H. rewrite app_nil_l, str_length_app in H.
    simpl in H. lia.
  - apply (f_equal String.length) in H. rewrite app_nil_l, str_length_app in H.
    simpl in H. lia.
  - rewrite !app_cons in H. injection H as -> H. by rewrite (IHx y H).
Qed.

Lemma replace_char_inj a b s t :
  occurs b s = false → occurs b t = false →
  replace_char a b s = replace_char a b t → s = t.
Proof.
  revert t. induction s as [|x s IHs]; intros [|y t]; simpl; try done.
  intros [Hx Hs]%orb_false_iff [Hy Ht]%orb_false_iff [= Hc Hr].
  rewrite (IHs t Hs Ht Hr). f_equal.
  apply Ascii.eqb_neq in Hx, Hy.
  destruct (Ascii.eqb_spec x a) as [->|], (Ascii.eqb_spec y a) as [->|];
    congruence.
Qed.

Lemma parent_join p name :
  Path.has_slash name = false →
  Path.parent (Path.join p name) = p ∧ Path.name (Path.join p name) = name.
Proof.
  intros Hn. unfold Path.join. induction p as [|c p [IHp IHn]].
  - rewrite app_nil_l.
    change ("/" +:+ name) with (String "/" name).
    cbn [Path.parent Path.name]. rewrite Hn, has_slash_cons. simpl.
    split; [done|]. by apply name_no_slash.
  - rewrite app_cons. cbn [Path.parent Path.name].
    rewrite has_slash_cons.
    change (Path.has_slash (p +:+ "/" +:+ name))
      with (Path.has_slash (Path.join p name)).
    rewrite join_has_slash, orb_true_r. unfold Path.join.
    by rewrite IHp, IHn.
Qed.

End CharFacts.

(** The shape [[a-zA-Z][a-zA-Z0-9_]{0,63}]. *)
Definition identifier_shape (s : string) : bool :=
  match s with
  | EmptyString => false
  | String c rest =>
      Re.alpha c && all_chars Re.word rest && (PyStr.len rest <=? 63)%nat
  end.

Lemma matches_identifier s :
  Re.matches (Re.body Validators.IDENTIFIER_REGEX) s = identifier_shape s.
Proof.
  destruct s as [|c s]; [done|].
  unfold Validators.IDENTIFIER_REGEX. cbn [Re.body].
  change (Re.matches ?r (String c s)) with (Re.matches (Re.deriv c r) s).
  rewrite deriv_Class_Cat. cbn [identifier_shape].
  destruct (Re.alpha c); cbn [andb].
  - rewrite matches_UpTo. apply andb_comm.
  - apply matches_Void.
Qed.

(** X2.  [validate_identifier] accepts exactly the names of the shape
    [[a-zA-Z][a-zA-Z0-9_]{0,63}] and the names made of such a name of at
    most 63 characters followed by one line feed. *)
Theorem validate_identifier_iff name :
  Validators.validate_identifier name = true
  ↔ identifier_shape name = true
    ∨ ∃ s, name = s +:+ PyStr.NL ∧ identifier_shape s = true
           ∧ (PyStr.len s ≤ 63)%nat.
Proof.
  assert (Hlen : ∀ s, identifier_shape s = true →
            PyStr.nonempty s = true ∧ (PyStr.len s ≤ 64)%nat).
  { intros [|c s]; [done|]. cbn [identifier_shape].
    intros [_ H%Nat.leb_le]%andb_true_iff. split; [done|].
    unfold PyStr.len in *. simpl. lia. }
  unfold Validators.validate_identifier, Re.match_.
  rewrite matches_identifier. split.
  - destruct (negb _ || _) eqn:Hg; [done|].
    apply orb_false_iff in Hg as [_ Hg%Nat.ltb_ge].
    intros [H|H]%orb_true_iff; [by left | right].
    destruct (Re.chop_newline name) as [s|] eqn:E; [|done].
    apply chop_newline_Some in E. subst name. exists s.
    rewrite matches_identifier in H. split_and!; [done..|].
    unfold PyStr.len in *. rewrite str_length_app in Hg. simpl in Hg. lia.
  - intros [H|(s & -> & H & Hs)].
    + destruct (Hlen _ H) as [-> Hl]. simpl.
      apply Nat.ltb_ge in Hl. by rewrite Hl, H.
    + destruct (Hlen _ H) as [Hn _].
      assert (Hg : negb (PyStr.nonempty (s +:+ PyStr.NL))
                   || (64 <? PyStr.len (s +:+ PyStr.NL))%nat = false).
      { apply orb_false_iff. split; [by destruct s|].
        apply Nat.ltb_ge. unfold PyStr.len in *. rewrite str_length_app.
        simpl. lia. }
      rewrite Hg, chop_newline_app, matches_identifier, H. apply orb_true_r.
Qed.

(** The characters of [DOMAIN_REGEX]: letters, digits, hyphen and dot. *)
Definition domain_char (c : ascii) : bool :=
  Re.alnum c || Ascii.eqb c "-" || Ascii.eqb c ".".

Lemma classes_DOMAIN_REGEX : classes domain_char (Re.body Config.DOMAIN_REGEX).
Proof.
  assert (Ha : ∀ c, Re.alnum c = true → domain_char c = true).
  { intros c H. unfold domain_char. by rewrite H. }
  assert (Hh : ∀ c, Re.alnum_hyphen c = true → domain_char c = true).
  { intros c. unfold Re.alnum_hyphen, domain_char.
    intros [-> | ->]%orb_true_iff; [done|]. by rewrite orb_true_r. }
  assert (Hd : ∀ c, Re.chr "." c = true → domain_char c = true).
  { intros c. unfold Re.chr, domain_char. intros ->. apply orb_true_r. }
  assert (Hl : ∀ c, Re.alpha c = true → domain_char c = true).
  { intros c H. apply Ha. unfold Re.alnum. by rewrite H. }
  unfold Config.DOMAIN_REGEX, Re.Plus, Re.Opt, Re.AtLeast2.
  cbn [Re.body classes].
  split_and!; try done; by apply classes_UpTo.
Qed.

(** What [validate_domain] accepts is made of letters, digits, hyphens and
    dots once lowered, white space apart. *)
Lemma validate_domain_chars d :
  Validators.validate_domain d = true →
  all_chars (λ c, PyStr.isspace c || domain_char (PyStr.lower_char c)) d = true.
Proof.
  unfold Validators.validate_domain, Re.fullmatch, Validators.DOMAIN_PATTERN.
  destruct (negb _ || _); [done|]. intros H.
  apply (matches_classes domain_char) in H; [|exact classes_DOMAIN_REGEX].
  rewrite all_chars_lower in H. by apply all_chars_strip in H.
Qed.

Lemma validate_domain_no_slash d :
  Validators.validate_domain d = true → Path.has_slash d = false.
Proof.
  intros H. unfold Path.has_slash. rewrite contains_char.
  by apply (all_chars_occurs _ _ _ (validate_domain_chars d H)).
Qed.

Lemma validate_domain_no_underscore d :
  Validators.validate_domain d = true → occurs "_" d = false.
Proof.
  intros H. by apply (all_chars_occurs _ _ _ (validate_domain_chars d H)).
Qed.

(** X3.  The site root of a domain that [validate_domain] accepts is an
    entry of WEB_ROOT itself, named as the domain: the domain holds no path
    separator. *)
Theorem valid_domain_site_path env d :
  Validators.validate_domain d = true →
  Path.parent (_site_path env d) = WEB_ROOT env
  ∧ Path.name (_site_path env d) = d.
Proof.
  intros H. unfold _site_path. by apply parent_join, validate_domain_no_slash.
Qed.

Lemma valid_domain_site_path_witness :
  Path.parent (_site_path (default_env calm) "www.example.com") = "/var/www"
  ∧ Path.name (_site_path (default_env calm) "www.example.com")
    = "www.example.com".
Proof.
  apply (valid_domain_site_path (default_env calm) "www.example.com").
  vm_compute. reflexivity.
Defined.

(** X4.  Two different domains that [validate_domain] accepts never share a
    proxy configuration file. *)
Theorem valid_domains_config_paths_differ env d1 d2 :
  Validators.validate_domain d1 = true →
  Validators.validate_domain d2 = true →
  get_site_config_path env d1 = get_site_config_path env d2 →
  d1 = d2.
Proof.
  intros H1 H2. unfold get_site_config_path, Path.join. intros H.
  apply String.app_inj, String.app_inj, str_app_inv_tail in H.
  by apply replace_char_inj in H; [|apply validate_domain_no_underscore..].
Qed.

Lemma valid_domains_config_paths_differ_witness :
  get_site_config_path (default_env calm) "a.example.com"
  ≠ get_site_config_path (default_env calm) "b.example.com".
Proof.
  intros H.
  apply (valid_domains_config_paths_differ (default_env calm)
           "a.example.com" "b.example.com") in H.
  - discriminate H.
  - vm_compute. reflexivity.
  - vm_compute. reflexivity.
Defined.

Lemma validate_identifier_cases name :
  Validators.validate_identifier name = true →
  identifier_shape name = true
  ∨ ∃ s, name = s +:+ PyStr.NL ∧ identifier_shape s = true.
Proof.
  unfold Validators.validate_identifier, Re.match_.
  destruct (negb _ || _); [done|]. rewrite matches_identifier.
  intros [H|H]%orb_true_iff; [by left | right].
  destruct (Re.chop_newline name) as [s|] eqn:E; [|done].
  apply chop_newline_Some in E. rewrite matches_identifier in H. by exists s.
Qed.

(** A valid identifier holds no hyphen. *)
Lemma validate_identifier_no_hyphen name :
  Validators.validate_identifier name = true → occurs "-" name = false.
Proof.
  assert (Hshape : ∀ s, identifier_shape s = true → occurs "-" s = false).
  { intros [|c s]; [done|]. cbn [identifier_shape].
    intros [[Hc Hs]%andb_true_iff _]%andb_true_iff. simpl.
    rewrite (all_chars_occurs _ "-" _ Hs eq_refl), orb_false_r.
    destruct (Ascii.eqb_spec c "-") as [->|]; [discriminate | done]. }
  intros [H|(s & -> & H)]%validate_identifier_cases; [by apply Hshape|].
  rewrite occurs_app, (Hshape s H). reflexivity.
Qed.

Lemma hyphen_database_name d :
  occurs "-" (PyStr.take 64 d) = true →
  Validators.validate_identifier (_db_name_from_domain d) = false.
Proof.
  intros H. destruct (Validators.validate_identifier _) eqn:E; [|done].
  apply validate_identifier_no_hyphen in E.
  unfold _db_name_from_domain in E.
  rewrite take_replace_char, occurs_replace_char in E by done. congruence.
Qed.

(** X5.  The database name is the domain with its dots replaced, and a
    hyphen is no character of an identifier.  Take a domain with a hyphen
    among its first 64 characters that passes [validate_domains] with its
    aliases, configured locations that lie apart, a state that [load_state]
    returns and that has no record for the domain, and [add_site] without
    [create_user]: as a dry run, or as
    a real run where the site directory can be made (nothing is at its
    path, or a directory is there and [force] is given), [add_site] stops
    at the database step with the ValueError of
    [validate_identifier_or_raise]. *)
Theorem add_site_rejects_hyphenated_domain env d aliases app php force
    dry_run w w1 state :
  occurs "-" (PyStr.take 64 d) = true →
  (Validators.validate_domains d (default [] aliases)).1 = true →
  locations_apart env d = true →
  load_state env w = (w1, Ok state) →
  (get_site_state state d w1).2 = Ok None →
  dry_run = true
  ∨ fs w !! _site_path env d = None
  ∨ (force = true ∧ fs w !! _site_path env d = Some Dir) →
  (add_site env d aliases app php false force dry_run w).2
  = Raise (ValueError ("Invalid database name: " +:+ _db_name_from_domain d)).
Proof.
  intros Hh Hv _ Hload Hget Hfs.
  apply hyphen_database_name in Hh.
  unfold add_site.
  destruct (Validators.validate_domains d (default [] aliases)) as [ok err].
  simpl in Hv. subst ok. cbn [negb].
  rewrite (bind_eq _ _ _ _ _ Hload).
  unfold get_site_state in *. simpl in Hget. injection Hget as Hget.
  unfold bind at 1. rewrite Hget. cbn [truthy_opt andb].
  unfold add_site_body.
  assert (Hdir : ∃ w2, io (when (negb dry_run) (mkdir (_site_path env d) force))
                         (w1, []) = ((w2, []), Ok tt)).
  { destruct dry_run; [by eexists|]. cbn [negb when].
    unfold io, on_fst, mkdir.
    destruct (load_state_only_state_dir env w) as ((Ef & _) & _).
    rewrite Hload in Ef. simpl in Ef. rewrite Ef.
    destruct Hfs as [Hfs | [Hfs | [-> Hfs]]]; [discriminate Hfs | |];
      rewrite Hfs; by eexists. }
  destruct Hdir as [w2 Hdir].
  rewrite (bind_eq _ _ _ _ _ Hdir).
  unfold record at 1, modify, bind at 1. cbn [orb negb truthy_opt].
  unfold bind at 1. unfold bind at 1. cbn [ret].
  rewrite orb_true_r.
  unfold bind at 1. unfold bind at 1.
  unfold io at 1, on_fst, create_database, validate_identifier_or_raise, bind at 1.
  rewrite Hh. cbn [negb raise].
  by destruct dry_run.
Qed.

Lemma add_site_rejects_hyphenated_domain_witness :
  (add_site (default_env calm) "my-site.com" None None None false false false
     fresh_host).2
  = Raise (ValueError "Invalid database name: my-site_com").
Proof.
  assert (H1 : occurs "-" (PyStr.take 64 "my-site.com") = true)
    by (vm_compute; reflexivity).
  assert (H2 : (Validators.validate_domains "my-site.com" (default [] None)).1
               = true)
    by (vm_compute; reflexivity).
  assert (Ha : locations_apart (default_env calm) "my-site.com" = true)
    by (vm_compute; reflexivity).
  assert (H3 : load_state (default_env calm) fresh_host
               = ((load_state (default_env calm) fresh_host).1, Ok default_copy))
    by (vm_compute; reflexivity).
  assert (H4 : (get_site_state default_copy "my-site.com"
                  (load_state (default_env calm) fresh_host).1).2 = Ok None)
    by (vm_compute; reflexivity).
  assert (H5 : fs fresh_host !! _site_path (default_env calm) "my-site.com"
               = None)
    by (vm_compute; reflexivity).
  exact (add_site_rejects_hyphenated_domain (default_env calm) "my-site.com"
           None None None false false fresh_host
           (load_state (default_env calm) fresh_host).1 default_copy
           H1 H2 Ha H3 H4 (or_intror (or_introl H5))).
Defined.

(* ===================================================================== *)
(** * The state document in memory *)
(* ===================================================================== *)

(** X6.  [set_site_state] never raises; afterwards [get_site_state] gives
    the new record for the domain that was set and, for every other domain,
    what it gave before. *)
Theorem get_after_set_site_state state d data w :
  ∃ w1 state1,
    set_site_state state d data w = (w1, Ok state1)
    ∧ (get_site_state state1 d w1).2 = Ok (Some data)
    ∧ ∀ d', d' ≠ d →
        (get_site_state state1 d' w1).2 = (get_site_state state d' w).2.
Proof.
  unfold set_site_state, get_site_state, sites_of.
  destruct state as [rest [[|m]|]]; simpl; eexists _, _;
    (split; [reflexivity|]); simpl;
    (split; [by rewrite lookup_insert_eq|]);
    intros d' Hd; by rewrite lookup_insert_ne.
Qed.

(** X7.  [remove_site_state] never raises and answers whether the domain
    was a key of the sites, whatever its record; afterwards the domain has
    no record and every other domain has the record it had. *)
Theorem get_after_remove_site_state state d w :
  ∃ w1 state1 existed,
    remove_site_state state d w = (w1, Ok (state1, existed))
    ∧ (existed = false ↔ (get_site_state state d w).2 = Ok None)
    ∧ (get_site_state state1 d w1).2 = Ok None
    ∧ ∀ d', d' ≠ d →
        (get_site_state state1 d' w1).2 = (get_site_state state d' w).2.
Proof.
  unfold remove_site_state, get_site_state, sites_of.
  destruct state as [rest [[|m]|]]; simpl.
  - unfold bind, get, modify, ret.
    destruct (default_sites w !! d) as [v|] eqn:E; eexists _, _, _;
      (split; [reflexivity|]); simpl; rewrite ?E.
    + split; [done|]. split; [by rewrite lookup_delete_eq|].
      intros d' Hd. by rewrite lookup_delete_ne.
    + by repeat split.
  - destruct (m !! d) as [v|] eqn:E; eexists _, _, _;
      (split; [reflexivity|]); simpl; rewrite ?E.
    + split; [done|]. split; [by rewrite lookup_delete_eq|].
      intros d' Hd. by rewrite lookup_delete_ne.
    + by repeat split.
  - eexists _, _, _. by repeat split.
Qed.

Lemma site_record_primary_domain d all_aliases site_root php app db_name
    db_user_val db_pass_val linux_user :
  site_record d all_aliases site_root php app db_name db_user_val db_pass_val
    linux_user !! "primary_domain" = Some (JStr d).
Proof.
  unfold site_record.
  destruct (str_truthy db_user_val), (str_truthy linux_user);
    repeat (rewrite lookup_insert_ne by discriminate);
    apply lookup_insert_eq.
Qed.

(** The end of the [try] of a dry run of [add_site]: the record goes into
    the document, which is not saved. *)
Lemma keep_record_Ok env state d site_data w l w' l' r :
  (let! state := io (set_site_state state d site_data) in
   io (when (negb true) (save_state env state)) >>
   record StepState >>
   ret site_data) (w, l) = ((w', l'), Ok r) →
  r = site_data ∧ w' = (set_site_state state d site_data w).1.
Proof.
  intros H.
  apply bind_Ok in H as ([w1 l1] & state' & Hset & H).
  apply io_Ok in Hset as [Hset ->].
  apply bind_Ok in H as ([w2 l2] & [] & Hsave & H).
  apply io_Ok in Hsave as [Hsave ->]. simpl in Hsave.
  apply bind_Ok in H as ([w3 l3] & [] & Hrec & H).
  injection Hsave as <-. injection Hrec as <- <-. injection H as <- <- <-.
  by rewrite Hset.
Qed.

(** X8.  The default state is a shallow copy of the module constant
    DEFAULT_STATE, so a dry run of [add_site] on a host whose state file is
    missing or unreadable leaves its record in the constant: when a dry run
    has returned, any later [add_site] for that domain without [force] in
    the same process, dry run or not, raises "Site already exists". *)
Theorem dry_run_leaves_record_behind env d aliases app php create_user force
    w w1 r aliases' app' php' create_user' dry_run' :
  state_file w = Missing ∨ state_file w = NotJson ∨ state_file w = IsDir →
  add_site env d aliases app php create_user force true w = (w1, Ok r) →
  (Validators.validate_domains d (default [] aliases')).1 = true →
  (add_site env d aliases' app' php' create_user' false dry_run' w1).2
  = Raise (ValueError ("Site already exists: " +:+ d
                       +:+ ". Use --force to replace.")).
Proof.
  intros Hfile H Hv'.
  (* the first call *)
  pose proof (add_site_dry_run env d aliases app php create_user force w)
    as Hquiet.
  rewrite H in Hquiet. simpl in Hquiet.
  unfold add_site in H.
  destruct (Validators.validate_domains d (default [] aliases)) as [[] err];
    [|discriminate].
  cbn [negb] in H.
  apply bind_Ok in H as (w0 & state & Hload & H).
  apply bind_Ok in H as (? & existing & [= <- _] & H).
  assert (Hdir : state_dir w ≠ Regular).
  { intros E. rewrite load_state_result, E in Hload. discriminate. }
  destruct (load_state_default env w Hdir Hfile) as (? & Hload' & _).
  rewrite Hload in Hload'. injection Hload' as <- ->.
  destruct (_ && _); [discriminate|].
  destruct (add_site_body _ _ _ _ _ _ _ _ _ _ _ _)
    as [[w2 steps_done] [site_data|e]] eqn:Hbody; [|discriminate].
  injection H as <- <-.
  unfold add_site_body in Hbody.
  apply bind_Ok in Hbody as ([wa la] & [] & _ & Hbody).
  apply bind_Ok in Hbody as ([wb lb] & [] & _ & Hbody).
  apply bind_Ok in Hbody as ([wc lc] & linux_user & _ & Hbody).
  apply bind_Ok in Hbody as ([wd ld] & [[n u] p] & _ & Hbody).
  apply bind_Ok in Hbody as ([we le] & [[n' u'] p'] & _ & Hbody).
  apply bind_Ok in Hbody as ([wf lf] & [] & _ & Hbody).
  apply bind_Ok in Hbody as ([wg lg] & [] & _ & Hbody).
  apply keep_record_Ok in Hbody as [-> ->].
  (* the second call *)
  destruct Hquiet as ((_ & _ & _ & Hf1 & _) & Hd1).
  set (rec := site_record _ _ _ _ _ _ _ _ _) in *.
  set (w1 := (set_site_state default_copy d (JDict rec) wg).1) in *.
  assert (Hdir1 : state_dir w1 ≠ Regular).
  { destruct Hd1 as [[-> _]|(_ & -> & _)]; [done | discriminate]. }
  assert (Hfile1 : state_file w1 = Missing ∨ state_file w1 = NotJson
                   ∨ state_file w1 = IsDir) by (by rewrite Hf1).
  destruct (load_state_default env w1 Hdir1 Hfile1) as (w3 & Hload1 & _).
  assert (Hw3 : default_sites w3 = default_sites w1).
  { rewrite load_state_result in Hload1.
    assert (w3 = ensured w1) as ->.
    { destruct (state_dir w1); [| |done];
        destruct Hfile1 as [E|[E|E]]; rewrite E in Hload1; congruence. }
    apply ensured_default_sites. }
  unfold add_site.
  destruct (Validators.validate_domains d (default [] aliases')) as [ok' err'].
  simpl in Hv'. subst ok'. cbn [negb].
  rewrite (bind_eq _ _ _ _ _ Hload1).
  unfold get_site_state, sites_of, bind at 1. cbn [default_copy doc_sites].
  rewrite Hw3. subst w1. cbn. rewrite lookup_insert_eq.
  assert (Ht : truthy (JDict rec) = true).
  { apply (truthy_dict_with_key rec "primary_domain").
    unfold rec. by rewrite site_record_primary_domain. }
  cbn [truthy_opt]. by rewrite Ht.
Qed.

Lemma dry_run_leaves_record_behind_witness :
  let w1 := (add_site (default_env calm) "example.com" None None None
               false false true fresh_host).1 in
  (add_site (default_env calm) "example.com" None None None false false false
     w1).2
  = Raise (ValueError "Site already exists: example.com. Use --force to replace.").
Proof.
  intros w1.
  apply (dry_run_leaves_record_behind (default_env calm) "example.com"
           None None None false false fresh_host w1
           (match (add_site (default_env calm) "example.com" None None None
                     false false true fresh_host).2
            with Ok v => v | Raise _ => JNull end)
           None None None false false).
  - left. reflexivity.
  - vm_compute. reflexivity.
  - vm_compute. reflexivity.
Defined.

(* ===================================================================== *)
(** * Provisioning steps and their undo *)
(* ===================================================================== *)

(** X9.  With a reload command that only reloads and does not fail, and a
    configuration directory that can be created, [write_site_config]
    writes the rendered configuration to the file of the domain, and
    [remove_site_config] then answers True and leaves the directory as it
    was before the write, without that file. *)
Theorem write_then_remove_site_config env d aliases web_root php w :
  reload_inert env →
  (∀ t, proc_fails (oracle env) (CADDY_RELOAD_CMD env) t = false) →
  caddy_dir w ≠ Regular →
  proxy w !! get_site_config_path env d ≠ Some Dir →
  ∃ w1 w2,
    write_site_config env d aliases web_root php false w = (w1, Ok tt)
    ∧ proxy w1 !! get_site_config_path env d
      = Some (File (render_caddy_config env d aliases web_root php))
    ∧ remove_site_config env d false w1 = (w2, Ok true)
    ∧ proxy w2 = delete (get_site_config_path env d) (proxy w).
Proof.
  intros Hinert Hreload Hdir Hfile.
  assert (Hrun : ∀ w0, subprocess_run env (CADDY_RELOAD_CMD env) w0
                       = (log (EvRun (CADDY_RELOAD_CMD env) true) w0, Ok tt)).
  { intros w0. unfold subprocess_run. by rewrite Hreload, Hinert. }
  set (P := get_site_config_path env d) in *.
  set (text := render_caddy_config env d aliases web_root php).
  set (wa := match caddy_dir w with
             | Absent => log EvProxyMkdir (set_caddy_dir Directory w)
             | _ => w
             end).
  assert (Ha : mkdir_caddy_dir env w = (wa, Ok tt)).
  { unfold mkdir_caddy_dir, wa. by destruct (caddy_dir w). }
  assert (Hpa : proxy wa = proxy w) by (unfold wa; by destruct (caddy_dir w)).
  set (wb := log (EvProxyWrite P) (set_proxy (<[P := File text]> (proxy wa)) wa)).
  assert (Hb : proxy_write_text P text wa = (wb, Ok tt)).
  { unfold proxy_write_text, wb. rewrite Hpa.
    by destruct (proxy w !! P) as [[|?]|]; [destruct Hfile | |]. }
  set (w1 := log (EvRun (CADDY_RELOAD_CMD env) true) wb).
  set (wc := log (EvProxyUnlink P) (set_proxy (delete P (proxy w1)) w1)).
  exists w1, (log (EvRun (CADDY_RELOAD_CMD env) true) wc).
  assert (H1 : proxy w1 !! P = Some (File text)) by apply lookup_insert_eq.
  split_and!.
  - unfold write_site_config. fold P. fold text.
    rewrite (bind_eq _ _ _ _ _ Ha), (bind_eq _ _ _ _ _ Hb).
    unfold run_cmd. by rewrite Hrun.
  - exact H1.
  - unfold remove_site_config. fold P. unfold bind at 1, proxy_exists.
    rewrite H1. cbn [negb].
    assert (Hc : proxy_unlink P w1 = (wc, Ok tt)).
    { unfold proxy_unlink. by rewrite H1. }
    rewrite (bind_eq _ _ _ _ _ Hc). unfold run_cmd, bind. by rewrite Hrun.
  - simpl. rewrite Hpa. apply delete_insert_eq.
Qed.

Lemma write_then_remove_site_config_witness :
  let env := default_env calm in
  ∃ w1 w2,
    write_site_config env "example.com" [] "/var/www/example.com" "8.3" false
      fresh_host = (w1, Ok tt)
    ∧ remove_site_config env "example.com" false w1 = (w2, Ok true)
    ∧ proxy w2 = delete (get_site_config_path env "example.com")
                   (proxy fresh_host).
Proof.
  intros env.
  destruct (write_then_remove_site_config env "example.com" []
              "/var/www/example.com" "8.3" fresh_host)
    as (w1 & w2 & H1 & _ & H2 & H3).
  - reflexivity.
  - intros t. reflexivity.
  - discriminate.
  - discriminate.
  - by exists w1, w2.
Defined.

Lemma create_database_Ok env name w :
  Validators.validate_identifier name = true →
  (∀ t, connect_fails (oracle env) t = false) →
  (∀ q t, sql_fails (oracle env) q t = false) →
  ∃ w1 pw,
    create_database env name None None false w = (w1, Ok (name, name, pw))
    ∧ PyStr.len pw = Config.PASSWORD_LENGTH
    ∧ databases w1 = databases w ∪ {[name]}
    ∧ db_users w1 = match db_users w !! name with
                    | Some _ => db_users w
                    | None => <[name := pw]> (db_users w)
                    end.
Proof.
  intros Hv Hconn Hsql.
  unfold create_database, bind, validate_identifier_or_raise.
  cbn [str_or]. rewrite Hv. cbn -[choices].
  unfold try_except, bind, _root_connection, execute.
  rewrite !Hconn. cbn -[choices]. rewrite !Hsql. cbn -[choices].
  eexists _, _. split; [reflexivity|].
  split; [apply choices_len|].
  by destruct (db_users w !! name).
Qed.

Lemma delete_database_Ok env name user w :
  Validators.validate_identifier name = true →
  (∀ t, connect_fails (oracle env) t = false) →
  (∀ q t, sql_fails (oracle env) q t = false) →
  ∃ w2,
    delete_database env name user false w = (w2, Ok tt)
    ∧ databases w2 = databases w ∖ {[name]}
    ∧ db_users w2 = delete (str_or user name) (db_users w).
Proof.
  intros Hv Hconn Hsql.
  unfold delete_database, bind, validate_identifier_or_raise.
  rewrite Hv. cbn [negb ret].
  unfold try_except, bind, _root_connection, execute.
  rewrite !Hconn. cbn. rewrite !Hsql. cbn.
  by eexists.
Qed.

(** X10.  On an SQL server that is reachable and executes every statement,
    [create_database] with a valid name returns the name twice and a fresh
    password; the database then exists, and the database user has the
    returned password if it is new, but keeps its old password if it
    existed (CREATE USER IF NOT EXISTS).  [delete_database] then drops
    both. *)
Theorem create_then_delete_database env name w :
  Validators.validate_identifier name = true →
  (∀ t, connect_fails (oracle env) t = false) →
  (∀ q t, sql_fails (oracle env) q t = false) →
  ∃ w1 w2 pw,
    create_database env name None None false w = (w1, Ok (name, name, pw))
    ∧ PyStr.len pw = Config.PASSWORD_LENGTH
    ∧ name ∈ databases w1
    ∧ db_users w1 !! name = Some (default pw (db_users w !! name))
    ∧ delete_database env name (Some name) false w1 = (w2, Ok tt)
    ∧ (name ∉ databases w2)
    ∧ db_users w2 !! name = None.
Proof.
  intros Hv Hconn Hsql.
  destruct (create_database_Ok env name w Hv Hconn Hsql)
    as (w1 & pw & H1 & Hlen & Hd1 & Hu1).
  destruct (delete_database_Ok env name (Some name) w1 Hv Hconn Hsql)
    as (w2 & H2 & Hd2 & Hu2).
  exists w1, w2, pw. split_and!; try done.
  - rewrite Hd1. apply elem_of_union. right. by apply elem_of_singleton.
  - rewrite Hu1. destruct (db_users w !! name) eqn:E; simpl; [done|].
    apply lookup_insert_eq.
  - rewrite Hd2. intros [_ Hin]%elem_of_difference.
    apply Hin. by apply elem_of_singleton.
  - rewrite Hu2. unfold str_or. rewrite if_same. apply lookup_delete_eq.
Qed.

Lemma create_then_delete_database_witness :
  ∃ w1 w2 pw,
    create_database (default_env calm) "example_com" None None false fresh_host
    = (w1, Ok ("example_com", "example_com", pw))
    ∧ db_users w1 !! "example_com" = Some pw
    ∧ delete_database (default_env calm) "example_com" (Some "example_com")
        false w1 = (w2, Ok tt)
    ∧ db_users w2 !! "example_com" = None.
Proof.
  destruct (create_then_delete_database (default_env calm) "example_com"
              fresh_host)
    as (w1 & w2 & pw & H1 & _ & _ & H2 & H3 & _ & H4).
  - vm_compute. reflexivity.
  - intros t. reflexivity.
  - intros q t. reflexivity.
  - by exists w1, w2, pw.
Defined.

Lemma create_linux_user_Ok env name home w :
  Validators.validate_identifier name = true →
  (∀ cmd t, proc_fails (oracle env) cmd t = false) →
  users w !! name = None →
  ∃ w1,
    create_linux_user env name (Some home) false w = (w1, Ok tt)
    ∧ users w1 = <[name := home]> (users w)
    ∧ fs w1 = match fs w !! home with
              | Some _ => fs w
              | None => <[home := Dir]> (fs w)
              end.
Proof.
  intros Hv Hproc Hfree.
  unfold create_linux_user, bind, validate_identifier_or_raise.
  rewrite Hv. cbn [negb ret].
  change (default ("/home/" +:+ name) (Some home)) with home.
  unfold try_except, run_cmd, subprocess_run. rewrite Hproc.
  change (parse ["useradd"; "-m"; "-d"; home; name]) with (Useradd home name).
  cbn [effect]. rewrite Hfree.
  eexists. split; [reflexivity|]. by destruct (fs w !! home).
Qed.

Lemma delete_linux_user_Ok env name home w :
  Validators.validate_identifier name = true →
  (∀ cmd t, proc_fails (oracle env) cmd t = false) →
  users w !! name = Some home →
  ∃ w2,
    delete_linux_user env name true false w = (w2, Ok tt)
    ∧ users w2 = delete name (users w)
    ∧ fs w2 = remove_tree home (fs w).
Proof.
  intros Hv Hproc Hhome.
  assert (Hne : PyStr.nonempty name = true) by (by apply valid_nonempty).
  unfold delete_linux_user, bind, validate_identifier_or_raise.
  rewrite Hv, userdel_argv, Hne. cbn [negb ret].
  unfold try_except, run_cmd, subprocess_run. rewrite Hproc.
  change (parse ["userdel"; "-r"; name]) with (Userdel true name).
  cbn [effect]. rewrite Hhome. by eexists.
Qed.

(** X11.  Where [useradd] and [userdel] do not fail for a reason outside
    the host, [create_linux_user] with a valid name that is not taken
    creates the account with the given home, which exists afterwards;
    [delete_linux_user] then removes the account and, as [remove_home] is
    True by default, the home with everything below it, whether or not
    [useradd] created it. *)
Theorem create_then_delete_linux_user env name home w :
  Validators.validate_identifier name = true →
  (∀ cmd t, proc_fails (oracle env) cmd t = false) →
  users w !! name = None →
  ∃ w1 w2,
    create_linux_user env name (Some home) false w = (w1, Ok tt)
    ∧ users w1 !! name = Some home
    ∧ is_Some (fs w1 !! home)
    ∧ delete_linux_user env name true false w1 = (w2, Ok tt)
    ∧ users w2 !! name = None
    ∧ ∀ p, Path.within home p = true → fs w2 !! p = None.
Proof.
  intros Hv Hproc Hfree.
  destruct (create_linux_user_Ok env name home w Hv Hproc Hfree)
    as (w1 & H1 & Hu1 & Hf1).
  assert (Hh : users w1 !! name = Some home)
    by (rewrite Hu1; apply lookup_insert_eq).
  destruct (delete_linux_user_Ok env name home w1 Hv Hproc Hh)
    as (w2 & H2 & Hu2 & Hf2).
  exists w1, w2. split_and!; try done.
  - rewrite Hf1. destruct (fs w !! home) eqn:E; [by rewrite E|].
    rewrite lookup_insert_eq. by eexists.
  - rewrite Hu2. apply lookup_delete_eq.
  - intros p Hp. rewrite Hf2. unfold remove_tree.
    apply map_lookup_filter_None. right. intros n _. simpl. by rewrite Hp.
Qed.

Lemma create_then_delete_linux_user_witness :
  ∃ w1 w2,
    create_linux_user (default_env calm) "example"
      (Some "/var/www/example.com") false fresh_host = (w1, Ok tt)
    ∧ users w1 !! "example" = Some "/var/www/example.com"
    ∧ delete_linux_user (default_env calm) "example" true false w1
      = (w2, Ok tt)
    ∧ fs w2 !! "/var/www/example.com" = None.
Proof.
  destruct (create_then_delete_linux_user (default_env calm) "example"
              "/var/www/example.com" fresh_host)
    as (w1 & w2 & H1 & H2 & _ & H3 & _ & H4).
  - vm_compute. reflexivity.
  - intros cmd t. reflexivity.
  - reflexivity.
  - exists w1, w2. split_and!; [done..|]. apply H4. vm_compute. reflexivity.
Defined.

Lemma get_occurs n s c : String.get n s = Some c → occurs c s = true.
Proof.
  revert n. induction s as [|x s IHs]; intros n; [by destruct n|].
  destruct n as [|n]; simpl.
  - intros [= ->]. by rewrite Ascii.eqb_refl.
  - intros H. rewrite (IHs n H). apply orb_true_r.
Qed.

Lemma choice_in_alphabet r : occurs (choice r) alphabet = true.
Proof.
  unfold choice.
  destruct (String.get _ alphabet) as [c|] eqn:E; [by eapply get_occurs|].
  reflexivity.
Qed.

Lemma choices_in_alphabet env n i :
  all_chars (λ c, occurs c alphabet) (choices env n i) = true.
Proof.
  revert i. induction n as [|n IHn]; intros i; [done|].
  cbn [choices all_chars]. by rewrite choice_in_alphabet, IHn.
Qed.

(** X12.  [_generate_password] never raises; the password has
    PASSWORD_LENGTH characters, each one a letter, a digit or one of
    [!@#$%^&*]: it holds no quote and no backslash (code 92), whatever the
    random source gives. *)
Theorem generate_password_spec env w :
  ∃ w1 pw,
    _generate_password env w = (w1, Ok pw)
    ∧ PyStr.len pw = Config.PASSWORD_LENGTH
    ∧ all_chars (λ c, occurs c alphabet) pw = true
    ∧ occurs "'" pw = false ∧ occurs (ascii_of_nat 92) pw = false.
Proof.
  eexists _, _. split; [reflexivity|].
  pose proof (choices_in_alphabet env Config.PASSWORD_LENGTH (rng w)) as Hin.
  split_and!; [apply choices_len | exact Hin | |].
  - by apply (all_chars_occurs _ _ _ Hin).
  - by apply (all_chars_occurs _ _ _ Hin).
Qed.


(** A host on which the directory of example.com exists, with a page. *)
Definition host_with_directory : World :=
  set_fs {[ "/var/www/example.com" := Dir;
            "/var/www/example.com/index.html" := File "<h1>example</h1>" ]}
    fresh_host.

(** X13.  The directory step goes on record even when [force] found the
    directory in place.  So when [add_site] with [force] is called where
    the site directory exists, gets as far as its [try] and then raises,
    the rollback removes the directory that was there before the call
    (the undo actions being dependable). *)
Theorem forced_add_site_failure_removes_directory env d aliases app php
    create_user w w1 state w' e :
  dependable env d →
  fs w !! _site_path env d = Some Dir →
  (Validators.validate_domains d (default [] aliases)).1 = true →
  load_state env w = (w1, Ok state) →
  add_site env d aliases app php create_user true false w = (w', Raise e) →
  fs w' !! _site_path env d = None.
Proof.
  intros Hdep Hdir Hv Hload Hrun.
  unfold add_site in Hrun.
  destruct (Validators.validate_domains d (default [] aliases)) as [ok err].
  simpl in Hv. subst ok. cbn [negb] in Hrun.
  rewrite (bind_eq _ _ _ _ _ Hload) in Hrun.
  unfold bind, get_site_state in Hrun.
  rewrite andb_false_r in Hrun.
  destruct (load_state_only_state_dir env w) as ((Ef & _) & _).
  rewrite Hload in Ef. simpl in Ef.
  assert (H1 : fs w1 !! _site_path env d = None
               ∨ (true = true ∧ fs w1 !! _site_path env d = Some Dir))
    by (right; by rewrite Ef).
  match type of Hrun with
  | context [add_site_body env d ?al app php create_user true false ?r
               state ?ex] =>
      pose proof (add_site_body_undoable env d Hdep w1 al app php create_user
                    true state ex H1 (w1, []) eq_refl) as Hbody
  end.
  destruct (add_site_body _ _ _ _ _ _ _ _ _ _ _ _)
    as [[w2 steps] [site_data|e2]]; [discriminate|].
  cbn [negb] in Hrun. injection Hrun as <- _.
  by destruct (undoable_rollback env d Hdep w1 w2 steps Hbody) as (Rf & _).
Qed.

Lemma forced_add_site_failure_removes_directory_witness :
  let env := default_env unpack_fails in
  fs host_with_directory !! _site_path env "example.com" = Some Dir
  ∧ fs (add_site env "example.com" None (Some "wordpress") None false true
          false host_with_directory).1 !! _site_path env "example.com" = None.
Proof.
  intros env. split; [vm_compute; reflexivity|].
  assert (Hdep : dependable env "example.com").
  { split.
    - reflexivity.
    - intros t. reflexivity.
    - intros q t. reflexivity.
    - intros t t' _ H. exact H.
    - intros t. reflexivity. }
  apply (forced_add_site_failure_removes_directory env "example.com" None
           (Some "wordpress") None false host_with_directory
           (load_state env host_with_directory).1 default_copy _ TarError Hdep).
  - vm_compute. reflexivity.
  - vm_compute. reflexivity.
  - vm_compute. reflexivity.
  - vm_compute. reflexivity.
Defined.

(* ===================================================================== *)
(** * core/site.py: list_sites and site_info *)
(* ===================================================================== *)

(** [{"primary_domain": domain, **data}]: the keys of [data] come last
    and win; what is no mapping cannot be unpacked. *)
Definition with_primary_domain {S} (domain : string) (data : json)
    : M S json :=
  match data with
  | JDict m => ret (JDict (m ∪ {[ "primary_domain" := JStr domain ]}))
  | _ => raise TypeError
  end.

(** A list comprehension whose element expression may raise. *)
Fixpoint map_m {S A B} (f : A → M S B) (l : list A) : M S (list B) :=
  match l with
  | [] => ret []
  | x :: rest =>
      let! y := f x in
      let! ys := map_m f rest in
      ret (y :: ys)
  end.

(** The order of [sorted] on the items of a dict: the keys are distinct, so
    the values are never compared. *)
Definition item_le (a b : string * json) : Prop := String.leb a.1 b.1 = true.

#[local] Instance item_le_dec a b : Decision (item_le a b).
Proof. unfold item_le. apply _. Defined.

#[local] Instance item_le_total : Total item_le.
Proof. intros a b. apply String.leb_total. Qed.

(** [sorted(sites.items())] *)
Definition sorted_items (sites : gmap string json) : list (string * json) :=
  merge_sort item_le (map_to_list sites).

Definition list_sites (env : Env) : M World (list json) :=
  let! state := load_state env in
  let! w := get in
  let sites := default ∅ (sites_of state w) in
  map_m (λ item, with_primary_domain item.1 item.2) (sorted_items sites).

Definition site_info (env : Env) (primary_domain : string)
    : M World (option json) :=
  let! state := load_state env in
  let! data := get_site_state state primary_domain in
  match data with
  | Some data =>
      if negb (truthy data) then ret None
      else
        let! info := with_primary_domain primary_domain data in
        ret (Some info)
  | None => ret None
  end.

Lemma map_m_Ok {S A B} (f : A → M S B) (g : A → B → Prop) l s s' ys :
  (∀ x s1 s2 y, f x s1 = (s2, Ok y) → s2 = s1 ∧ g x y) →
  map_m f l s = (s', Ok ys) → s' = s ∧ Forall2 g l ys.
Proof.
  intros Hf. revert s ys. induction l as [|x l IHl]; intros s ys; simpl.
  - intros [= <- <-]. by split.
  - intros H. apply bind_Ok in H as (s1 & y & Hy & H).
    apply bind_Ok in H as (s2 & ys' & Hys & H). injection H as <- <-.
    apply Hf in Hy as [-> Hy]. apply IHl in Hys as [-> Hys].
    split; [done|]. by constructor.
Qed.

(** X14.  When [list_sites] returns, it has changed nothing but possibly
    created the state directory; its entries are those of the recorded
    sites, one for each, in the order of the domains they are recorded
    under, and each entry is the record of the site, with the domain under
    "primary_domain" where the record has no such key. *)
Theorem list_sites_sorted env w w' l :
  list_sites env w = (w', Ok l) →
  ∃ state sites items,
    load_state env w = (w', Ok state)
    ∧ sites_of state w' = Some sites
    ∧ items ≡ₚ map_to_list sites
    ∧ Sorted item_le items
    ∧ Forall2 (λ item info,
                 ∃ rec, item.2 = JDict rec
                        ∧ info = JDict (rec ∪ {[ "primary_domain"
                                                 := JStr item.1 ]}))
        items l.
Proof.
  unfold list_sites. intros H.
  apply bind_Ok in H as (w1 & state & Hload & H).
  apply bind_Ok in H as (? & ? & [= <- <-] & H).
  pose proof (load_state_Ok_sites env _ _ _ Hload) as Hs.
  assert (Hsites : ∃ sites, sites_of state w1 = Some sites).
  { unfold sites_of. destruct (doc_sites state) as [[|m]|]; by eauto. }
  destruct Hsites as [sites Hsites]. rewrite Hsites in H. simpl in H.
  apply (map_m_Ok _
           (λ item info,
              ∃ rec, item.2 = JDict rec
                     ∧ info = JDict (rec ∪ {[ "primary_domain"
                                              := JStr item.1 ]})))
    in H as [-> Hl].
  - exists state, sites, (sorted_items sites). split_and!; try done.
    + apply merge_sort_Permutation.
    + apply (Sorted_merge_sort item_le).
  - intros [dom data] s1 s2 y. unfold with_primary_domain. simpl.
    destruct data; try discriminate. intros [= <- <-]. eauto.
Qed.

Lemma list_sites_sorted_witness :
  let run := list_sites (default_env calm) provisioned in
  ∃ items l,
    run.2 = Ok l
    ∧ Sorted item_le items
    ∧ Forall2 (λ item info,
                 ∃ rec, item.2 = JDict rec
                        ∧ info = JDict (rec ∪ {[ "primary_domain"
                                                 := JStr item.1 ]}))
        items l.
Proof.
  intros run.
  assert (E : list_sites (default_env calm) provisioned
              = (run.1, Ok (match run.2 with Ok l => l | Raise _ => [] end)))
    by (vm_compute; reflexivity).
  pose proof (list_sites_sorted (default_env calm) provisioned run.1
                (match run.2 with Ok l => l | Raise _ => [] end) E)
    as (state & sites & items & _ & _ & _ & Hs & Hl).
  exists items, (match run.2 with Ok l => l | Raise _ => [] end).
  split; [vm_compute; reflexivity|]. split; [exact Hs | exact Hl].
Defined.

(** The end of the [try] of [add_site], with what [save_state] leaves of
    the state directory. *)
Lemma persist_record_saved env state d site_data w l w' l' r :
  (let! state := io (set_site_state state d site_data) in
   io (when (negb false) (save_state env state)) >>
   record StepState >>
   ret site_data) (w, l) = ((w', l'), Ok r) →
  r = site_data
  ∧ state_dir w' = Directory
  ∧ ∃ rest sites, state_file w' = Json (JDict (<["sites" := JDict sites]> rest))
                  ∧ sites !! d = Some site_data.
Proof.
  intros H.
  apply bind_Ok in H as ([w1 l1] & state' & Hset & H).
  apply io_Ok in Hset as [Hset ->].
  apply bind_Ok in H as ([w2 l2] & [] & Hsave & H).
  apply io_Ok in Hsave as [Hsave ->]. simpl in Hsave.
  apply bind_Ok in H as ([w3 l3] & [] & Hrec & H).
  injection Hrec as <- <-. injection H as <- <- <-.
  split; [done|].
  destruct (set_site_state_result state d site_data w)
    as (w1' & state'' & Hset' & (sites & Hsites & Hd) & _).
  rewrite Hset in Hset'. injection Hset' as <- <-.
  apply save_state_written in Hsave as [Hdir Hfile]. rewrite Hsites in Hfile.
  split; [done|]. by exists (doc_rest state'), sites.
Qed.

(** What a completed [add_site] leaves in the state file. *)
Lemma add_site_Ok_state env d aliases app php create_user force w w' r :
  add_site env d aliases app php create_user force false w = (w', Ok r) →
  ∃ rec rest sites,
    r = JDict rec
    ∧ rec !! "primary_domain" = Some (JStr d)
    ∧ state_dir w' = Directory
    ∧ state_file w' = Json (JDict (<["sites" := JDict sites]> rest))
    ∧ sites !! d = Some r.
Proof.
  intros H. unfold add_site in H.
  destruct (Validators.validate_domains _ _) as [[] err]; [|discriminate].
  cbn [negb] in H.
  apply bind_Ok in H as (w1 & state & Hload & H).
  apply bind_Ok in H as (? & existing & _ & H).
  destruct (_ && _); [discriminate|].
  destruct (add_site_body _ _ _ _ _ _ _ _ _ _ _ _)
    as [[w2 steps_done] [site_data|e]] eqn:Hbody; [|by destruct (negb false)].
  injection H as <- <-.
  unfold add_site_body in Hbody.
  apply bind_Ok in Hbody as ([wa la] & [] & _ & Hbody).
  apply bind_Ok in Hbody as ([wb lb] & [] & _ & Hbody).
  apply bind_Ok in Hbody as ([wc lc] & linux_user & _ & Hbody).
  apply bind_Ok in Hbody as ([wd ld] & [[n u] p] & _ & Hbody).
  apply bind_Ok in Hbody as ([we le] & [[n' u'] p'] & _ & Hbody).
  apply bind_Ok in Hbody as ([wf lf] & [] & _ & Hbody).
  apply bind_Ok in Hbody as ([wg lg] & [] & _ & Hbody).
  apply persist_record_saved in Hbody as (-> & Hdir & rest & sites & Hf & Hd).
  eexists _, rest, sites. split; [reflexivity|].
  split; [apply site_record_primary_domain | done].
Qed.

Lemma union_singleton_present (m : gmap string json) k v v' :
  m !! k = Some v → m ∪ {[ k := v' ]} = m.
Proof.
  intros H. apply map_eq. intros i. rewrite lookup_union.
  destruct (decide (i = k)) as [->|Hne].
  - by rewrite H, lookup_singleton_eq.
  - rewrite lookup_singleton_ne by done. by destruct (m !! i).
Qed.

(** X15.  [site_info] gives back what [add_site] returned: once [add_site]
    (not a dry run) has returned a record for a domain, [site_info] for
    that domain returns that record and changes nothing. *)
Theorem site_info_after_add_site env d aliases app php create_user force
    w w' r :
  add_site env d aliases app php create_user force false w = (w', Ok r) →
  site_info env d w' = (w', Ok (Some r)).
Proof.
  intros H.
  apply add_site_Ok_state in H as (rec & rest & sites & -> & Hpd & Hdir & Hf & Hd).
  unfold site_info.
  rewrite (bind_eq _ _ _ _ _ (load_state_parsed env w' _ Hdir Hf)).
  unfold bind, get_site_state, sites_of, doc_of_dict. cbn [doc_sites].
  rewrite lookup_insert_eq, Hd.
  assert (Ht : truthy (JDict rec) = true).
  { apply (truthy_dict_with_key rec "primary_domain"). by rewrite Hpd. }
  rewrite Ht. cbn [negb with_primary_domain ret].
  by rewrite (union_singleton_present _ _ _ _ Hpd).
Qed.

Lemma site_info_after_add_site_witness :
  ∃ r, (site_info (default_env calm) "example.com" provisioned).2 = Ok (Some r)
       ∧ (add_site (default_env calm) "example.com" None None None false false
            false fresh_host).2 = Ok r.
Proof.
  set (run := add_site (default_env calm) "example.com" None None None false
                false false fresh_host).
  exists (match run.2 with Ok v => v | Raise _ => JNull end).
  split; [|vm_compute; reflexivity].
  assert (E : run = (provisioned,
                     Ok (match run.2 with Ok v => v | Raise _ => JNull end)))
    by (vm_compute; reflexivity).
  by rewrite (site_info_after_add_site (default_env calm) "example.com" None
                None None false false fresh_host provisioned
                (match run.2 with Ok v => v | Raise _ => JNull end) E).
Defined.

(* ===================================================================== *)
(** * validate_domains, characterised *)
(* ===================================================================== *)

Lemma validate_aliases_iff seen aliases :
  Validators.validate_aliases seen aliases = (true, "")
  ↔ Forall (λ a, Validators.validate_domain a = true) aliases
    ∧ NoDup (PyStr.lower <$> aliases)
    ∧ ∀ a, a ∈ aliases → PyStr.lower a ∉ seen.
Proof.
  revert seen. induction aliases as [|a rest IH]; intros seen; simpl.
  - split; [|done]. intros _. split_and!; [constructor | constructor |].
    intros a Ha. by apply elem_of_nil in Ha.
  - destruct (Validators.validate_domain a) eqn:Ha; simpl.
    + case_bool_decide as Hin.
      * split; [done|]. intros (_ & _ & Hout). destruct (Hout a); [left | done].
      * rewrite IH. split.
        -- intros (Hv & Hnd & Hout). split_and!.
           ++ by constructor.
           ++ constructor; [|done]. intros Hl.
              apply list_elem_of_fmap in Hl as (b & Hb & Hbin).
              apply (Hout b Hbin). rewrite <- Hb.
              apply elem_of_union_r. by apply elem_of_singleton.
           ++ intros b [->|Hb]%elem_of_cons; [done|].
              intros Hc. apply (Hout b Hb). by apply elem_of_union_l.
        -- intros (Hv & Hnd & Hout).
           apply Forall_cons in Hv as [_ Hv].
           apply NoDup_cons in Hnd as [Hna Hnd]. split_and!; [done..|].
           intros b Hb [Hc|Hc%elem_of_singleton]%elem_of_union.
           ++ apply (Hout b); [by right | done].
           ++ apply Hna. rewrite <- Hc. apply list_elem_of_fmap. by exists b.
    + split; [done|]. intros (Hv & _). apply Forall_cons in Hv as [Hv _].
      congruence.
Qed.

(** X16.  [validate_domains] answers (True, "") exactly when the primary
    domain and every alias pass [validate_domain] and no two of them are
    equal once lowered.  (The comparison lowers the names but does not
    strip them, unlike [validate_domain].) *)
Theorem validate_domains_iff primary aliases :
  Validators.validate_domains primary aliases = (true, "")
  ↔ Forall (λ a, Validators.validate_domain a = true) (primary :: aliases)
    ∧ NoDup (PyStr.lower <$> (primary :: aliases)).
Proof.
  unfold Validators.validate_domains.
  destruct (Validators.validate_domain primary) eqn:Hp; simpl.
  - rewrite validate_aliases_iff. split.
    + intros (Hv & Hnd & Hout). split; [by constructor|].
      constructor; [|done]. intros Hl.
      apply list_elem_of_fmap in Hl as (b & Hb & Hbin).
      apply (Hout b Hbin). rewrite <- Hb. by apply elem_of_singleton.
    + intros [Hv Hnd]. apply Forall_cons in Hv as [_ Hv].
      apply NoDup_cons in Hnd as [Hna Hnd]. split_and!; [done..|].
      intros b Hb Hc%elem_of_singleton. apply Hna. rewrite <- Hc.
      apply list_elem_of_fmap. by exists b.
  - split; [done|]. intros [Hv _]. apply Forall_cons in Hv as [Hv _].
    congruence.
Qed.

(* ===================================================================== *)
(** * delete_site: what a completed call leaves *)
(* ===================================================================== *)

Lemma delete_database_Ok_inv env name user w w' :
  delete_database env name user false w = (w', Ok tt) →
  databases w' = databases w ∖ {[name]}
  ∧ db_users w' = delete (str_or user name) (db_users w).
Proof.
  unfold delete_database, bind, validate_identifier_or_raise.
  destruct (negb _); [discriminate|]. cbn [ret].
  unfold try_except, bind, _root_connection, execute.
  destruct (connect_fails _ _); [discriminate|].
  repeat (destruct (sql_fails _ _ _); [discriminate|]).
  by intros [= <-].
Qed.

(** X17.  When [delete_site] (not a dry run) returns for a domain whose
    record names a database and a database user, nothing of the site is
    left: no site directory, no proxy configuration file, no such database
    and no such database user, and the state file that was written has no
    record for the domain.  The domain is a validated one, the configured
    locations lie apart, and the reload command only reloads. *)
Theorem delete_site_removes_everything env d w w' m sites data name user :
  locations_apart env d = true →
  reload_inert env →
  state_file w = Json (JDict m) →
  m !! "sites" = Some (JDict sites) →
  sites !! d = Some (JDict data) →
  data !! "db_name" = Some (JStr name) → name ≠ "" →
  data !! "db_user" = Some (JStr user) → user ≠ "" →
  delete_site env d false w = (w', Ok tt) →
  fs w' !! _site_path env d = None
  ∧ proxy w' !! get_site_config_path env d = None
  ∧ (name ∉ databases w')
  ∧ db_users w' !! user = None
  ∧ ∃ rest sites', state_file w' = Json (JDict (<["sites" := JDict sites']> rest))
                   ∧ sites' !! d = None.
Proof.
  intros _ Hinert Hfile Hsites Hrec Hname Hne Huser Hune H.
  destruct (delete_site_Ok env d w w' Hinert H) as (Hfs & Hproxy & _ & Hstate).
  split; [done|]. split; [done|].
  rewrite delete_site_steps in H.
  apply bind_Ok in H as (w1 & state & Hload & H).
  apply bind_Ok in H as (? & site_data & Hget & H).
  apply bind_Ok in H as (? & present & [= <- Hp] & H).
  apply bind_Ok in H as (w2 & [] & Hrm & H).
  apply bind_Ok in H as (w3 & [] & Hdb & H).
  apply bind_Ok in H as (w4 & removed & Hrsc & H).
  apply bind_Ok in H as (w5 & [state' existed] & Hrss & H).
  simpl in H.
  (* the record that was read *)
  assert (Hstate0 : state = doc_of_dict m).
  { rewrite load_state_result, Hfile in Hload.
    destruct (state_dir w); by simplify_eq. }
  subst state.
  unfold get_site_state, sites_of, doc_of_dict in Hget. simpl in Hget.
  rewrite Hsites, Hrec in Hget. injection Hget as <- <-.
  (* the database step *)
  assert (Ht : truthy (JDict data) = true)
    by (apply (truthy_dict_with_key data "db_name"); by rewrite Hname).
  unfold drop_recorded_database in Hdb. rewrite Ht in Hdb.
  unfold when, lift_result, dict_get, bind at 1 in Hdb.
  unfold bind at 1 in Hdb. rewrite Hname, Huser in Hdb.
  assert (Htn : truthy_opt (Some (JStr name)) = true) by (by destruct name).
  rewrite Htn in Hdb. unfold as_name, as_optional_name in Hdb.
  cbn [default from_option id] in Hdb.
  unfold bind at 1, ret in Hdb. unfold bind at 1 in Hdb.
  apply delete_database_Ok_inv in Hdb as [Hd3 Hu3].
  assert (Hsu : str_or (Some user) name = user) by (by destruct user).
  rewrite Hsu in Hu3.
  (* the later steps stay away from the SQL server *)
  pose (k := Mask false true true true false false true true).
  assert (Hrel : reload_ok env k).
  { split; [done|]. unfold reload_inert in Hinert. by rewrite Hinert. }
  assert (F : frame k w3 w').
  { eapply frame_trans;
      [eapply framed_run; [|exact Hrsc]; by apply framed_remove_site_config|].
    eapply frame_trans;
      [eapply framed_run; [|exact Hrss]; by apply framed_remove_site_state|].
    eapply framed_run; [|exact H]. by apply framed_save_state. }
  destruct F as (_ & _ & _ & _ & _ & Q & _).
  destruct (Q eq_refl) as (-> & -> & _). rewrite Hd3, Hu3.
  split_and!; [| apply lookup_delete_eq | done].
  intros [_ Hin]%elem_of_difference. apply Hin. by apply elem_of_singleton.
Qed.

Lemma delete_site_removes_everything_witness :
  let env := default_env calm in
  let w' := (delete_site env "example.com" false provisioned).1 in
  fs w' !! _site_path env "example.com" = None
  ∧ ("example_com" ∉ databases w')
  ∧ db_users w' !! "example_com" = None.
Proof.
  intros env w'.
  set (data := match (add_site env "example.com" None None None false false
                        false fresh_host).2 with
               | Ok (JDict rec) => rec
               | _ => ∅
               end).
  set (sites := {[ "example.com" := JDict data ]} : gmap string json).
  set (m := {[ "sites" := JDict sites; "version" := JInt 1 ]}
            : gmap string json).
  assert (H0 : locations_apart env "example.com" = true)
    by (vm_compute; reflexivity).
  assert (H1 : reload_inert env) by reflexivity.
  assert (H2 : state_file provisioned = Json (JDict m))
    by (vm_compute; reflexivity).
  assert (H3 : m !! "sites" = Some (JDict sites)) by (vm_compute; reflexivity).
  assert (H4 : sites !! "example.com" = Some (JDict data))
    by (vm_compute; reflexivity).
  assert (H5 : data !! "db_name" = Some (JStr "example_com"))
    by (vm_compute; reflexivity).
  assert (H6 : "example_com" ≠ "") by discriminate.
  assert (H7 : data !! "db_user" = Some (JStr "example_com"))
    by (vm_compute; reflexivity).
  assert (E : delete_site env "example.com" false provisioned = (w', Ok tt))
    by (vm_compute; reflexivity).
  pose proof (delete_site_removes_everything env "example.com" provisioned w'
                m sites data "example_com" "example_com"
                H0 H1 H2 H3 H4 H5 H6 H7 H6 E) as (Hf & _ & Hd & Hu & _).
  split; [exact Hf|]. split; [exact Hd | exact Hu].
Defined.

(* ===================================================================== *)
(** * add_site: what a completed call has set up *)
(* ===================================================================== *)

Lemma keeps_for_each_elem {S A} (I : S → Prop) (l : list A)
    (f : A → M S unit) :
  (∀ x, x ∈ l → keeps I (f x)) → keeps I (for_each l f).
Proof.
  induction l as [|x l IHl]; intros Hf; simpl.
  - apply keeps_ret.
  - apply keeps_bind; [apply Hf; by left | intros _].
    apply IHl. intros y Hy. apply Hf. by right.
Qed.

Section SiteDir.

Context (env : Env) (p : string).

Hypothesis Hslash : Path.has_slash p = true.
Hypothesis Hwp : Path.join (Path.parent p) "wordpress" ≠ p.

(** The site root is a directory. *)
Definition is_dir (w : World) : Prop := fs w !! p = Some Dir.

Lemma keeps_dir_frame {A} k (m : M World A) :
  m_fs k = false → framedW k m → keeps is_dir m.
Proof.
  intros Hk Hm. apply (keeps_of_framed k); [done|].
  intros w w' (F & _) H. unfold is_dir. by rewrite (F Hk).
Qed.

Lemma keeps_dir_same_fs {A} (m : M World A) :
  (∀ w, fs (m w).1 = fs w) → keeps is_dir m.
Proof. intros Hm w H. unfold is_dir. by rewrite Hm. Qed.

Lemma keeps_dir_mkdir ok : keeps is_dir (mkdir p ok).
Proof. intros w H. unfold mkdir, is_dir in *. rewrite H. by destruct ok. Qed.

Lemma keeps_dir_extractall : keeps is_dir (extractall env (Path.parent p)).
Proof.
  intros w H. unfold extractall.
  destruct (extract_fails _ _); simpl; [done|].
  unfold is_dir in *. simpl.
  induction (WP_ARCHIVE env) as [|[entry n] l IHl]; simpl.
  - by rewrite lookup_insert_ne.
  - rewrite lookup_insert_ne; [done|]. by apply unpacked_ne.
Qed.

Lemma entry_ne q m :
  q ∈ entries (Path.join (Path.parent p) "wordpress") m → q ≠ p.
Proof.
  unfold entries. intros Hq ->.
  apply list_elem_of_fmap in Hq as ([q n] & -> & Hq).
  apply elem_of_map_to_list, map_lookup_filter_Some in Hq as [_ Hq].
  simpl in Hq. unfold Path.child_of in Hq.
  apply andb_true_iff in Hq as [_ Hq%String.eqb_eq].
  symmetry in Hq. by apply join_ne in Hq.
Qed.

Lemma keeps_dir_mv q : q ≠ p → keeps is_dir (run_cmd env ["mv"; q; p] false).
Proof.
  intros Hq w H. unfold run_cmd, subprocess_run.
  destruct (proc_fails _ _ _); simpl; [done|].
  change (parse ["mv"; q; p]) with (Mv q p). simpl.
  destruct (fs w !! q) as [n|] eqn:Eq; simpl; [|done].
  unfold is_dir in *. rewrite H. simpl.
  rewrite lookup_insert_ne by apply join_ne.
  by rewrite lookup_delete_ne.
Qed.

Lemma keeps_dir_rmdir q : q ≠ p → keeps is_dir (rmdir q).
Proof.
  intros Hq w H. unfold rmdir.
  destruct (fs w !! q) as [[|?]|] eqn:Eq; simpl; try done.
  destruct (occupied q (fs w)); simpl; [done|].
  unfold is_dir in *. simpl. by rewrite lookup_delete_ne.
Qed.

Lemma keeps_dir_write_text name text :
  keeps is_dir (write_text (Path.join p name) text).
Proof.
  intros w H. unfold write_text.
  assert (Hw : is_dir (log (EvWrite (Path.join p name))
                         (set_fs (<[Path.join p name := File text]> (fs w)) w))).
  { unfold is_dir. simpl. by rewrite lookup_insert_ne by apply join_ne. }
  by destruct (fs w !! Path.join p name) as [[|?]|].
Qed.

Lemma keeps_dir_inert cmd :
  parse cmd = Other → keeps is_dir (run_cmd env cmd false).
Proof.
  intros Hc.
  apply (keeps_dir_frame (Mask false false false false false false false true));
    [done|].
  apply framed_run_cmd. intros _. split; [done|]. by rewrite Hc.
Qed.

Lemma keeps_dir_download_wordpress :
  keeps is_dir (download_wordpress env p false).
Proof.
  unfold download_wordpress.
  apply keeps_bind; [apply keeps_dir_mkdir | intros _].
  apply keeps_bind; [|intros _].
  { apply keeps_dir_same_fs. intros w. unfold fetch_archive.
    by destruct (fetch_fails _ _). }
  apply keeps_bind; [by apply keeps_dir_extractall | intros _].
  apply keeps_bind; [by apply keeps_dir_same_fs | intros present].
  apply keeps_when.
  intros w H. unfold bind at 1, iterdir.
  revert w H.
  change (keeps is_dir
            (λ w, (for_each (entries (Path.join (Path.parent p) "wordpress")
                               (fs w))
                     (λ q, run_cmd env ["mv"; q; p] false) >>
                   rmdir (Path.join (Path.parent p) "wordpress")) w)).
  intros w H.
  apply (keeps_bind is_dir
           (for_each (entries (Path.join (Path.parent p) "wordpress") (fs w))
              (λ q, run_cmd env ["mv"; q; p] false))
           (λ _, rmdir (Path.join (Path.parent p) "wordpress"))); [| |done].
  - apply keeps_for_each_elem. intros q Hq.
    apply keeps_dir_mv. by eapply entry_ne.
  - intros _. by apply keeps_dir_rmdir.
Qed.

(** What a completed [install_wordpress] leaves. *)
Lemma install_wordpress_Ok db_name db_user db_pass w w' :
  is_dir w →
  install_wordpress env p db_name db_user db_pass false w = (w', Ok tt) →
  is_dir w'
  ∧ fs w' !! Path.join p "wp-config.php"
    = Some (File (render_wp_config env db_name db_user db_pass "localhost")).
Proof.
  intros Hd H. unfold install_wordpress in H.
  apply bind_Ok in H as (w1 & [] & Hdl & H).
  apply bind_Ok in H as (w2 & [] & Hwr & H).
  apply bind_Ok in H as (w3 & [] & Hf1 & H).
  pose proof (keeps_dir_download_wordpress w Hd) as Hd1.
  rewrite Hdl in Hd1. simpl in Hd1.
  pose proof (keeps_dir_write_text "wp-config.php"
                (render_wp_config env db_name db_user db_pass "localhost")
                w1 Hd1) as Hd2.
  rewrite Hwr in Hd2. simpl in Hd2.
  assert (Hcfg : fs w2 !! Path.join p "wp-config.php"
                 = Some (File (render_wp_config env db_name db_user db_pass
                                 "localhost"))).
  { unfold write_text in Hwr.
    destruct (fs w1 !! Path.join p "wp-config.php") as [[|?]|];
      simplify_eq; apply lookup_insert_eq. }
  pose (k := Mask false false false false false false false true).
  assert (F : frame k w2 w').
  { eapply frame_trans.
    - eapply framed_run; [|exact Hf1]. apply framed_run_cmd.
      intros _. by split.
    - eapply framed_run; [|exact H]. apply framed_run_cmd.
      intros _. by split. }
  destruct F as (Ff & _). unfold is_dir in *. by rewrite (Ff eq_refl).
Qed.

End SiteDir.

(** The parts of the host outside the state directory are the same. *)
Definition same_fs_users_sql_proxy (fsb ub sb pb : bool) (w w' : World) : Prop :=
  (fsb = true → fs w' = fs w)
  ∧ (ub = true → users w' = users w)
  ∧ (sb = true → databases w' = databases w ∧ db_users w' = db_users w)
  ∧ (pb = true → proxy w' = proxy w).

Lemma frame_same k w w' :
  frame k w w' →
  same_fs_users_sql_proxy (negb (m_fs k)) (negb (m_users k)) (negb (m_sql k))
    (negb (m_proxy k)) w w'.
Proof.
  intros (Ff & Fp & _ & _ & Fu & Fs & _).
  split_and!; intros H%negb_true_iff; auto.
  - by destruct (Fs H) as (? & ? & _).
  - by destruct (Fp H).
Qed.

Lemma site_record_db_name d all_aliases site_root php app db_name db_user_val
    db_pass_val linux_user :
  is_Some (site_record d all_aliases site_root php app db_name db_user_val
             db_pass_val linux_user !! "db_name") →
  str_truthy db_user_val = true.
Proof.
  unfold site_record. destruct (str_truthy db_user_val); [done|].
  intros [v Hv]. exfalso. revert Hv.
  destruct (str_truthy linux_user);
    repeat (rewrite lookup_insert_ne by discriminate);
    by rewrite lookup_singleton_ne by discriminate.
Qed.

Section Provisions.

Context (env : Env) (d : string).

#[local] Abbreviation R := (_site_path env d).
#[local] Abbreviation P := (get_site_config_path env d).
#[local] Abbreviation uname := (site_user d).
#[local] Abbreviation db := (_db_name_from_domain d).

Lemma user_stage_Ok (create_user : bool) w l w' l' linux_user :
  (if create_user
   then io (create_linux_user env uname (Some R) false) >>
        record (StepUser uname) >>
        ret (Some uname)
   else ret None) (w, l) = ((w', l'), Ok linux_user) →
  is_dir R w →
  is_dir R w'
  ∧ (create_user = true → users w' !! uname = Some R)
  ∧ same_fs_users_sql_proxy false false true true w w'.
Proof.
  destruct create_user.
  - intros H Hd.
    apply bind_Ok in H as ([w1 l1] & [] & Hc & H).
    apply io_Ok in Hc as [Hc ->].
    apply bind_Ok in H as ([w2 l2] & [] & Hr & H).
    injection Hr as <- <-. injection H as <- _ _.
    pose proof (frame_same _ _ _
                  (framed_run (Mask true false false false true false false true)
                     _ _ _ _
                     (framed_create_linux_user env
                        (Mask true false false false true false false true)
                        uname (Some R) false
                        (λ _, conj eq_refl (conj eq_refl eq_refl))) Hc)) as F.
    split_and!; [| |exact F].
    + revert Hc. unfold is_dir in *.
      unfold create_linux_user, bind, validate_identifier_or_raise.
      destruct (negb (Validators.validate_identifier _)); [intros E; discriminate E|]. cbn [ret].
      change (default ("/home/" +:+ uname) (Some R)) with R.
      unfold try_except, run_cmd, subprocess_run.
      destruct (proc_fails _ _ _); [intros E; discriminate E|].
      change (parse ["useradd"; "-m"; "-d"; R; uname]) with (Useradd R uname).
      cbn [effect]. destruct (users w !! uname); [intros E; discriminate E|].
      rewrite Hd. by intros [= <-].
    + intros _. revert Hc.
      unfold create_linux_user, bind, validate_identifier_or_raise.
      destruct (negb (Validators.validate_identifier _)); [intros E; discriminate E|]. cbn [ret].
      change (default ("/home/" +:+ uname) (Some R)) with R.
      unfold try_except, run_cmd, subprocess_run.
      destruct (proc_fails _ _ _); [intros E; discriminate E|].
      change (parse ["useradd"; "-m"; "-d"; R; uname]) with (Useradd R uname).
      cbn [effect]. destruct (users w !! uname); [intros E; discriminate E|].
      intros [= <-]. destruct (fs w !! R); simpl; apply lookup_insert_eq.
  - intros [= <- _ _] Hd. split_and!; [done | done |].
    by split_and!.
Qed.

Lemma create_database_Ok_inv name w w' n u p :
  create_database env name None None false w = (w', Ok (n, u, p)) →
  n = name ∧ u = name
  ∧ PyStr.nonempty u = true ∧ PyStr.nonempty p = true
  ∧ name ∈ databases w' ∧ is_Some (db_users w' !! name)
  ∧ same_fs_users_sql_proxy true true false true w w'.
Proof.
  intros H.
  pose proof (frame_same _ _ _
                (framed_run (Mask false false false false false true true false)
                   _ _ _ _
                   (framed_create_database env
                      (Mask false false false false false true true false)
                      name None None false eq_refl (λ _, eq_refl)) H)) as F.
  revert H.
  unfold create_database, bind, validate_identifier_or_raise.
  cbn [str_or].
  destruct (Validators.validate_identifier name) eqn:Hv; cbn -[choices];
    [|discriminate].
  unfold try_except, bind, _root_connection. cbn -[choices].
  destruct (connect_fails _ _); cbn -[choices]; [discriminate|].
  unfold execute.
  repeat (destruct (sql_fails _ _ _); cbn -[choices]; [discriminate|]).
  intros [= <- <- <- <-]. split_and!; try done.
  - by apply valid_nonempty.
  - destruct (db_users w !! name); cbn -[choices];
      apply elem_of_union; right; by apply elem_of_singleton.
  - destruct (db_users w !! name) eqn:E; cbn -[choices].
    + rewrite E. by eexists.
    + rewrite lookup_insert_eq. by eexists.
Qed.

Lemma db_stage_Ok (cond : bool) w l w' l' n du dp :
  (if cond
   then let! ' (n, u, p) := io (create_database env db None None false) in
        record (StepDatabase n (str_or (Some u) n)) >>
        ret (n, Some u, Some p)
   else ret (db, None, None)) (w, l) = ((w', l'), Ok (n, du, dp)) →
  n = db
  ∧ (if cond
     then du = Some db ∧ PyStr.nonempty db = true
          ∧ (∃ pw, dp = Some pw ∧ PyStr.nonempty pw = true)
          ∧ db ∈ databases w' ∧ is_Some (db_users w' !! db)
     else du = None ∧ dp = None)
  ∧ same_fs_users_sql_proxy true true false true w w'.
Proof.
  destruct cond.
  - intros H.
    apply bind_Ok in H as ([w1 l1] & [[n1 u1] p1] & Hc & H).
    apply io_Ok in Hc as [Hc ->].
    apply bind_Ok in H as ([w2 l2] & [] & Hr & H).
    injection Hr as <- <-. injection H as <- _ <- <- <-.
    apply create_database_Ok_inv in Hc as (-> & -> & Hu & Hp & Hd & Hdu & F).
    split_and!; try done. by exists p1.
  - intros [= <- _ <- <- <-]. split_and!; try done; by split_and!.
Qed.

Lemma wp_stage_Ok app (n : string) (du dp : option string) w l w' l' n' du' dp' :
  (if is_wordpress app
   then let! ' (n, u, p) :=
          if negb (str_truthy du) || negb (str_truthy dp)
          then io (create_database env n None None false)
          else ret (n, default "" du, default "" dp) in
        io (install_wordpress env R n u p false) >>
        record StepWordpress >>
        ret (n, Some u, Some p)
   else ret (n, du, dp)) (w, l) = ((w', l'), Ok (n', du', dp')) →
  Path.join (Path.parent R) "wordpress" ≠ R →
  is_dir R w →
  (is_wordpress app = true → str_truthy du = true ∧ str_truthy dp = true) →
  is_dir R w'
  ∧ n' = n
  ∧ (if is_wordpress app
     then du' = Some (default "" du) ∧ dp' = Some (default "" dp)
          ∧ fs w' !! Path.join R "wp-config.php"
            = Some (File (render_wp_config env n (default "" du)
                            (default "" dp) "localhost"))
     else du' = du ∧ dp' = dp)
  ∧ same_fs_users_sql_proxy false true true true w w'.
Proof.
  intros H Hwp Hd Hcreds. destruct (is_wordpress app).
  - destruct (Hcreds eq_refl) as [Hu Hp]. rewrite Hu, Hp in H.
    cbn [negb orb] in H.
    apply bind_Ok in H as ([w1 l1] & [[n1 u1] p1] & Hr & H).
    injection Hr as <- <- <- <- <-.
    apply bind_Ok in H as ([w2 l2] & [] & Hi & H).
    apply io_Ok in Hi as [Hi ->].
    apply bind_Ok in H as ([w3 l3] & [] & Hr & H).
    injection Hr as <- <-. injection H as <- _ <- <- <-.
    pose proof (frame_same _ _ _
                  (framed_run (Mask true false false false false false false true)
                     _ _ _ _
                     (framed_install_wordpress env
                        (Mask true false false false false false false true)
                        R n (default "" du) (default "" dp) false
                        (λ _, conj eq_refl eq_refl)) Hi)) as F.
    destruct (install_wordpress_Ok env R (join_has_slash _ _) Hwp _ _ _ _ _
                Hd Hi) as [Hd' Hcfg].
    by split_and!.
  - injection H as <- _ <- <- <-. split_and!; try done; by split_and!.
Qed.

Lemma write_site_config_Ok_inv aliases php w w' :
  reload_inert env →
  write_site_config env d aliases R php false w = (w', Ok tt) →
  proxy w' !! P = Some (File (render_caddy_config env d aliases R php))
  ∧ same_fs_users_sql_proxy true true true false w w'.
Proof.
  intros Hinert H.
  assert (Hk : reload_ok env (Mask false true false false false false false true)).
  { split; [done|]. by rewrite Hinert. }
  pose proof (frame_same _ _ _
                (framed_run (Mask false true false false false false false true)
                   _ _ _ _
                   (framed_write_site_config env
                      (Mask false true false false false false false true)
                      d aliases R php false (λ _, conj eq_refl Hk)) H)) as F.
  split; [|exact F].
  unfold write_site_config in H.
  apply bind_Ok in H as (w1 & [] & _ & H).
  apply bind_Ok in H as (w2 & [] & Hw & H).
  assert (H2 : proxy w2 !! P
               = Some (File (render_caddy_config env d aliases R php))).
  { unfold proxy_write_text in Hw.
    destruct (proxy w1 !! P) as [[|?]|]; simplify_eq; apply lookup_insert_eq. }
  unfold run_cmd, subprocess_run in H. rewrite Hinert in H.
  destruct (proc_fails _ _ _); [discriminate|]. simpl in H.
  by injection H as <-.
Qed.

Lemma persist_same state data w l w' l' r :
  (let! state := io (set_site_state state d data) in
   io (when (negb false) (save_state env state)) >>
   record StepState >>
   ret data) (w, l) = ((w', l'), r) →
  same_fs_users_sql_proxy true true true true w w'.
Proof.
  intros H.
  assert (F : framedS (Mask false false true true false false true false)
                (let! state := io (set_site_state state d data) in
                 io (when (negb false) (save_state env state)) >>
                 record StepState >>
                 ret data)).
  { apply framed_bind.
    - apply framed_io. by apply framed_set_site_state.
    - intros st. apply framed_bind; [|intros _].
      + apply framed_io. cbn [negb when]. by apply framed_save_state.
      + apply framed_bind; [apply framed_record | intros _; apply framed_ret]. }
  specialize (F (w, l)). rewrite H in F. by apply frame_same in F.
Qed.

End Provisions.

Lemma site_record_db_password d all_aliases site_root php app db_name u pw
    linux_user :
  PyStr.nonempty u = true →
  site_record d all_aliases site_root php app db_name (Some u) (Some pw)
    linux_user !! "db_password" = Some (JStr pw).
Proof.
  intros Hu. unfold site_record. cbn [str_truthy]. rewrite Hu.
  destruct (str_truthy linux_user);
    repeat (rewrite lookup_insert_ne by discriminate);
    apply lookup_insert_eq.
Qed.

(** X18.  What a completed [add_site] (not a dry run) has set up, the
    reload command being one that only reloads: the site root is a
    directory; the proxy configuration file of the domain holds the
    configuration rendered for the domain, the aliases other than the
    domain and the site root; with [create_user] the account named after
    the first label of the domain exists, with the site root as its home;
    when the returned record has a database name, that database and its
    user exist; and for WordPress the site root holds a wp-config.php
    rendered with the database name and the password of the record. *)
Theorem add_site_provisions env d aliases app php create_user force w w' r :
  reload_inert env →
  add_site env d aliases app php create_user force false w = (w', Ok r) →
  ∃ rec,
    r = JDict rec
    ∧ fs w' !! _site_path env d = Some Dir
    ∧ proxy w' !! get_site_config_path env d
      = Some (File (render_caddy_config env d
                      (filter (λ a, a ≠ d) (default [] aliases))
                      (_site_path env d) (PyStr.strip (str_or php "8.3"))))
    ∧ (create_user = true →
       users w' !! site_user d = Some (_site_path env d))
    ∧ (is_Some (rec !! "db_name") →
       _db_name_from_domain d ∈ databases w'
       ∧ is_Some (db_users w' !! _db_name_from_domain d))
    ∧ (is_wordpress app = true →
       ∃ pw, rec !! "db_password" = Some (JStr pw)
             ∧ fs w' !! Path.join (_site_path env d) "wp-config.php"
               = Some (File (render_wp_config env (_db_name_from_domain d)
                               (_db_name_from_domain d) pw "localhost"))).
Proof.
  intros Hinert H. unfold add_site in H.
  destruct (Validators.validate_domains d (default [] aliases))
    as [[] err] eqn:Hv; [|discriminate].
  assert (Hvd : Validators.validate_domain d = true).
  { unfold Validators.validate_domains in Hv.
    by destruct (Validators.validate_domain d). }
  assert (Hwp : Path.join (Path.parent (_site_path env d)) "wordpress"
                ≠ _site_path env d).
  { unfold _site_path.
    destruct (parent_join (WEB_ROOT env) d (validate_domain_no_slash d Hvd))
      as [-> _].
    unfold Path.join. intros E. apply String.app_inj, String.app_inj in E.
    subst d. vm_compute in Hvd. discriminate Hvd. }
  cbn [negb] in H.
  apply bind_Ok in H as (w1 & state & Hload & H).
  apply bind_Ok in H as (? & existing & [= <- _] & H).
  destruct (_ && _); [discriminate|].
  destruct (add_site_body _ _ _ _ _ _ _ _ _ _ _ _)
    as [[w2 steps_done] [site_data|e]] eqn:Hbody; [|by destruct (negb false)].
  injection H as <- <-.
  unfold add_site_body in Hbody.
  apply bind_Ok in Hbody as ([wa la] & [] & H1 & Hbody).
  apply io_Ok in H1 as [H1 ->]. cbn [negb when] in H1.
  apply bind_Ok in Hbody as ([wb lb] & [] & Hr & Hbody).
  injection Hr as <- <-.
  apply bind_Ok in Hbody as ([wc lc] & linux_user & H3 & Hbody).
  apply bind_Ok in Hbody as ([wd ld] & [[n du] dp] & H4 & Hbody).
  apply bind_Ok in Hbody as ([we le] & [[n' du'] dp'] & H5 & Hbody).
  apply bind_Ok in Hbody as ([wf lf] & [] & H6 & Hbody).
  apply io_Ok in H6 as [H6 ->].
  apply bind_Ok in Hbody as ([wg lg] & [] & Hr & Hbody).
  injection Hr as <- <-.
  pose proof (persist_same env d _ _ _ _ _ _ _ Hbody) as (T1 & T2 & T3 & T4).
  apply persist_record_Ok in Hbody as (-> & _).
  (* 1. the directory *)
  assert (Da : is_dir (_site_path env d) wa).
  { unfold mkdir in H1. unfold is_dir.
    destruct (fs w1 !! _site_path env d) as [[|?]|] eqn:E.
    - destruct force; simplify_eq. done.
    - discriminate.
    - simplify_eq. simpl. apply lookup_insert_eq. }
  (* the account *)
  destruct (user_stage_Ok env d _ _ _ _ _ _ H3 Da) as (Dc & Uc & _ & _ & _ & _).
  (* 2. the database *)
  apply db_stage_Ok in H4 as (-> & Hdb & F4f & F4u & _ & _).
  (* 3. WordPress *)
  assert (Hcreds : is_wordpress app = true →
                   str_truthy du = true ∧ str_truthy dp = true).
  { intros Happ. rewrite Happ in Hdb. cbn [orb] in Hdb.
    destruct Hdb as (-> & Hn & (pw & -> & Hpw) & _). by split. }
  assert (Dd : is_dir (_site_path env d) wd)
    by (unfold is_dir in *; by rewrite (F4f eq_refl)).
  destruct (wp_stage_Ok env d _ _ _ _ _ _ _ _ _ _ _ H5 Hwp Dd Hcreds)
    as (De & -> & Hwpc & _ & F5u & F5s & _).
  (* 4. the proxy configuration *)
  apply (write_site_config_Ok_inv env d _ _ _ _ Hinert) in H6
    as (Hcfg & F6f & F6u & F6s & _).
  eexists. split; [reflexivity|].
  rewrite (T1 eq_refl), (T2 eq_refl), (T4 eq_refl).
  destruct (T3 eq_refl) as [-> ->].
  rewrite (F6f eq_refl), (F6u eq_refl).
  destruct (F6s eq_refl) as [-> ->].
  split_and!.
  - exact De.
  - exact Hcfg.
  - intros Hu. rewrite (F5u eq_refl), (F4u eq_refl). by apply Uc.
  - intros Hname. apply site_record_db_name in Hname.
    destruct (F5s eq_refl) as [-> ->].
    destruct (is_wordpress app || negb (truthy_opt existing)) eqn:Hc.
    + by destruct Hdb as (_ & _ & _ & ? & ?).
    + destruct Hdb as [-> ->]. apply orb_false_iff in Hc as [Happ _].
      rewrite Happ in Hwpc. destruct Hwpc as [-> _]. discriminate.
  - intros Happ. rewrite Happ in Hdb, Hwpc. cbn [orb] in Hdb.
    destruct Hdb as (-> & Hn & (pw & -> & Hpw) & _).
    destruct Hwpc as (-> & -> & Hfile). exists pw. cbn [default from_option id].
    split; [by apply site_record_db_password | exact Hfile].
Qed.

Lemma add_site_provisions_witness :
  let env := default_env calm in
  let w' := (add_site env "example.com" (Some ["www.example.com"])
               (Some "wordpress") None true false false fresh_host).1 in
  fs w' !! _site_path env "example.com" = Some Dir
  ∧ users w' !! site_user "example.com" = Some (_site_path env "example.com")
  ∧ is_file (fs w' !! Path.join (_site_path env "example.com") "wp-config.php").
Proof.
  intros env w'.
  set (run := add_site env "example.com" (Some ["www.example.com"])
                (Some "wordpress") None true false false fresh_host).
  assert (Hinert : reload_inert env) by reflexivity.
  assert (E : run = (w', Ok (match run.2 with Ok v => v | Raise _ => JNull end)))
    by (vm_compute; reflexivity).
  pose proof (add_site_provisions env "example.com" (Some ["www.example.com"])
                (Some "wordpress") None true false fresh_host w'
                (match run.2 with Ok v => v | Raise _ => JNull end) Hinert E)
    as (rec & _ & Hd & _ & Hu & _ & Hw).
  split; [exact Hd|]. split; [exact (Hu eq_refl)|].
  destruct (Hw eq_refl) as (pw & _ & Hf).
  unfold is_file. by rewrite Hf.
Defined.

(* ===================================================================== *)
(** * core/wordpress.py: the text of wp-config.php *)
(* ===================================================================== *)

Section ReplaceFacts.

Import PyStr.

(** A stretch without an opening brace holds no placeholder and is copied. *)
Lemma replace_go_clean old' new v rest :
  occurs "{" v = false →
  replace_go (String "{" old') new 0 (v +:+ rest)
  = v +:+ replace_go (String "{" old') new 0 rest.
Proof.
  induction v as [|c v IHv]; [done|]. simpl occurs.
  intros [Hc Hv]%orb_false_iff. rewrite app_cons.
  cbn [replace_go startswith]. rewrite (Ascii.eqb_sym "{" c), Hc. cbn [andb].
  by rewrite IHv.
Qed.

End ReplaceFacts.

(** X19.  Without a template file, and for a database name, user, password
    and host that hold no opening brace (as every valid identifier and
    every generated password does), [render_wp_config] gives the four
    [define] lines with the values in place. *)
Theorem render_wp_config_default env n u p h :
  WP_CONFIG_TEMPLATE env = None →
  occurs "{" n = false → occurs "{" u = false →
  occurs "{" p = false → occurs "{" h = false →
  render_wp_config env n u p h
  = "<?php" +:+ PyStr.NL
    +:+ "define('DB_NAME', '" +:+ n +:+ "');" +:+ PyStr.NL
    +:+ "define('DB_USER', '" +:+ u +:+ "');" +:+ PyStr.NL
    +:+ "define('DB_PASSWORD', '" +:+ p +:+ "');" +:+ PyStr.NL
    +:+ "define('DB_HOST', '" +:+ h +:+ "');" +:+ PyStr.NL.
Proof.
  intros Ht Hn Hu Hp Hh. unfold render_wp_config. rewrite Ht.
  unfold PyStr.replace.
  set (c0 := "<?php" +:+ PyStr.NL +:+ "define('DB_NAME', '").
  set (c1 := "');" +:+ PyStr.NL +:+ "define('DB_USER', '").
  set (c2 := "');" +:+ PyStr.NL +:+ "define('DB_PASSWORD', '").
  set (c3 := "');" +:+ PyStr.NL +:+ "define('DB_HOST', '").
  set (c4 := "');" +:+ PyStr.NL).
  assert (H0 : occurs "{" c0 = false) by reflexivity.
  assert (H1 : occurs "{" c1 = false) by reflexivity.
  assert (H2 : occurs "{" c2 = false) by reflexivity.
  assert (H3 : occurs "{" c3 = false) by reflexivity.
  assert (H4 : occurs "{" c4 = false) by reflexivity.
  (* the placeholders *)
  assert (hit_n : ∀ new r, PyStr.replace_go "{db_name}" new 0 ("{db_name}" +:+ r)
                           = new +:+ PyStr.replace_go "{db_name}" new 0 r)
    by reflexivity.
  assert (hit_u : ∀ new r, PyStr.replace_go "{db_user}" new 0 ("{db_user}" +:+ r)
                           = new +:+ PyStr.replace_go "{db_user}" new 0 r)
    by reflexivity.
  assert (hit_p : ∀ new r, PyStr.replace_go "{db_pass}" new 0 ("{db_pass}" +:+ r)
                           = new +:+ PyStr.replace_go "{db_pass}" new 0 r)
    by reflexivity.
  assert (hit_h : ∀ new r, PyStr.replace_go "{db_host}" new 0 ("{db_host}" +:+ r)
                           = new +:+ PyStr.replace_go "{db_host}" new 0 r)
    by reflexivity.
  assert (n_u : ∀ new r, PyStr.replace_go "{db_name}" new 0 ("{db_user}" +:+ r)
                         = "{db_user}" +:+ PyStr.replace_go "{db_name}" new 0 r)
    by reflexivity.
  assert (n_p : ∀ new r, PyStr.replace_go "{db_name}" new 0 ("{db_pass}" +:+ r)
                         = "{db_pass}" +:+ PyStr.replace_go "{db_name}" new 0 r)
    by reflexivity.
  assert (n_h : ∀ new r, PyStr.replace_go "{db_name}" new 0 ("{db_host}" +:+ r)
                         = "{db_host}" +:+ PyStr.replace_go "{db_name}" new 0 r)
    by reflexivity.
  assert (u_p : ∀ new r, PyStr.replace_go "{db_user}" new 0 ("{db_pass}" +:+ r)
                         = "{db_pass}" +:+ PyStr.replace_go "{db_user}" new 0 r)
    by reflexivity.
  assert (u_h : ∀ new r, PyStr.replace_go "{db_user}" new 0 ("{db_host}" +:+ r)
                         = "{db_host}" +:+ PyStr.replace_go "{db_user}" new 0 r)
    by reflexivity.
  assert (p_h : ∀ new r, PyStr.replace_go "{db_pass}" new 0 ("{db_host}" +:+ r)
                         = "{db_host}" +:+ PyStr.replace_go "{db_pass}" new 0 r)
    by reflexivity.
  change ("<?php" +:+ PyStr.NL
          +:+ "define('DB_NAME', '{db_name}');" +:+ PyStr.NL
          +:+ "define('DB_USER', '{db_user}');" +:+ PyStr.NL
          +:+ "define('DB_PASSWORD', '{db_pass}');" +:+ PyStr.NL
          +:+ "define('DB_HOST', '{db_host}');" +:+ PyStr.NL)
    with (c0 +:+ "{db_name}" +:+ c1 +:+ "{db_user}" +:+ c2 +:+ "{db_pass}"
          +:+ c3 +:+ "{db_host}" +:+ c4 +:+ "").
  rewrite (replace_go_clean _ _ c0) by done. rewrite hit_n.
  rewrite (replace_go_clean _ _ c1) by done. rewrite n_u.
  rewrite (replace_go_clean _ _ c2) by done. rewrite n_p.
  rewrite (replace_go_clean _ _ c3) by done. rewrite n_h.
  rewrite (replace_go_clean _ _ c4) by done.
  change (PyStr.replace_go "{db_name}" n 0 "") with "".
  rewrite (replace_go_clean _ _ c0) by done.
  rewrite (replace_go_clean _ _ n) by done.
  rewrite (replace_go_clean _ _ c1) by done. rewrite hit_u.
  rewrite (replace_go_clean _ _ c2) by done. rewrite u_p.
  rewrite (replace_go_clean _ _ c3) by done. rewrite u_h.
  rewrite (replace_go_clean _ _ c4) by done.
  change (PyStr.replace_go "{db_user}" u 0 "") with "".
  rewrite (replace_go_clean _ _ c0) by done.
  rewrite (replace_go_clean _ _ n) by done.
  rewrite (replace_go_clean _ _ c1) by done.
  rewrite (replace_go_clean _ _ u) by done.
  rewrite (replace_go_clean _ _ c2) by done. rewrite hit_p.
  rewrite (replace_go_clean _ _ c3) by done. rewrite p_h.
  rewrite (replace_go_clean _ _ c4) by done.
  change (PyStr.replace_go "{db_pass}" p 0 "") with "".
  rewrite (replace_go_clean _ _ c0) by done.
  rewrite (replace_go_clean _ _ n) by done.
  rewrite (replace_go_clean _ _ c1) by done.
  rewrite (replace_go_clean _ _ u) by done.
  rewrite (replace_go_clean _ _ c2) by done.
  rewrite (replace_go_clean _ _ p) by done.
  rewrite (replace_go_clean _ _ c3) by done. rewrite hit_h.
  rewrite (replace_go_clean _ _ c4) by done.
  change (PyStr.replace_go "{db_host}" h 0 "") with "".
  subst c0 c1 c2 c3 c4.
  rewrite !str_app_assoc. reflexivity.
Qed.

Lemma render_wp_config_default_witness :
  render_wp_config (default_env calm) "example_com" "example_com" "s3cret"
    "localhost"
  = "<?php" +:+ PyStr.NL
    +:+ "define('DB_NAME', 'example_com');" +:+ PyStr.NL
    +:+ "define('DB_USER', 'example_com');" +:+ PyStr.NL
    +:+ "define('DB_PASSWORD', 's3cret');" +:+ PyStr.NL
    +:+ "define('DB_HOST', 'localhost');" +:+ PyStr.NL.
Proof.
  by apply (render_wp_config_default (default_env calm) "example_com"
              "example_com" "s3cret" "localhost").
Defined.

(* ===================================================================== *)
(** * add_site: the guard against an existing site *)
(* ===================================================================== *)

(** X20.  For a domain whose record in the state file is truthy,
    [add_site] without [force] raises "Site already exists", dry run or
    not, before anything is set up: nothing has changed, but that the state
    directory was created if it was missing. *)
Theorem add_site_refuses_existing env d aliases app php create_user dry_run
    w m sites data :
  (Validators.validate_domains d (default [] aliases)).1 = true →
  state_dir w ≠ Regular →
  state_file w = Json (JDict m) →
  m !! "sites" = Some (JDict sites) →
  sites !! d = Some data →
  truthy data = true →
  ∃ w',
    add_site env d aliases app php create_user false dry_run w
    = (w', Raise (ValueError ("Site already exists: " +:+ d
                              +:+ ". Use --force to replace.")))
    ∧ only_state_dir w w'.
Proof.
  intros Hv Hdir Hfile Hsites Hrec Ht.
  pose proof (load_state_only_state_dir env w) as Hl.
  assert (Hload : load_state env w = (ensured w, Ok (doc_of_dict m))).
  { rewrite load_state_result, Hfile. by destruct (state_dir w). }
  rewrite Hload in Hl. simpl in Hl.
  exists (ensured w). split; [|exact Hl].
  unfold add_site.
  destruct (Validators.validate_domains d (default [] aliases)) as [ok err].
  simpl in Hv. subst ok. cbn [negb].
  rewrite (bind_eq _ _ _ _ _ Hload).
  unfold bind, get_site_state, sites_of, doc_of_dict. cbn [doc_sites].
  rewrite Hsites, Hrec. cbn [truthy_opt]. by rewrite Ht.
Qed.

Lemma add_site_refuses_existing_witness :
  ∃ w',
    add_site (default_env calm) "example.com" None None None false false false
      host_with_record
    = (w', Raise (ValueError ("Site already exists: " +:+ "example.com"
                              +:+ ". Use --force to replace.")))
    ∧ only_state_dir host_with_record w'.
Proof.
  apply (add_site_refuses_existing (default_env calm) "example.com" None None
           None false false host_with_record
           {[ "sites" := JDict {[ "example.com" := JDict record_with_database ]} ]}
           {[ "example.com" := JDict record_with_database ]}
           (JDict record_with_database)).
  - vm_compute. reflexivity.
  - discriminate.
  - reflexivity.
  - vm_compute. reflexivity.
  - vm_compute. reflexivity.
  - vm_compute. reflexivity.
Defined.
